(** * prediction_and_shapley/1/model.py: GraphSAGE embedding, XGBoost scoring,
      Shapley attribution behind a Triton Python backend.

    The Python module is embedded shallowly:
    - tensors are matrices of rationals (float32 idealised as exact
      arithmetic) that carry their column count, so that shapes such as
      [(0, F)] and [(1, 0)] are represented; the conversions the module
      makes are kept: the feature mask is cast to int32, the two outputs to
      the configured element types;
    - a Python exception is a value of [PyError] and fallible code returns
      [result];
    - code that touches the object [self], torch's random generator or that
      calls into a library runs in the monad [Py], whose state also keeps the
      list of library calls made so far;
    - the libraries the module calls (torch, torch_geometric, pb_utils) are
      given the behaviour they document; xgboost's [predict] and captum's
      [attribute] follow the specification's sections 4.2 and 4.4. *)

From Stdlib Require Import ZArith QArith Qround List String Ascii Lia Permutation.
From stdpp Require Import base option list gmap strings.

Local Open Scope Z_scope.

(** ** Python exceptions and results *)

Inductive PyError : Type :=
| KeyError (key : string)
| ValueError (msg : string)
| TypeError (msg : string)
| AttributeError (msg : string)
| IndexError (msg : string)
| RuntimeError (msg : string)
| FileNotFoundError (path : string)
| XGBoostError (msg : string).

Inductive result (A : Type) : Type :=
| Ok (a : A)
| Raise (e : PyError).
Arguments Ok {A} a.
Arguments Raise {A} e.

Definition is_ok {A} (r : result A) : bool :=
  match r with Ok _ => true | Raise _ => false end.

Definition rbind {A B} (r : result A) (k : A -> result B) : result B :=
  match r with
  | Ok a => k a
  | Raise e => Raise e
  end.

(** ** Tensors *)

Record Tensor : Type := mkTensor {
  t_cols : nat;
  t_rows : list (list Q)
}.

Definition shape (t : Tensor) : nat * nat := (length (t_rows t), t_cols t).

Definition well_shaped (t : Tensor) : Prop :=
  Forall (fun r => length r = t_cols t) (t_rows t).

Definition all_zero (t : Tensor) : Prop :=
  Forall (Forall (fun v => v = 0%Q)) (t_rows t).

(** [torch.zeros((r, c))] *)
Definition zeros (r c : nat) : Tensor :=
  mkTensor c (repeat (repeat 0%Q c) r).

(** [torch.zeros_like(t)] *)
Definition zeros_like (t : Tensor) : Tensor :=
  mkTensor (t_cols t) (map (map (fun _ => 0%Q)) (t_rows t)).

Definition Qsum (l : list Q) : Q := fold_right Qplus 0%Q l.

Definition dot (u v : list Q) : Q := Qsum (zip_with Qmult u v).

Definition vadd (u v : list Q) : list Q := zip_with Qplus u v.
Definition vsub (u v : list Q) : list Q := zip_with Qminus u v.

(** Column-wise sum of rows of width [w]. *)
Definition vsum (w : nat) (rows : list (list Q)) : list Q :=
  fold_right vadd (repeat 0%Q w) rows.

(** [torch.nn.Linear]: weight has one row per output feature. *)
Record Linear : Type := mkLinear {
  lin_weight : Tensor;
  lin_bias : option (list Q)
}.

Definition in_features (l : Linear) : nat := t_cols (lin_weight l).
Definition out_features (l : Linear) : nat := length (t_rows (lin_weight l)).

Definition Linear_wf (l : Linear) : Prop :=
  well_shaped (lin_weight l) /\
  match lin_bias l with
  | Some b => length b = out_features l
  | None => True
  end.

Definition add_bias (v : list Q) (bias : option (list Q)) : list Q :=
  match bias with
  | Some b => vadd v b
  | None => v
  end.

Definition Linear_forward (l : Linear) (x : Tensor) : result Tensor :=
  if Nat.eqb (t_cols x) (in_features l) then
    Ok (mkTensor (out_features l)
          (map (fun r => add_bias (map (dot r) (t_rows (lin_weight l))) (lin_bias l))
               (t_rows x)))
  else Raise (RuntimeError "mat1 and mat2 shapes cannot be multiplied").

(** [F.relu] *)
Definition relu_q (v : Q) : Q := if Qle_bool 0 v then v else 0%Q.
Definition relu (t : Tensor) : Tensor :=
  mkTensor (t_cols t) (map (map relu_q) (t_rows t)).

(** [torch.cat((a, b), dim=1)] *)
Definition cat_dim1 (a b : Tensor) : result Tensor :=
  if Nat.eqb (length (t_rows a)) (length (t_rows b)) then
    Ok (mkTensor (t_cols a + t_cols b) (zip_with (@app Q) (t_rows a) (t_rows b)))
  else Raise (RuntimeError "Sizes of tensors must match except in dimension 1").

(** ** torch_geometric.nn.SAGEConv (mean aggregation, root weight, bias)

    [edge_index] is the [2 x E] integer matrix, kept as its list of columns
    (source, target). *)

Definition EdgeIndex : Type := list (Z * Z).

Record SAGEConv : Type := mkSAGEConv {
  lin_l : Linear;   (* applied to the aggregated neighbours, with bias *)
  lin_r : Linear    (* applied to the node itself, without bias *)
}.

Definition SAGEConv_wf (cin cout : nat) (c : SAGEConv) : Prop :=
  Linear_wf (lin_l c) /\ Linear_wf (lin_r c) /\
  in_features (lin_l c) = cin /\ out_features (lin_l c) = cout /\
  in_features (lin_r c) = cin /\ out_features (lin_r c) = cout.

Definition edge_in_range (n : nat) (e : Z * Z) : bool :=
  (0 <=? fst e) && (fst e <? Z.of_nat n) && (0 <=? snd e) && (snd e <? Z.of_nat n).

(** Rows sent to node [i]: one per edge whose target is [i]. *)
Definition messages (x : Tensor) (edge_index : EdgeIndex) (i : nat) : list (list Q) :=
  omap (fun e : Z * Z =>
          if Z.eqb (snd e) (Z.of_nat i) then t_rows x !! Z.to_nat (fst e) else None)
       edge_index.

(** Mean over the incoming rows; the zero vector when there are none. *)
Definition mean_rows (w : nat) (rows : list (list Q)) : list Q :=
  match rows with
  | [] => repeat 0%Q w
  | _ => map (fun s => (s / inject_Z (Z.of_nat (length rows)))%Q) (vsum w rows)
  end.

Definition aggregate (x : Tensor) (edge_index : EdgeIndex) : Tensor :=
  mkTensor (t_cols x)
    (map (fun i => mean_rows (t_cols x) (messages x edge_index i))
         (seq 0 (length (t_rows x)))).

Definition tensor_add (a b : Tensor) : Tensor :=
  mkTensor (t_cols a) (zip_with vadd (t_rows a) (t_rows b)).

Definition SAGEConv_forward (c : SAGEConv) (x : Tensor) (edge_index : EdgeIndex)
  : result Tensor :=
  if forallb (edge_in_range (length (t_rows x))) edge_index then
    rbind (Linear_forward (lin_l c) (aggregate x edge_index)) (fun out =>
    rbind (Linear_forward (lin_r c) x) (fun root =>
    Ok (tensor_add out root)))
  else Raise (IndexError "index out of range in edge_index").

(** ** xgboost.Booster

    The loaded tree ensemble is kept as the number of features it was trained
    on and the score it assigns to one row. *)

Record Booster : Type := mkBooster {
  num_feature : nat;
  bst_score : list Q -> Q
}.

(** Modelled from the spec: [xgboost.Booster.predict] is library code that is
    not under src/; spec 4.2 has it fail only when the width of the rows
    differs from the width the ensemble expects, and return one score per
    row. *)
Definition Booster_predict (b : Booster) (dmatrix : Tensor) : result (list Q) :=
  if Nat.eqb (t_cols dmatrix) (num_feature b) then
    Ok (map (bst_score b) (t_rows dmatrix))
  else Raise (XGBoostError "Number of columns does not match number of features in booster").

(** ** class GraphSAGE *)

Record GraphSAGE : Type := mkGraphSAGE {
  m_in_channels : Z;
  m_hidden_channels : Z;
  m_out_channels : Z;
  m_n_layers : Z;
  convs : list SAGEConv;
  fc : Linear;
  dropout_prob : Q;
  training : bool
}.

(** Shapes that [GraphSAGE.__init__] gives the layers: the first convolution
    maps [in_channels] to [hidden_channels], the others keep
    [hidden_channels]; [fc] reads [hidden_channels + in_channels]. *)
Fixpoint convs_wf (cin cout : nat) (cs : list SAGEConv) : Prop :=
  match cs with
  | [] => True
  | c :: rest => SAGEConv_wf cin cout c /\ convs_wf cout cout rest
  end.

Definition GraphSAGE_wf (m : GraphSAGE) : Prop :=
  0 <= m_in_channels m /\ 0 <= m_hidden_channels m /\
  convs m <> [] /\
  convs_wf (Z.to_nat (m_in_channels m)) (Z.to_nat (m_hidden_channels m)) (convs m).

(** ** The object [self] of TritonPythonModel *)

Inductive DType : Type :=
| np_bool | np_uint8 | np_uint16 | np_uint32 | np_uint64
| np_int8 | np_int16 | np_int32 | np_int64
| np_float16 | np_float32 | np_float64 | np_object.

Record TritonPythonModel : Type := mkTritonPythonModel {
  in_channels : Z;
  hidden_channels : Z;
  out_channels : Z;
  n_layers : Z;
  embedder_state_dict_filename : string;
  xgb_model_filename : string;
  feature_mask_dtype : DType;
  prediction_dtype : DType;
  shap_dtype : DType;
  model : GraphSAGE;
  bst : Booster
}.

(** ** Conversions between element types *)

(** [tensor.to(torch.int32)] on integers: the value modulo [2^32], in
    [-2^31 .. 2^31 - 1]. *)
Definition to_int32 (z : Z) : Z := (z + 2 ^ 31) mod 2 ^ 32 - 2 ^ 31.

(** Truncation toward zero. *)
Definition Qtrunc (v : Q) : Z := if Qle_bool 0 v then Qfloor v else Qceiling v.


(** [array.astype(dtype)] on an array of floats, entry by entry: a float type
    keeps the value (the rounding to float16 is not modelled, as that of
    float32 is not), [np.object_] keeps it as a Python float, bool is
    [v != 0], an integer type truncates toward zero. numpy defines no result
    for a value outside the range of an integer type; it is left as its
    truncation here. *)
Definition cast (d : DType) (v : Q) : Q :=
  match d with
  | np_float16 | np_float32 | np_float64 | np_object => v
  | np_bool => if Qeq_bool v 0 then 0%Q else 1%Q
  | _ => inject_Z (Qtrunc v)
  end.

Definition astype (d : DType) (t : Tensor) : Tensor :=
  mkTensor (t_cols t) (map (map (cast d)) (t_rows t)).

(** ** Library calls that are recorded *)

Inductive Call : Type :=
| CallModel (x : Tensor) (edge_index : EdgeIndex) (return_hidden : bool)
| CallPredict (dmatrix : Tensor)
| CallShapleyValueSampling
| CallAttribute (inputs baselines : Tensor) (feature_mask : list Z) (n_samples : Z)
| CallRandperm (groups : list Z).

Section Pipeline.

(** torch's random generator: its state, a Bernoulli draw (used by dropout)
    and the draw of a random arrangement of a list (used by the sampler). *)
Variable RngState : Type.
Variable bernoulli : RngState -> Q -> bool * RngState.
Variable randperm : RngState -> list Z -> list Z * RngState.

Record World : Type := mkWorld {
  py_self : TritonPythonModel;
  rng : RngState;
  calls : list Call
}.

Definition Py (A : Type) : Type := World -> result A * World.

Definition ret {A} (a : A) : Py A := fun w => (Ok a, w).

Definition bind {A B} (m : Py A) (k : A -> Py B) : Py B :=
  fun w =>
    match m w with
    | (Ok a, w') => k a w'
    | (Raise e, w') => (Raise e, w')
    end.

Definition raise {A} (e : PyError) : Py A := fun w => (Raise e, w).

Definition lift {A} (r : result A) : Py A := fun w => (r, w).

Definition get_self : Py TritonPythonModel := fun w => (Ok (py_self w), w).

Definition record (c : Call) : Py unit :=
  fun w => (Ok tt, mkWorld (py_self w) (rng w) (calls w ++ [c])).

Definition draw_bernoulli (p : Q) : Py bool :=
  fun w => let (b, r) := bernoulli (rng w) p in
           (Ok b, mkWorld (py_self w) r (calls w)).

Definition draw_randperm (groups : list Z) : Py (list Z) :=
  fun w => let (perm, r) := randperm (rng w) groups in
           (Ok perm, mkWorld (py_self w) r (calls w ++ [CallRandperm groups])).

Notation "'let*' x ':=' m 'in' k" := (bind m (fun x => k))
  (at level 10, x name, m at level 100, k at level 200).
Notation "m ';;' k" := (bind m (fun _ => k))
  (at level 100, k at level 200, right associativity).

Fixpoint mapM {A B} (f : A -> Py B) (l : list A) : Py (list B) :=
  match l with
  | [] => ret []
  | a :: rest =>
      let* b := f a in
      let* bs := mapM f rest in
      ret (b :: bs)
  end.

Fixpoint foldM {A B} (f : B -> A -> Py B) (l : list A) (acc : B) : Py B :=
  match l with
  | [] => ret acc
  | a :: rest => let* acc' := f acc a in foldM f rest acc'
  end.

(** [F.dropout(input, p, training)]: the identity unless [training]; then
    every entry is kept with probability [1 - p] and scaled by [1 / (1 - p)]. *)
Definition dropout_entry (p : Q) (v : Q) : Py Q :=
  let* keep := draw_bernoulli (1 - p)%Q in
  ret (if keep then (v / (1 - p))%Q else 0%Q).

Definition dropout (input : Tensor) (p : Q) (train : bool) : Py Tensor :=
  if Qle_bool 0 p && Qle_bool p 1 then
    if train then
      let* rows := mapM (mapM (dropout_entry p)) (t_rows input) in
      ret (mkTensor (t_cols input) rows)
    else ret input
  else raise (ValueError "dropout probability has to be between 0 and 1").

(** The loop of [GraphSAGE.forward] over [self.convs]. *)
Fixpoint conv_loop (m : GraphSAGE) (cs : list SAGEConv) (embeddings : Tensor)
    (edge_index : EdgeIndex) : Py Tensor :=
  match cs with
  | [] => ret embeddings
  | conv :: rest =>
      let* e1 := lift (SAGEConv_forward conv embeddings edge_index) in
      let e2 := relu e1 in
      let* e3 := dropout e2 (dropout_prob m) (training m) in
      conv_loop m rest e3 edge_index
  end.

Definition GraphSAGE_forward (m : GraphSAGE) (x : Tensor) (edge_index : EdgeIndex)
    (return_hidden : bool) : Py Tensor :=
  let embeddings := x in
  let* embeddings := conv_loop m (convs m) embeddings edge_index in
  let* cat := lift (cat_dim1 x embeddings) in
  if return_hidden then ret cat
  else lift (Linear_forward (fc m) cat).

(** [self.model(x, edge_index, return_hidden)] *)
Definition model_call (m : GraphSAGE) (x : Tensor) (edge_index : EdgeIndex)
    (return_hidden : bool) : Py Tensor :=
  record (CallModel x edge_index return_hidden);;
  GraphSAGE_forward m x edge_index return_hidden.

(** [self.bst.predict(xgb.DMatrix(embeddings.detach()))] *)
Definition bst_predict (b : Booster) (embeddings : Tensor) : Py (list Q) :=
  record (CallPredict embeddings);;
  lift (Booster_predict b embeddings).


(** ** The scoring function handed to the sampler

    [forward_function] is the closure defined inside [execute]; it captures
    [self] and the request's [edge_index_numpy]. *)
Definition forward_function (edge_index_numpy : EdgeIndex) (node_x_tensor : Tensor)
  : Py (list Q) :=
  let* self := get_self in
  let* embeddings := model_call (model self) node_x_tensor edge_index_numpy true in
  bst_predict (bst self) embeddings.

(** ** captum.attr.ShapleyValueSampling *)

(** Replace, in [running], the features of coalition group [g] by the values
    of [inputs]. *)
Definition switch_on_row (feature_mask : list Z) (g : Z) (input_row running_row : list Q)
  : list Q :=
  zip_with (fun (mk : Z) (p : Q * Q) => if Z.eqb mk g then fst p else snd p)
    feature_mask (zip input_row running_row).

Definition switch_on (feature_mask : list Z) (g : Z) (inputs running : Tensor) : Tensor :=
  mkTensor (t_cols running)
    (zip_with (switch_on_row feature_mask g) (t_rows inputs) (t_rows running)).

(** State of one walk along a permutation: the running input, the score of
    the previous running input, and the marginal contributions recorded so
    far, each with its group. *)
Record WalkState : Type := mkWalkState {
  running : Tensor;
  prev_eval : list Q;
  recorded : list (Z * list Q)
}.

Definition walk_step (forward_func : Tensor -> Py (list Q)) (inputs : Tensor)
    (feature_mask : list Z) (st : WalkState) (g : Z) : Py WalkState :=
  let next := switch_on feature_mask g inputs (running st) in
  let* modified_eval := forward_func next in
  if Nat.eqb (length modified_eval) (length (t_rows inputs)) then
    ret (mkWalkState next modified_eval
           (recorded st ++ [(g, vsub modified_eval (prev_eval st))]))
  else raise (RuntimeError "forward function must return one score per example").

(** One sample: draw a permutation of the groups and walk it from the
    baseline. *)
Definition sample_once (forward_func : Tensor -> Py (list Q)) (inputs baselines : Tensor)
    (feature_mask : list Z) (groups : list Z) (initial_eval : list Q)
    (acc : list (Z * list Q)) (_ : nat) : Py (list (Z * list Q)) :=
  let* perm := draw_randperm groups in
  let* st := foldM (walk_step forward_func inputs feature_mask) perm
               (mkWalkState baselines initial_eval acc) in
  ret (recorded st).

(** Sum over the samples of the contributions recorded for group [g], at
    node [i]. *)
Definition group_total (recs : list (Z * list Q)) (g : Z) (i : nat) : Q :=
  Qsum (map (fun r : Z * list Q =>
               if Z.eqb (fst r) g then default 0%Q (snd r !! i) else 0%Q) recs).

Definition attribution_row (recs : list (Z * list Q)) (feature_mask : list Z)
    (n_samples : Z) (i : nat) : list Q :=
  map (fun g => (group_total recs g i / inject_Z n_samples)%Q) feature_mask.

(** Modelled from the spec: [ShapleyValueSampling.attribute] is library code
    (captum) that is not under src/; spec 4.4 gives its algorithm: per sample
    a random permutation of the coalition groups, a walk that switches the
    groups on one at a time starting from the baseline, the difference of
    consecutive scores recorded for the group, the average over the samples
    replicated to every feature of the group; [n_samples >= 1] and equal
    shapes of baseline and input are required. The score of the baseline is
    evaluated once. *)
Definition attribute (forward_func : Tensor -> Py (list Q)) (inputs baselines : Tensor)
    (feature_mask : list Z) (n_samples : Z) : Py Tensor :=
  if n_samples <? 1 then raise (ValueError "n_samples must be at least 1")
  else if negb (Nat.eqb (length (t_rows baselines)) (length (t_rows inputs))
                && Nat.eqb (t_cols baselines) (t_cols inputs))
  then raise (RuntimeError "baselines and inputs must have the same shape")
  else if negb (Nat.eqb (length feature_mask) (t_cols inputs))
  then raise (RuntimeError "feature_mask does not match the feature width")
  else
    let groups := remove_dups feature_mask in
    let* initial_eval := forward_func baselines in
    if Nat.eqb (length initial_eval) (length (t_rows inputs)) then
      let* recs := foldM (sample_once forward_func inputs baselines feature_mask
                            groups initial_eval)
                     (seq 0 (Z.to_nat n_samples)) [] in
      ret (mkTensor (t_cols inputs)
             (map (attribution_row recs feature_mask n_samples)
                  (seq 0 (length (t_rows inputs)))))
    else raise (RuntimeError "forward function must return one score per example").

(** [shapley_sampler.attribute(inputs, baselines=..., feature_mask=...,
    n_samples=...)] *)
Definition attribute_call (shapley_sampler : Tensor -> Py (list Q))
    (inputs baselines : Tensor) (feature_mask : list Z) (n_samples : Z) : Py Tensor :=
  record (CallAttribute inputs baselines feature_mask n_samples);;
  attribute shapley_sampler inputs baselines feature_mask n_samples.

(** [ShapleyValueSampling(forward_function)] *)
Definition ShapleyValueSampling (forward_func : Tensor -> Py (list Q))
  : Py (Tensor -> Py (list Q)) :=
  record CallShapleyValueSampling;;
  ret forward_func.

(** ** TritonPythonModel.execute *)

Record InferenceRequest : Type := mkInferenceRequest {
  NODE_FEATURES : option Tensor;
  EDGE_INDEX : option EdgeIndex;
  COMPUTE_SHAP : option (list bool);
  FEATURE_MASK : option (list Z)
}.

Record PbTensor : Type := mkPbTensor {
  pb_name : string;
  pb_dtype : DType;
  pb_data : Tensor
}.

Record InferenceResponse : Type := mkInferenceResponse {
  output_tensors : list PbTensor
}.

(** [pb_utils.get_input_tensor_by_name(request, name).as_numpy()]: the lookup
    gives [None] for an input the request lacks, and [None] has no
    [as_numpy]. *)
Definition as_numpy {A} (input : option A) : Py A :=
  match input with
  | Some a => ret a
  | None => raise (AttributeError "'NoneType' object has no attribute 'as_numpy'")
  end.

(** [a[0]] on a one-dimensional array *)
Definition index0 {A} (a : list A) : Py A :=
  match a with
  | v :: _ => ret v
  | [] => raise (IndexError "index 0 is out of bounds for axis 0 with size 0")
  end.

(** [scores[:, None]] *)
Definition column (scores : list Q) : Tensor :=
  mkTensor 1 (map (fun v => [v]) scores).

(** The body of the loop of [execute] for one request. The feature mask is
    cast to int32 before it reaches the sampler, and each output array is
    converted to its configured element type; [.to(torch.float32)] on the
    features keeps the values. *)
Definition execute_request (request : InferenceRequest) : Py InferenceResponse :=
  let* self := get_self in
  let* node_features_numpy := as_numpy (NODE_FEATURES request) in
  let* edge_index_numpy := as_numpy (EDGE_INDEX request) in
  let* compute_shap_numpy := as_numpy (COMPUTE_SHAP request) in
  let* feature_mask_numpy := as_numpy (FEATURE_MASK request) in
  let* embeddings := model_call (model self) node_features_numpy edge_index_numpy true in
  let* scores := bst_predict (bst self) embeddings in
  let y_pred_prob := column scores in
  let* flag := index0 compute_shap_numpy in
  let* attributions :=
    (if flag then
       let* shapley_sampler := ShapleyValueSampling (forward_function edge_index_numpy) in
       let x_input := node_features_numpy in
       let baseline := zeros_like x_input in
       attribute_call shapley_sampler x_input baseline (map to_int32 feature_mask_numpy) 128
     else
       if 0 <=? in_channels self then ret (zeros 1 (Z.to_nat (in_channels self)))
       else raise (RuntimeError "Trying to create tensor with negative dimension")) in
  ret (mkInferenceResponse
         [ mkPbTensor "PREDICTION" (prediction_dtype self)
             (astype (prediction_dtype self) y_pred_prob);
           mkPbTensor "SHAP_VALUES" (shap_dtype self)
             (astype (shap_dtype self) attributions) ]).

(** [execute]: the responses are returned only after the loop has run over
    every request; an exception leaves the loop and the method. *)
Fixpoint execute_loop (requests : list InferenceRequest)
    (responses : list InferenceResponse) : Py (list InferenceResponse) :=
  match requests with
  | [] => ret responses
  | request :: rest =>
      let* inference_response := execute_request request in
      execute_loop rest (responses ++ [inference_response])
  end.

Definition execute (requests : list InferenceRequest) : Py (list InferenceResponse) :=
  execute_loop requests [].

End Pipeline.

Arguments mkWorld {RngState} _ _ _.
Arguments py_self {RngState} _.
Arguments rng {RngState} _.
Arguments calls {RngState} _.
Arguments Py RngState A : clear implicits.
Arguments ret {RngState A} a.
Arguments bind {RngState A B} m k.
Arguments raise {RngState A} e.
Arguments lift {RngState A} r.
Arguments get_self {RngState}.
Arguments record {RngState} c.
Arguments draw_bernoulli {RngState} bernoulli p.
Arguments draw_randperm {RngState} randperm groups.
Arguments mapM {RngState A B} f l.
Arguments foldM {RngState A B} f l acc.
Arguments dropout_entry {RngState} bernoulli p v.
Arguments dropout {RngState} bernoulli input p train.
Arguments conv_loop {RngState} bernoulli m cs embeddings edge_index.
Arguments GraphSAGE_forward {RngState} bernoulli m x edge_index return_hidden.
Arguments model_call {RngState} bernoulli m x edge_index return_hidden.
Arguments bst_predict {RngState} b embeddings.
Arguments forward_function {RngState} bernoulli edge_index_numpy node_x_tensor.
Arguments walk_step {RngState} forward_func inputs feature_mask st g.
Arguments sample_once {RngState} randperm forward_func inputs baselines feature_mask
  groups initial_eval acc _.
Arguments attribute {RngState} randperm forward_func inputs baselines feature_mask n_samples.
Arguments attribute_call {RngState} randperm shapley_sampler inputs baselines feature_mask
  n_samples.
Arguments ShapleyValueSampling {RngState} forward_func.
Arguments as_numpy {RngState A} input.
Arguments index0 {RngState A} a.
Arguments execute_request {RngState} bernoulli randperm request.
Arguments execute_loop {RngState} bernoulli randperm requests responses.
Arguments execute {RngState} bernoulli randperm requests.

(** ** TritonPythonModel.initialize *)

Notation "'try' x ':=' r 'in' k" := (rbind r (fun x => k))
  (at level 10, x name, r at level 100, k at level 200).

(** The model configuration after [json.loads]: the dictionary
    ["parameters"] (name to dictionary with a ["string_value"]), and the
    declared inputs and outputs. *)
Record IOConfig : Type := mkIOConfig {
  io_name : string;
  io_data_type : string
}.

Record ModelConfig : Type := mkModelConfig {
  cfg_parameters : option (gmap string (gmap string string));
  cfg_input : list IOConfig;
  cfg_output : list IOConfig
}.

(** [d[key]] on a dictionary *)
Definition getitem {V} (d : gmap string V) (key : string) : result V :=
  match d !! key with
  | Some v => Ok v
  | None => Raise (KeyError key)
  end.

(** [int(s)] on a string: surrounding white space, an optional sign, decimal
    digits that single underscores may separate. *)
Definition is_space (c : ascii) : bool :=
  let n := nat_of_ascii c in
  Nat.eqb n 32 || (Nat.leb 9 n && Nat.leb n 13) || (Nat.leb 28 n && Nat.leb n 31).

Definition digit_of (c : ascii) : option Z :=
  let n := Z.of_nat (nat_of_ascii c) in
  if (48 <=? n) && (n <=? 57) then Some (n - 48) else None.

Fixpoint parse_digits (acc : Z) (after_digit : bool) (l : list ascii) : option Z :=
  match l with
  | [] => if after_digit then Some acc else None
  | c :: rest =>
      match digit_of c with
      | Some d => parse_digits (10 * acc + d) true rest
      | None =>
          if Ascii.eqb c "_"%char && after_digit then parse_digits acc false rest
          else None
      end
  end.

Fixpoint lstrip (l : list ascii) : list ascii :=
  match l with
  | c :: rest => if is_space c then lstrip rest else l
  | [] => []
  end.

Definition strip (l : list ascii) : list ascii := rev (lstrip (rev (lstrip l))).

Definition py_int (s : string) : result Z :=
  let body := strip (list_ascii_of_string s) in
  let parsed :=
    match body with
    | "-"%char :: ds => option_map Z.opp (parse_digits 0 false ds)
    | "+"%char :: ds => parse_digits 0 false ds
    | ds => parse_digits 0 false ds
    end in
  match parsed with
  | Some z => Ok z
  | None => Raise (ValueError "invalid literal for int() with base 10")
  end.

(** [pb_utils.get_input_config_by_name] and [get_output_config_by_name]:
    the first entry with that name, or [None]. *)
Definition get_config_by_name (entries : list IOConfig) (name : string) : option IOConfig :=
  List.find (fun e => String.eqb (io_name e) name) entries.

(** [config["data_type"]] on what the lookup returned *)
Definition data_type_of (config : option IOConfig) : result string :=
  match config with
  | Some c => Ok (io_data_type c)
  | None => Raise (TypeError "'NoneType' object is not subscriptable")
  end.

Definition TRITON_STRING_TO_NUMPY : list (string * DType) :=
  [ ("TYPE_BOOL", np_bool); ("TYPE_UINT8", np_uint8); ("TYPE_UINT16", np_uint16);
    ("TYPE_UINT32", np_uint32); ("TYPE_UINT64", np_uint64); ("TYPE_INT8", np_int8);
    ("TYPE_INT16", np_int16); ("TYPE_INT32", np_int32); ("TYPE_INT64", np_int64);
    ("TYPE_FP16", np_float16); ("TYPE_FP32", np_float32); ("TYPE_FP64", np_float64);
    ("TYPE_STRING", np_object) ]%string.

Definition triton_string_to_numpy (s : string) : result DType :=
  match List.find (fun e : string * DType => String.eqb (fst e) s) TRITON_STRING_TO_NUMPY with
  | Some e => Ok (snd e)
  | None => Raise (KeyError s)
  end.

(** A tensor with [r] rows, all of width [c]. *)
Definition has_shape (t : Tensor) (r c : nat) : bool :=
  Nat.eqb (length (t_rows t)) r && Nat.eqb (t_cols t) c
  && forallb (fun row => Nat.eqb (length row) c) (t_rows t).

(** [SAGEConv(in_channels, out_channels)] and [nn.Linear(in, out)]: the
    parameters are allocated with their shapes; the values they start with
    are replaced by [load_state_dict] and are kept as zeros here. A negative
    size is refused. torch_geometric sizes a layer lazily, from the first
    weights it is given, when its input size is not positive; that case is
    left out, so the layers here are those of a configuration whose
    [in_channels] and [hidden_channels] are positive. *)
Definition Linear_init (cin cout : Z) (with_bias : bool) : result Linear :=
  if (cin <? 0) || (cout <? 0) then
    Raise (RuntimeError "Trying to create tensor with negative dimension")
  else Ok (mkLinear (zeros (Z.to_nat cout) (Z.to_nat cin))
             (if with_bias then Some (repeat 0%Q (Z.to_nat cout)) else None)).

Definition SAGEConv_init (cin cout : Z) : result SAGEConv :=
  try l := Linear_init cin cout true in
  try r := Linear_init cin cout false in
  Ok (mkSAGEConv l r).

(** [for _ in range(n): self.convs.append(SAGEConv(hidden, hidden))] *)
Fixpoint append_convs (n : nat) (hidden : Z) (cs : list SAGEConv) : result (list SAGEConv) :=
  match n with
  | O => Ok cs
  | S n' =>
      try c := SAGEConv_init hidden hidden in
      append_convs n' hidden (cs ++ [c])
  end.

(** [GraphSAGE.__init__], with the default [dropout_prob=0.25]; a new module
    is in training mode. *)
Definition GraphSAGE_init (in_ch hidden_ch out_ch layers : Z) : result GraphSAGE :=
  try first := SAGEConv_init in_ch hidden_ch in
  try cs := append_convs (Z.to_nat (layers - 1)) hidden_ch [first] in
  try out := Linear_init (hidden_ch + in_ch) out_ch true in
  Ok (mkGraphSAGE in_ch hidden_ch out_ch layers cs out (1 # 4) true).

(** The saved parameters of the embedder. *)
Record SAGEConvParams : Type := mkSAGEConvParams {
  p_lin_l_weight : Tensor;
  p_lin_l_bias : list Q;
  p_lin_r_weight : Tensor
}.

Record StateDict : Type := mkStateDict {
  sd_convs : list SAGEConvParams;
  sd_fc_weight : Tensor;
  sd_fc_bias : list Q
}.

Definition load_linear (l : Linear) (w : Tensor) (b : option (list Q)) : result Linear :=
  if has_shape w (out_features l) (in_features l)
     && match b with
        | Some bias => Nat.eqb (length bias) (out_features l)
        | None => true
        end
  then Ok (mkLinear w b)
  else Raise (RuntimeError "size mismatch in load_state_dict").

Fixpoint load_convs (cs : list SAGEConv) (ps : list SAGEConvParams) : result (list SAGEConv) :=
  match cs, ps with
  | [], [] => Ok []
  | c :: cs', p :: ps' =>
      try l := load_linear (lin_l c) (p_lin_l_weight p) (Some (p_lin_l_bias p)) in
      try r := load_linear (lin_r c) (p_lin_r_weight p) None in
      try rest := load_convs cs' ps' in
      Ok (mkSAGEConv l r :: rest)
  | [], _ :: _ => Raise (RuntimeError "Unexpected key(s) in state_dict")
  | _ :: _, [] => Raise (RuntimeError "Missing key(s) in state_dict")
  end.

(** [model.load_state_dict(state_dict)] (strict) *)
Definition load_state_dict (m : GraphSAGE) (sd : StateDict) : result GraphSAGE :=
  try cs := load_convs (convs m) (sd_convs sd) in
  try out := load_linear (fc m) (sd_fc_weight sd) (Some (sd_fc_bias sd)) in
  Ok (mkGraphSAGE (m_in_channels m) (m_hidden_channels m) (m_out_channels m)
        (m_n_layers m) cs out (dropout_prob m) (training m)).

(** [model.eval()] *)
Definition eval_mode (m : GraphSAGE) : GraphSAGE :=
  mkGraphSAGE (m_in_channels m) (m_hidden_channels m) (m_out_channels m)
    (m_n_layers m) (convs m) (fc m) (dropout_prob m) false.

(** Files next to model.py, by the name the configuration gives them. *)
Inductive File : Type :=
| StateDictFile (sd : StateDict)
| XGBModelFile (b : Booster)
| OtherFile (content : string).

Definition torch_load (files : gmap string File) (name : string) : result StateDict :=
  match files !! name with
  | Some (StateDictFile sd) => Ok sd
  | Some _ => Raise (RuntimeError "invalid load key")
  | None => Raise (FileNotFoundError name)
  end.

Definition load_model (files : gmap string File) (name : string) : result Booster :=
  match files !! name with
  | Some (XGBModelFile b) => Ok b
  | Some _ => Raise (XGBoostError "invalid model file")
  | None => Raise (XGBoostError "No such file or directory")
  end.

(** [initialize]: the result is the object [self] with its attributes set.
    The model configuration is taken after [json.loads]; the placement on the
    device and [bst.set_param] change no value and are left out. *)
Definition initialize (model_config : ModelConfig) (files : gmap string File)
  : result TritonPythonModel :=
  try parameters :=
    match cfg_parameters model_config with
    | Some p => Ok p
    | None => Raise (KeyError "parameters")
    end in
  try e := getitem parameters "in_channels" in
  try s := getitem e "string_value" in
  try in_ch := py_int s in
  try e := getitem parameters "hidden_channels" in
  try s := getitem e "string_value" in
  try hidden_ch := py_int s in
  try e := getitem parameters "out_channels" in
  try s := getitem e "string_value" in
  try out_ch := py_int s in
  try e := getitem parameters "n_layers" in
  try s := getitem e "string_value" in
  try layers := py_int s in
  try e := getitem parameters "embedding_generator_model_state_dict" in
  try state_dict_filename := getitem e "string_value" in
  try e := getitem parameters "embeddings_based_xgboost_model" in
  try xgb_filename := getitem e "string_value" in
  let feature_mask_config := get_config_by_name (cfg_input model_config) "FEATURE_MASK" in
  let prediction_config := get_config_by_name (cfg_output model_config) "PREDICTION" in
  let shap_config := get_config_by_name (cfg_output model_config) "SHAP_VALUES" in
  try s := data_type_of feature_mask_config in
  try mask_dtype := triton_string_to_numpy s in
  try s := data_type_of prediction_config in
  try pred_dtype := triton_string_to_numpy s in
  try s := data_type_of shap_config in
  try sh_dtype := triton_string_to_numpy s in
  try m := GraphSAGE_init in_ch hidden_ch out_ch layers in
  try state_dict := torch_load files state_dict_filename in
  try m := load_state_dict m state_dict in
  let m := eval_mode m in
  try booster := load_model files xgb_filename in
  Ok (mkTritonPythonModel in_ch hidden_ch out_ch layers state_dict_filename xgb_filename
        mask_dtype pred_dtype sh_dtype m booster).

(** ** A small deployment, used to run the definitions

    Two input features, one hidden unit, one layer; the ensemble reads the
    three columns of the embedding and adds them up. The generator state is a
    counter; permutations alternate between the list and its reverse. *)
Module Demo.

Definition bernoulli (s : nat) (p : Q) : bool * nat := (Nat.even s, S s).
Definition randperm (s : nat) (groups : list Z) : list Z * nat :=
  (if Nat.even s then groups else rev groups, S s).

Definition conv_params : SAGEConvParams :=
  mkSAGEConvParams (mkTensor 2 [[1; 0]%Q]) [0%Q] (mkTensor 2 [[1; 1]%Q]).

Definition state_dict : StateDict :=
  mkStateDict [conv_params] (mkTensor 3 [[1; 1; 1]%Q]) [0%Q].

Definition booster (width : nat) : Booster := mkBooster width Qsum.

Definition parameter (value : string) : gmap string string :=
  {[ "string_value"%string := value ]}.

Definition parameters : gmap string (gmap string string) :=
  <[ "in_channels"%string := parameter "2" ]>
  (<[ "hidden_channels"%string := parameter "1" ]>
  (<[ "out_channels"%string := parameter "1" ]>
  (<[ "n_layers"%string := parameter "1" ]>
  (<[ "embedding_generator_model_state_dict"%string := parameter "state_dict_gnn_model.pth" ]>
  (<[ "embeddings_based_xgboost_model"%string := parameter "embedding_based_xgboost.json" ]>
   ∅))))).

Definition model_config (params : gmap string (gmap string string)) : ModelConfig :=
  mkModelConfig (Some params)
    [ mkIOConfig "NODE_FEATURES" "TYPE_FP32"; mkIOConfig "EDGE_INDEX" "TYPE_INT64";
      mkIOConfig "COMPUTE_SHAP" "TYPE_BOOL"; mkIOConfig "FEATURE_MASK" "TYPE_INT32" ]
    [ mkIOConfig "PREDICTION" "TYPE_FP32"; mkIOConfig "SHAP_VALUES" "TYPE_FP32" ].

Definition files (width : nat) : gmap string File :=
  <[ "state_dict_gnn_model.pth"%string := StateDictFile state_dict ]>
  (<[ "embedding_based_xgboost.json"%string := XGBModelFile (booster width) ]> ∅).

(** [self] as [initialize] leaves it, written out. *)
Definition conv : SAGEConv :=
  mkSAGEConv (mkLinear (mkTensor 2 [[1; 0]%Q]) (Some [0%Q]))
             (mkLinear (mkTensor 2 [[1; 1]%Q]) None).

Definition graphsage : GraphSAGE :=
  mkGraphSAGE 2 1 1 1 [conv] (mkLinear (mkTensor 3 [[1; 1; 1]%Q]) (Some [0%Q]))
    (1 # 4) false.

Definition self (width : nat) : TritonPythonModel :=
  mkTritonPythonModel 2 1 1 1 "state_dict_gnn_model.pth" "embedding_based_xgboost.json"
    np_int32 np_float32 np_float32 graphsage (booster width).

Definition world (width : nat) : World nat := mkWorld (self width) O [].

(** One node with a self loop. *)
Definition features : Tensor := mkTensor 2 [[1; 2]%Q].
Definition self_loop : EdgeIndex := [(0, 0)].

Definition one_node (flag : bool) (mask : list Z) : InferenceRequest :=
  mkInferenceRequest (Some features) (Some self_loop) (Some [flag]) (Some mask).

(** A world with the same [self], another generator state and a call already
    made. *)
Definition later_world : World nat := mkWorld (self 3) 5%nat [CallRandperm [7]].

Definition two_nodes (flag : bool) : InferenceRequest :=
  mkInferenceRequest (Some (mkTensor 2 [[1; 2]; [3; 4]]%Q)) (Some [(0, 1)])
    (Some [flag]) (Some [0; 1]).

(** A request whose feature matrix has three columns where the embedder
    expects two. *)
Definition bad_width : InferenceRequest :=
  mkInferenceRequest (Some (mkTensor 3 [[1; 2; 3]%Q])) (Some [])
    (Some [false]) (Some [0; 1; 2]).

(** The same deployment with the embedder left in training mode, and the
    generator in state [s]. *)
Definition training_world (s : nat) : World nat :=
  mkWorld (mkTritonPythonModel 2 1 1 1 "state_dict_gnn_model.pth"
             "embedding_based_xgboost.json" np_int32 np_float32 np_float32
             (mkGraphSAGE 2 1 1 1 [conv] (fc graphsage) (1 # 4) true) (booster 3))
    s [].

Definition run {A} (m : Py nat A) (w : World nat) : result A := fst (m w).


End Demo.

(** ** Vocabulary of the properties *)

(** The tensor a response carries under a name. *)
Definition output_named (name : string) (r : InferenceResponse) : option Tensor :=
  option_map pb_data (List.find (fun t => String.eqb (pb_name t) name) (output_tensors r)).

(** What [initialize] establishes about [self]. *)
Definition self_wf (self : TritonPythonModel) : Prop :=
  GraphSAGE_wf (model self) /\
  m_in_channels (model self) = in_channels self /\
  m_hidden_channels (model self) = hidden_channels self /\
  training (model self) = false /\
  dropout_prob (model self) = (1 # 4)%Q.

(** The embedding width the embedder produces. *)
Definition embedding_width (self : TritonPythonModel) : nat :=
  Z.to_nat (in_channels self) + Z.to_nat (hidden_channels self).

(** The response [execute] builds from the scores and the attributions. *)
Definition response (self : TritonPythonModel) (scores : list Q) (attributions : Tensor)
  : InferenceResponse :=
  mkInferenceResponse
    [ mkPbTensor "PREDICTION" (prediction_dtype self)
        (astype (prediction_dtype self) (column scores));
      mkPbTensor "SHAP_VALUES" (shap_dtype self)
        (astype (shap_dtype self) attributions) ].

(** The request with another COMPUTE_SHAP input. *)
Definition with_COMPUTE_SHAP (req : InferenceRequest) (flags : list bool) : InferenceRequest :=
  mkInferenceRequest (NODE_FEATURES req) (EDGE_INDEX req) (Some flags) (FEATURE_MASK req).

(** The entries that [initialize] reads from ["parameters"]. *)
Definition startup_keys : list string :=
  [ "in_channels"; "hidden_channels"; "out_channels"; "n_layers";
    "embedding_generator_model_state_dict"; "embeddings_based_xgboost_model" ]%string.

(** The string the configuration holds for [key], if it holds one. *)
Definition config_entry (model_config : ModelConfig) (key : string) : option string :=
  match cfg_parameters model_config with
  | Some parameters =>
      match parameters !! key with
      | Some entry => entry !! "string_value"%string
      | None => None
      end
  | None => None
  end.

(** The exceptions of the steps that read the parameters and the element
    types: a missing key, a malformed integer, an undeclared tensor. *)
Definition configuration_error (err : PyError) : Prop :=
  match err with
  | KeyError _ | ValueError _ | TypeError _ => True
  | _ => False
  end.

Definition KeyError_or_ValueError (err : PyError) : Prop :=
  (exists key, err = KeyError key) \/ (exists msg, err = ValueError msg).


Definition baseline_shape_error : PyError :=
  RuntimeError "baselines and inputs must have the same shape".

(** The calls of one scoring pass: the embedder, then the ensemble. *)
Definition scoring_call (c : Call) : Prop :=
  match c with
  | CallModel _ _ _ | CallPredict _ => True
  | _ => False
  end.

(** Calls that a request may make, for the request [req]. *)
Definition request_call (req : InferenceRequest) (c : Call) : Prop :=
  match c with
  | CallAttribute x b mk n =>
      NODE_FEATURES req = Some x /\ b = zeros_like x /\ n = 128
  | _ => True
  end.

Definition is_randperm (c : Call) : bool :=
  match c with CallRandperm _ => true | _ => false end.

Definition count_randperm (l : list Call) : nat := length (List.filter is_randperm l).

Definition not_randperm (c : Call) : Prop := is_randperm c = false.




Section Vocabulary.

Context {RngState : Type}.

(** [steps T m]: every run of [m] takes the world to one related to it by
    [T]. *)
Definition steps {A} (T : relation (World RngState)) (m : Py RngState A) : Prop :=
  forall w, T w (snd (m w)).

Definition same_self : relation (World RngState) := fun w w' => py_self w' = py_self w.
Definition same_calls : relation (World RngState) := fun w w' => calls w' = calls w.
Definition emits (P : Call -> Prop) : relation (World RngState) :=
  fun w w' => exists l, calls w' = calls w ++ l /\ Forall P l.

(** [m] never raises [err]. *)
Definition avoids {A} (err : PyError) (m : Py RngState A) : Prop :=
  forall w, fst (m w) <> Raise err.

End Vocabulary.

(** ** install_package

    The module-level helper: import the package and, when the import fails
    with an ImportError, run pip on the package, pinned to [version] when one
    is given. The host is what the function reads: the interpreter's path,
    what importing a name does, and the exit status of a command. What it
    writes is the console: the lines printed and the commands run. *)

Inductive ImportOutcome : Type :=
| Imported                      (* [__import__] returns *)
| NotImportable                 (* it raises ImportError *)
| ImportRaises (e : PyError).   (* it raises something else *)

Record Host : Type := mkHost {
  sys_executable : string;
  import_module : string -> ImportOutcome;
  exit_status : list string -> Z
}.

Record Console : Type := mkConsole {
  printed : list string;
  commands : list (list string)
}.

Inductive InstallError : Type :=
| CalledProcessError (returncode : Z) (cmd : list string)
| ImportException (e : PyError).

Definition print (line : string) (c : Console) : Console :=
  mkConsole (printed c ++ [line]) (commands c).

(** [f"{package}=={version}" if version else package]: [None] and the empty
    string are false. *)
Definition package_spec (package : string) (version : option string) : string :=
  match version with
  | Some v => if String.eqb v "" then package else (package ++ "==" ++ v)%string
  | None => package
  end.

Definition pip_command (h : Host) (spec : string) : list string :=
  [sys_executable h; "-m"; "pip"; "install"; spec]%string.

(** [subprocess.check_call(cmd)]: the command is run and a status other than
    0 raises CalledProcessError. The interpreter at [sys.executable] is taken
    to start (a path that cannot be executed would raise OSError instead). *)
Definition check_call (h : Host) (cmd : list string) (c : Console)
  : option InstallError * Console :=
  let c' := mkConsole (printed c) (commands c ++ [cmd]) in
  if Z.eqb (exit_status h cmd) 0 then (None, c')
  else (Some (CalledProcessError (exit_status h cmd) cmd), c').

Definition install_package (h : Host) (package : string) (version : option string)
    (c : Console) : option InstallError * Console :=
  match import_module h package with
  | Imported => (None, print ("'" ++ package ++ "' is already installed.") c)
  | ImportRaises e => (Some (ImportException e), c)
  | NotImportable =>
      let spec := package_spec package version in
      let c1 := print ("Installing " ++ spec ++ " ...") c in
      match check_call h (pip_command h spec) c1 with
      | (None, c2) => (None, print ("Installation of " ++ spec ++ " finished!") c2)
      | (Some err, c2) => (Some err, c2)
      end
  end.

(** ** Further vocabulary *)

(** [model.state_dict()]: the parameters a module holds, as they are saved. *)
Definition conv_state (c : SAGEConv) : SAGEConvParams :=
  mkSAGEConvParams (lin_weight (lin_l c)) (default [] (lin_bias (lin_l c)))
    (lin_weight (lin_r c)).

Definition state_dict_of (m : GraphSAGE) : StateDict :=
  mkStateDict (map conv_state (convs m)) (lin_weight (fc m)) (default [] (lin_bias (fc m))).

(** The shape [GraphSAGE.__init__] gives the output layer [fc]. *)
Definition head_wf (m : GraphSAGE) : Prop :=
  Linear_wf (fc m) /\
  in_features (fc m) = (Z.to_nat (m_in_channels m) + Z.to_nat (m_hidden_channels m))%nat /\
  out_features (fc m) = Z.to_nat (m_out_channels m).

(** Every entry is at least zero. *)
Definition nonnegative (t : Tensor) : Prop :=
  Forall (Forall (fun v => (0 <= v)%Q)) (t_rows t).

(** What [execute] reads of [self]: the convolution layers, the dropout
    probability and the mode of the embedder, the ensemble, [in_channels] and
    the element types of the two outputs. *)
Definition same_serving (s1 s2 : TritonPythonModel) : Prop :=
  convs (model s1) = convs (model s2) /\
  dropout_prob (model s1) = dropout_prob (model s2) /\
  training (model s1) = training (model s2) /\
  bst s1 = bst s2 /\
  in_channels s1 = in_channels s2 /\
  prediction_dtype s1 = prediction_dtype s2 /\
  shap_dtype s1 = shap_dtype s2.

(** The request asks for attributions: [compute_shap_numpy[0]] is true. *)
Definition asks_attribution (req : InferenceRequest) : bool :=
  match COMPUTE_SHAP req with
  | Some (true :: _) => true
  | _ => false
  end.

Section Simulation.

Context {RngState : Type}.

(** Both worlds hold the object [self]; their generators and the calls made
    so far may differ. *)
Definition both_hold (self : TritonPythonModel) : relation (World RngState) :=
  fun w1 w2 => py_self w1 = self /\ py_self w2 = self.

(** Two worlds that [execute] cannot tell apart. *)
Definition serving_rel : relation (World RngState) :=
  fun w1 w2 =>
    same_serving (py_self w1) (py_self w2) /\ rng w1 = rng w2 /\ calls w1 = calls w2.

(** From related worlds, [m1] and [m2] give the same result and related
    worlds. *)
Definition sim {A} (R : relation (World RngState)) (m1 m2 : Py RngState A) : Prop :=
  forall w1 w2, R w1 w2 ->
    fst (m1 w1) = fst (m2 w2) /\ R (snd (m1 w1)) (snd (m2 w2)).

(** The response's PREDICTION is the score of the request's own features,
    computed in the world [w] and converted to the configured element
    type. *)
Definition scored_by (bernoulli : RngState -> Q -> bool * RngState) (w : World RngState)
    (req : InferenceRequest) (resp : InferenceResponse) : Prop :=
  exists x e scores,
    NODE_FEATURES req = Some x /\ EDGE_INDEX req = Some e /\
    fst (forward_function bernoulli e x w) = Ok scores /\
    output_named "PREDICTION" resp
    = Some (astype (prediction_dtype (py_self w)) (column scores)).

End Simulation.

(** [finalize]: nothing is done. *)
Definition finalize (self : TritonPythonModel) : TritonPythonModel := self.

(** * Properties *)

(** ** Shapes of the tensor operations *)

Lemma Forall_repeat_length (c r : nat) :
  Forall (fun row : list Q => length row = c) (repeat (repeat 0%Q c) r).
Proof.
  induction r as [|r IH]; simpl; constructor; auto.
  apply repeat_length.
Qed.

Lemma zeros_shape (r c : nat) : shape (zeros r c) = (r, c).
Proof. unfold shape, zeros; simpl. now rewrite repeat_length. Qed.

Lemma zeros_well_shaped (r c : nat) : well_shaped (zeros r c).
Proof. apply Forall_repeat_length. Qed.

Lemma zeros_all_zero (r c : nat) : all_zero (zeros r c).
Proof.
  unfold all_zero, zeros; simpl.
  induction r as [|r IH]; simpl; constructor; auto.
  clear IH. induction c as [|c IH]; simpl; constructor; auto.
Qed.

Lemma zeros_like_shape (t : Tensor) : shape (zeros_like t) = shape t.
Proof. unfold shape, zeros_like; simpl. now rewrite length_map. Qed.

Lemma zeros_like_all_zero (t : Tensor) : all_zero (zeros_like t).
Proof.
  unfold all_zero, zeros_like; simpl.
  induction (t_rows t) as [|row rows IH]; simpl; constructor; auto.
  clear IH. induction row as [|v row IH]; simpl; constructor; auto.
Qed.


Lemma astype_shape (d : DType) (t : Tensor) : shape (astype d t) = shape t.
Proof. unfold shape, astype; simpl. now rewrite length_map. Qed.

Lemma cast_zero (d : DType) : cast d 0%Q = 0%Q.
Proof. now destruct d. Qed.

Lemma astype_all_zero (d : DType) (t : Tensor) : all_zero t -> all_zero (astype d t).
Proof.
  unfold all_zero, astype; simpl. intros H.
  induction H as [|row rows Hrow _ IH]; simpl; constructor; [|assumption].
  induction Hrow as [|v vs Hv _ IHv]; simpl; constructor; [|assumption].
  subst v. apply cast_zero.
Qed.


Lemma astype_column (d : DType) (scores : list Q) :
  astype d (column scores) = column (map (cast d) scores).
Proof. unfold astype, column; simpl. now rewrite !map_map. Qed.

Lemma vadd_length (u v : list Q) : length (vadd u v) = Nat.min (length u) (length v).
Proof. unfold vadd. apply length_zip_with. Qed.

Lemma has_shape_spec (t : Tensor) (r c : nat) :
  has_shape t r c = true <->
  length (t_rows t) = r /\ t_cols t = c /\ well_shaped t.
Proof.
  unfold has_shape, well_shaped.
  rewrite !andb_true_iff, !Nat.eqb_eq, forallb_forall, List.Forall_forall.
  split.
  - intros [[Hr Hc] Hw]. repeat split; auto.
    intros row Hin. apply Hw in Hin. apply Nat.eqb_eq in Hin. congruence.
  - intros (Hr & Hc & Hw). repeat split; auto.
    intros row Hin. apply Nat.eqb_eq. rewrite <- Hc. auto.
Qed.

Lemma Linear_forward_ok (l : Linear) (x out : Tensor) :
  Linear_forward l x = Ok out ->
  t_cols x = in_features l /\ t_cols out = out_features l /\
  length (t_rows out) = length (t_rows x) /\
  (Linear_wf l -> well_shaped out).
Proof.
  unfold Linear_forward. destruct (Nat.eqb_spec (t_cols x) (in_features l)) as [He|]; [|discriminate].
  intros [= <-]; simpl. rewrite length_map. repeat split; auto.
  intros [_ Hb]. unfold well_shaped; simpl.
  apply List.Forall_forall. intros row Hin. apply in_map_iff in Hin as (r & <- & _).
  unfold add_bias. destruct (lin_bias l) as [b|].
  - rewrite vadd_length, length_map, Hb. apply Nat.min_id.
  - now rewrite length_map.
Qed.

Lemma Linear_forward_total (l : Linear) (x : Tensor) :
  t_cols x = in_features l -> exists out, Linear_forward l x = Ok out.
Proof.
  intros H. unfold Linear_forward. rewrite H, Nat.eqb_refl. eauto.
Qed.

Lemma SAGEConv_forward_ok (cin cout : nat) (c : SAGEConv) (x out : Tensor) (e : EdgeIndex) :
  SAGEConv_wf cin cout c ->
  SAGEConv_forward c x e = Ok out ->
  t_cols x = cin /\ t_cols out = cout /\
  length (t_rows out) = length (t_rows x) /\ well_shaped out.
Proof.
  intros (Hl & Hr & Hli & Hlo & Hri & Hro). unfold SAGEConv_forward.
  destruct (forallb _ e); [|discriminate].
  destruct (Linear_forward (lin_l c) (aggregate x e)) as [a|] eqn:Ha; [|discriminate].
  destruct (Linear_forward (lin_r c) x) as [b|] eqn:Hb; [|discriminate].
  simpl. intros [= <-].
  apply Linear_forward_ok in Ha as (Ha1 & Ha2 & Ha3 & Ha4).
  apply Linear_forward_ok in Hb as (Hb1 & Hb2 & Hb3 & Hb4).
  specialize (Ha4 Hl). specialize (Hb4 Hr).
  simpl in Ha1, Ha3. rewrite length_map, length_seq in Ha3.
  unfold tensor_add; simpl. repeat split; try congruence.
  - rewrite length_zip_with, Ha3, Hb3. apply Nat.min_id.
  - unfold well_shaped in *; simpl.
    rewrite Ha2, Hlo. rewrite Ha2, Hlo in Ha4. rewrite Hb2, Hro in Hb4.
    clear - Ha4 Hb4. revert Hb4. generalize (t_rows b).
    induction Ha4 as [|u us Hu _ IH]; intros vs Hvs; simpl; [constructor|].
    destruct Hvs as [|v vs' Hv Hvs']; simpl; constructor; auto.
    rewrite vadd_length, Hu, Hv. apply Nat.min_id.
Qed.

Lemma SAGEConv_forward_total (cin cout : nat) (c : SAGEConv) (x : Tensor) (e : EdgeIndex) :
  SAGEConv_wf cin cout c -> t_cols x = cin ->
  forallb (edge_in_range (length (t_rows x))) e = true ->
  exists out, SAGEConv_forward c x e = Ok out.
Proof.
  intros (Hl & Hr & Hli & Hlo & Hri & Hro) Hx He. unfold SAGEConv_forward. rewrite He.
  destruct (Linear_forward_total (lin_l c) (aggregate x e)) as [a Ha]; [simpl; congruence|].
  destruct (Linear_forward_total (lin_r c) x) as [b Hb]; [congruence|].
  rewrite Ha, Hb. simpl. eauto.
Qed.

Lemma relu_shape (t : Tensor) :
  t_cols (relu t) = t_cols t /\ length (t_rows (relu t)) = length (t_rows t) /\
  (well_shaped t -> well_shaped (relu t)).
Proof.
  unfold relu, well_shaped; simpl. rewrite length_map. repeat split.
  intros H. induction H as [|row rows Hrow _ IH]; simpl; constructor; auto.
  now rewrite length_map.
Qed.

(** ** What a computation does to the world

    [steps T m] says that every run of [m] takes the world to one related to
    it by [T]. For a preorder [T] this passes through sequencing and loops;
    the relations used are: [self] is the same, the calls are the same, or
    the calls grew by calls that satisfy [P]. *)

Section Effects.

Context {RngState : Type}.

Implicit Types (T : relation (World RngState)).

#[export] Instance same_self_preorder : PreOrder (@same_self RngState).
Proof. split; unfold same_self; [intros w | intros a b c ? ?]; congruence. Qed.

#[export] Instance same_calls_preorder : PreOrder (@same_calls RngState).
Proof. split; unfold same_calls; [intros w | intros a b c ? ?]; congruence. Qed.

#[export] Instance emits_preorder (P : Call -> Prop) : PreOrder (@emits RngState P).
Proof.
  split.
  - intros w. exists []. split; [now rewrite app_nil_r | constructor].
  - intros a b c (l1 & H1 & P1) (l2 & H2 & P2). exists (l1 ++ l2). split.
    + now rewrite H2, H1, app_assoc.
    + apply Forall_app; auto.
Qed.

Lemma bind_ok_inv {A B} (m : Py RngState A) (k : A -> Py RngState B) w b w' :
  bind m k w = (Ok b, w') ->
  exists a w1, m w = (Ok a, w1) /\ k a w1 = (Ok b, w').
Proof.
  unfold bind. destruct (m w) as [[a|e] w1]; [eauto | discriminate].
Qed.

Lemma bind_ok {A B} (m : Py RngState A) (k : A -> Py RngState B) w a w1 :
  m w = (Ok a, w1) -> bind m k w = k a w1.
Proof. unfold bind. now intros ->. Qed.

Lemma bind_raise {A B} (m : Py RngState A) (k : A -> Py RngState B) w e w1 :
  m w = (Raise e, w1) -> bind m k w = (Raise e, w1).
Proof. unfold bind. now intros ->. Qed.

Lemma bind_ret {A B} (a : A) (k : A -> Py RngState B) w : bind (ret a) k w = k a w.
Proof. reflexivity. Qed.

Lemma bind_get_self {B} (k : TritonPythonModel -> Py RngState B) w :
  bind get_self k w = k (py_self w) w.
Proof. reflexivity. Qed.

Lemma steps_ret {A} T `{!Reflexive T} (a : A) : steps T (ret a).
Proof. intros w. simpl. reflexivity. Qed.

Lemma steps_raise {A} T `{!Reflexive T} (e : PyError) : steps T (@raise RngState A e).
Proof. intros w. simpl. reflexivity. Qed.

Lemma steps_lift {A} T `{!Reflexive T} (r : result A) : steps T (lift r).
Proof. intros w. simpl. reflexivity. Qed.

Lemma steps_get_self T `{!Reflexive T} : steps T get_self.
Proof. intros w. simpl. reflexivity. Qed.

Lemma steps_bind {A B} T `{!Transitive T} (m : Py RngState A) (k : A -> Py RngState B) :
  steps T m -> (forall a, steps T (k a)) -> steps T (bind m k).
Proof.
  intros Hm Hk w. unfold bind. specialize (Hm w).
  destruct (m w) as [[a|e] w1]; simpl in *; auto.
  transitivity w1; auto. apply Hk.
Qed.

Lemma steps_mapM {A B} T `{!PreOrder T} (f : A -> Py RngState B) (l : list A) :
  (forall a, steps T (f a)) -> steps T (mapM f l).
Proof.
  intros Hf. induction l as [|a l IH]; simpl.
  - apply steps_ret; apply _.
  - apply steps_bind; [apply _ | apply Hf |]. intros b.
    apply steps_bind; [apply _ | apply IH |]. intros bs.
    apply steps_ret; apply _.
Qed.

Lemma steps_foldM {A B} T `{!PreOrder T} (f : B -> A -> Py RngState B) (l : list A) acc :
  (forall b a, steps T (f b a)) -> steps T (foldM f l acc).
Proof.
  intros Hf. revert acc. induction l as [|a l IH]; intros acc; simpl.
  - apply steps_ret; apply _.
  - apply steps_bind; [apply _ | apply Hf | auto].
Qed.

Lemma steps_as_numpy {A} T `{!Reflexive T} (input : option A) : steps T (as_numpy input).
Proof. destruct input; intros w; simpl; reflexivity. Qed.

Lemma steps_index0 {A} T `{!Reflexive T} (a : list A) : steps T (index0 a).
Proof. destruct a; intros w; simpl; reflexivity. Qed.

Lemma record_same_self c : steps (@same_self RngState) (record c).
Proof. now intros w. Qed.

Lemma record_emits (P : Call -> Prop) c : P c -> steps (@emits RngState P) (record c).
Proof. intros H w. exists [c]. simpl. auto. Qed.

End Effects.

(** ** The embedder *)

Section Embedder.

Context {RngState : Type} (bernoulli : RngState -> Q -> bool * RngState).

Implicit Types (T : relation (World RngState)).

Lemma mapM_ok_Forall2 {A B} (R : A -> B -> Prop) (f : A -> Py RngState B) :
  (forall a w b w', f a w = (Ok b, w') -> R a b) ->
  forall l w bs w', mapM f l w = (Ok bs, w') -> Forall2 R l bs.
Proof.
  intros Hf. induction l as [|a l IH]; simpl; intros w bs w' H.
  - injection H as <- _. constructor.
  - apply bind_ok_inv in H as (b & w1 & Hb & H).
    apply bind_ok_inv in H as (bs' & w2 & Hbs & H).
    injection H as <- _. constructor; eauto.
Qed.

Lemma mapM_total {A B} (f : A -> Py RngState B) :
  (forall a w, exists b w', f a w = (Ok b, w')) ->
  forall l w, exists bs w', mapM f l w = (Ok bs, w').
Proof.
  intros Hf. induction l as [|a l IH]; simpl; intros w.
  - eexists _, _. reflexivity.
  - destruct (Hf a w) as (b & w1 & Hb). destruct (IH w1) as (bs & w2 & Hbs).
    exists (b :: bs), w2. erewrite bind_ok by eassumption.
    erewrite bind_ok by eassumption. reflexivity.
Qed.

Lemma draw_bernoulli_same_self p : steps same_self (draw_bernoulli bernoulli p).
Proof. intros w. unfold draw_bernoulli. now destruct (bernoulli (rng w) p). Qed.

Lemma draw_bernoulli_same_calls p : steps same_calls (draw_bernoulli bernoulli p).
Proof. intros w. unfold draw_bernoulli. now destruct (bernoulli (rng w) p). Qed.

Lemma draw_bernoulli_total p w : exists b w', draw_bernoulli bernoulli p w = (Ok b, w').
Proof. unfold draw_bernoulli. destruct (bernoulli (rng w) p). eauto. Qed.

Lemma dropout_steps T `{!PreOrder T} input p train :
  (forall q, steps T (draw_bernoulli bernoulli q)) ->
  steps T (dropout bernoulli input p train).
Proof.
  intros Hd. unfold dropout.
  destruct (Qle_bool 0 p && Qle_bool p 1); [|apply steps_raise; apply _].
  destruct train; [|apply steps_ret; apply _].
  apply steps_bind; [apply _ | | intros; apply steps_ret; apply _].
  apply steps_mapM; [apply _|]. intros row.
  apply steps_mapM; [apply _|]. intros v.
  unfold dropout_entry. apply steps_bind; [apply _ | apply Hd |].
  intros; apply steps_ret; apply _.
Qed.

(** In inference mode dropout passes its input through and draws nothing. *)
Lemma dropout_eval input p w :
  dropout bernoulli input p false w =
  (if Qle_bool 0 p && Qle_bool p 1 then Ok input
   else Raise (ValueError "dropout probability has to be between 0 and 1"), w).
Proof. unfold dropout. now destruct (Qle_bool 0 p && Qle_bool p 1). Qed.

Lemma dropout_ok input p train w out w' :
  dropout bernoulli input p train w = (Ok out, w') ->
  t_cols out = t_cols input /\ length (t_rows out) = length (t_rows input) /\
  (well_shaped input -> well_shaped out).
Proof.
  unfold dropout. destruct (Qle_bool 0 p && Qle_bool p 1); [|discriminate].
  destruct train.
  - intros H. apply bind_ok_inv in H as (rows & w1 & Hrows & H).
    injection H as <- _. simpl.
    apply (mapM_ok_Forall2 (fun a b : list Q => length b = length a)) in Hrows.
    + split; [reflexivity|]. split; [symmetry; eapply Forall2_length; eauto|].
      unfold well_shaped; simpl. intros Hw.
      induction Hrows as [|a b l l' Hab _ IH]; [constructor|].
      inversion Hw; subst. constructor; [congruence | auto].
    + intros a w0 b w0' Hab.
      apply (mapM_ok_Forall2 (fun _ _ => True)) in Hab; [|auto].
      symmetry. eapply Forall2_length; eauto.
  - intros [= <- _]. auto.
Qed.

Lemma dropout_total input p train w :
  Qle_bool 0 p && Qle_bool p 1 = true ->
  exists out w', dropout bernoulli input p train w = (Ok out, w').
Proof.
  intros Hp. unfold dropout. rewrite Hp. destruct train; [|eexists _, _; reflexivity].
  destruct (mapM_total (mapM (dropout_entry bernoulli p))) with (l := t_rows input) (w := w)
    as (rows & w1 & Hrows).
  - intros row. apply mapM_total. intros v w0. unfold dropout_entry.
    destruct (draw_bernoulli_total (1 - p)%Q w0) as (b & w1 & Hb).
    eexists _, _. erewrite bind_ok by eassumption. reflexivity.
  - eexists _, _. erewrite bind_ok by eassumption. reflexivity.
Qed.

Lemma conv_loop_steps T `{!PreOrder T} m cs emb e :
  (forall q, steps T (draw_bernoulli bernoulli q)) ->
  steps T (conv_loop bernoulli m cs emb e).
Proof.
  intros Hd. revert emb. induction cs as [|c cs IH]; intros emb; simpl.
  - apply steps_ret; apply _.
  - apply steps_bind; [apply _ | apply steps_lift; apply _ |]. intros e1.
    apply steps_bind; [apply _ | now apply dropout_steps | auto].
Qed.

Lemma GraphSAGE_forward_steps T `{!PreOrder T} m x e rh :
  (forall q, steps T (draw_bernoulli bernoulli q)) ->
  steps T (GraphSAGE_forward bernoulli m x e rh).
Proof.
  intros Hd. unfold GraphSAGE_forward.
  apply steps_bind; [apply _ | now apply conv_loop_steps |]. intros emb.
  apply steps_bind; [apply _ | apply steps_lift; apply _ |]. intros c.
  destruct rh; [apply steps_ret | apply steps_lift]; apply _.
Qed.

Lemma conv_loop_ok m cs : forall cin cout emb e w out w',
  convs_wf cin cout cs ->
  conv_loop bernoulli m cs emb e w = (Ok out, w') ->
  length (t_rows out) = length (t_rows emb) /\
  (cs <> [] -> t_cols emb = cin /\ t_cols out = cout /\ well_shaped out).
Proof.
  induction cs as [|c cs IH]; intros cin cout emb e w out w' Hwf H; simpl in *.
  - injection H as <- _. split; [reflexivity | congruence].
  - destruct Hwf as [Hc Hrest].
    apply bind_ok_inv in H as (e1 & w1 & H1 & H). unfold lift in H1.
    injection H1 as H1 <-.
    apply bind_ok_inv in H as (e3 & w3 & H3 & H).
    eapply SAGEConv_forward_ok in H1 as (Hin & Hout & Hlen & Hws); [|eassumption].
    destruct (relu_shape e1) as (Hr1 & Hr2 & Hr3).
    apply dropout_ok in H3 as (Hd1 & Hd2 & Hd3).
    destruct cs as [|c' cs'].
    + simpl in H. injection H as <- _.
      split; [congruence|]. intros _. repeat split; auto; congruence.
    + eapply IH in H as [Hl Hne]; [|eassumption].
      destruct Hne as (_ & Hc2 & Hw2); [discriminate|].
      split; [congruence|]. auto.
Qed.

Lemma conv_loop_total m cs : forall cin cout emb e w,
  convs_wf cin cout cs ->
  Qle_bool 0 (dropout_prob m) && Qle_bool (dropout_prob m) 1 = true ->
  (cs <> [] -> t_cols emb = cin) ->
  forallb (edge_in_range (length (t_rows emb))) e = true ->
  exists out w', conv_loop bernoulli m cs emb e w = (Ok out, w').
Proof.
  induction cs as [|c cs IH]; intros cin cout emb e w Hwf Hp Hin He; simpl in *.
  - eexists _, _. reflexivity.
  - destruct Hwf as [Hc Hrest].
    destruct (SAGEConv_forward_total cin cout c emb e) as [e1 H1]; auto.
    destruct (dropout_total (relu e1) (dropout_prob m) (training m) w Hp) as (e3 & w3 & H3).
    pose proof H1 as H1'.
    eapply SAGEConv_forward_ok in H1' as (_ & Hout & Hlen & _); [|eassumption].
    destruct (relu_shape e1) as (Hr1 & Hr2 & _).
    pose proof H3 as H3'. apply dropout_ok in H3' as (Hd1 & Hd2 & _).
    destruct (IH cout cout e3 e w3) as (out & w' & Hout'); auto.
    + intros _. congruence.
    + now rewrite Hd2, Hr2, Hlen.
    + exists out, w'. unfold lift at 1. unfold bind at 1. rewrite H1.
      erewrite bind_ok by eassumption. assumption.
Qed.

Lemma zip_with_app_lengths (cin cout : nat) (xs ys : list (list Q)) :
  Forall (fun r => length r = cin) xs ->
  Forall (fun r => length r = cout) ys ->
  Forall (fun r => length r = (cin + cout)%nat) (zip_with (@app Q) xs ys).
Proof.
  intros Hx. revert ys. induction Hx as [|x xs Hx _ IH]; intros ys Hy; simpl; [constructor|].
  destruct Hy as [|y ys Hy Hys]; constructor; auto.
  rewrite length_app. congruence.
Qed.

Lemma GraphSAGE_forward_hidden_ok (m : GraphSAGE) x e w out w' :
  GraphSAGE_wf m ->
  GraphSAGE_forward bernoulli m x e true w = (Ok out, w') ->
  let cin := Z.to_nat (m_in_channels m) in
  let chid := Z.to_nat (m_hidden_channels m) in
  exists emb,
    conv_loop bernoulli m (convs m) x e w = (Ok emb, w') /\
    t_rows out = zip_with (@app Q) (t_rows x) (t_rows emb) /\
    length (t_rows emb) = length (t_rows x) /\
    t_cols x = cin /\ t_cols emb = chid /\ t_cols out = (cin + chid)%nat /\
    (well_shaped x -> Forall (fun r => length r = (cin + chid)%nat) (t_rows out)).
Proof.
  intros (Hin & Hhid & Hne & Hwf) H cin chid. unfold GraphSAGE_forward in H.
  apply bind_ok_inv in H as (emb & w1 & Hemb & H).
  apply bind_ok_inv in H as (c & w2 & Hc & H).
  injection H as <- <-. unfold lift in Hc. injection Hc as Hc <-.
  eapply conv_loop_ok in Hemb as Hshape; [|eassumption].
  destruct Hshape as (Hlen & Hx & Hcol & Hws); [assumption|].
  unfold cat_dim1 in Hc. rewrite Hlen, Nat.eqb_refl in Hc. injection Hc as <-.
  exists emb. simpl. repeat split; auto; try congruence.
  intros Hxs. apply zip_with_app_lengths.
  - unfold well_shaped in Hxs. now rewrite Hx in Hxs.
  - unfold well_shaped in Hws. now rewrite Hcol in Hws.
Qed.

Lemma GraphSAGE_forward_hidden_total (m : GraphSAGE) x e w :
  GraphSAGE_wf m ->
  Qle_bool 0 (dropout_prob m) && Qle_bool (dropout_prob m) 1 = true ->
  t_cols x = Z.to_nat (m_in_channels m) ->
  forallb (edge_in_range (length (t_rows x))) e = true ->
  exists out w', GraphSAGE_forward bernoulli m x e true w = (Ok out, w').
Proof.
  intros (Hin & Hhid & Hne & Hwf) Hp Hx He.
  destruct (conv_loop_total m (convs m) _ _ x e w Hwf) as (emb & w1 & Hemb); auto.
  pose proof Hemb as Hshape. eapply conv_loop_ok in Hshape as [Hlen _]; [|eassumption].
  unfold GraphSAGE_forward. erewrite bind_ok by eassumption.
  unfold cat_dim1. rewrite Hlen, Nat.eqb_refl. eexists _, _. reflexivity.
Qed.


End Embedder.

(** ** The scoring function *)

Section Scoring.

Context {RngState : Type} (bernoulli : RngState -> Q -> bool * RngState).

Implicit Types (T : relation (World RngState)).

(** In inference mode the loop over the layers is a function of its
    arguments alone: it neither reads nor changes the world. *)
Lemma conv_loop_eval m cs : training m = false ->
  forall emb e, exists r, forall w : World RngState,
    conv_loop bernoulli m cs emb e w = (r, w).
Proof.
  intros Ht. induction cs as [|c cs IH]; intros emb e; simpl.
  - exists (Ok emb). reflexivity.
  - destruct (SAGEConv_forward c emb e) as [e1|err] eqn:H1.
    + rewrite Ht.
      destruct (Qle_bool 0 (dropout_prob m) && Qle_bool (dropout_prob m) 1) eqn:Hp.
      * destruct (IH (relu e1) e) as [r Hr]. exists r. intros w.
        unfold bind, lift. rewrite dropout_eval, Hp. apply Hr.
      * eexists. intros w. unfold bind, lift. rewrite dropout_eval, Hp. reflexivity.
    + exists (Raise err). reflexivity.
Qed.

Lemma GraphSAGE_forward_eval m x e rh : training m = false ->
  exists r, forall w : World RngState, GraphSAGE_forward bernoulli m x e rh w = (r, w).
Proof.
  intros Ht. destruct (conv_loop_eval m (convs m) Ht x e) as [r Hr].
  unfold GraphSAGE_forward. destruct r as [emb|err].
  - destruct (cat_dim1 x emb) as [c|err] eqn:Hc.
    + destruct rh.
      * exists (Ok c). intros w. unfold bind, lift. now rewrite Hr, Hc.
      * exists (Linear_forward (fc m) c). intros w. unfold bind, lift. now rewrite Hr, Hc.
    + exists (Raise err). intros w. unfold bind, lift. now rewrite Hr, Hc.
  - exists (Raise err). intros w. unfold bind. now rewrite Hr.
Qed.

Lemma model_call_steps T `{!PreOrder T} m x e rh :
  (forall q, steps T (draw_bernoulli bernoulli q)) ->
  steps T (record (CallModel x e rh)) ->
  steps T (model_call bernoulli m x e rh).
Proof.
  intros Hd Hr. unfold model_call.
  apply steps_bind; [apply _ | assumption |]. intros _.
  now apply GraphSAGE_forward_steps.
Qed.

Lemma bst_predict_steps T `{!PreOrder T} b emb :
  steps T (record (CallPredict emb)) ->
  steps T (@bst_predict RngState b emb).
Proof.
  intros Hr. unfold bst_predict.
  apply steps_bind; [apply _ | assumption |]. intros _. apply steps_lift; apply _.
Qed.


Lemma emits_same_calls (P : Call -> Prop) {A} (m : Py RngState A) :
  steps same_calls m -> steps (emits P) m.
Proof.
  intros H w. exists []. rewrite app_nil_r. split; [apply H | constructor].
Qed.

Lemma forward_function_emits (P : Call -> Prop) e x :
  (forall c, scoring_call c -> P c) ->
  steps (emits P) (forward_function bernoulli e x).
Proof.
  intros HP. unfold forward_function.
  apply steps_bind; [apply _ | apply steps_get_self; apply _ |]. intros self.
  apply steps_bind; [apply _ | | intros emb].
  - apply model_call_steps; [apply _ | | apply record_emits; now apply HP].
    intros q. apply emits_same_calls, draw_bernoulli_same_calls.
  - apply bst_predict_steps; [apply _ | apply record_emits; now apply HP].
Qed.

(** In inference mode one scoring pass returns a result fixed by [self], the
    edges and the features, and leaves [self] and the generator as they
    were. *)
Lemma forward_function_eval (self : TritonPythonModel) e x :
  training (model self) = false ->
  exists r, forall w : World RngState, py_self w = self ->
    fst (forward_function bernoulli e x w) = r /\
    py_self (snd (forward_function bernoulli e x w)) = self /\
    rng (snd (forward_function bernoulli e x w)) = rng w.
Proof.
  intros Ht. destruct (GraphSAGE_forward_eval (model self) x e true Ht) as [r Hr].
  exists (rbind r (Booster_predict (bst self))).
  intros w <-. unfold forward_function, get_self, model_call, bst_predict, bind, record, lift.
  rewrite Hr. destruct r as [emb|err]; simpl; auto.
Qed.

(** C4. In inference mode the scoring function handed to the sampler is
    deterministic and changes no state: two calls on the same features, with
    the same [self] (weights and tree ensemble) and edges, return the same
    result whatever the state of the random generator and whatever was
    called before, and each call leaves [self] and the generator
    unchanged. *)
Theorem forward_function_deterministic (e : EdgeIndex) (x : Tensor) (w1 w2 : World RngState) :
  py_self w1 = py_self w2 ->
  training (model (py_self w1)) = false ->
  fst (forward_function bernoulli e x w1) = fst (forward_function bernoulli e x w2) /\
  py_self (snd (forward_function bernoulli e x w1)) = py_self w1 /\
  rng (snd (forward_function bernoulli e x w1)) = rng w1.
Proof.
  intros Hself Ht.
  destruct (forward_function_eval (py_self w1) e x Ht) as [r Hr].
  destruct (Hr w1 eq_refl) as (H1 & Hs & Hg).
  destruct (Hr w2 (eq_sym Hself)) as (H2 & _ & _).
  repeat split; congruence.
Qed.

End Scoring.

(** ** The sampler *)

Section Sampler.

Context {RngState : Type} (randperm : RngState -> list Z -> list Z * RngState).

Implicit Types (T : relation (World RngState)).

Lemma draw_randperm_same_self groups : steps same_self (draw_randperm randperm groups).
Proof. intros w. unfold draw_randperm. now destruct (randperm (rng w) groups). Qed.

Lemma draw_randperm_emits (P : Call -> Prop) groups :
  P (CallRandperm groups) -> steps (emits P) (draw_randperm randperm groups).
Proof.
  intros H w. unfold draw_randperm. destruct (randperm (rng w) groups).
  exists [CallRandperm groups]. simpl. auto.
Qed.

Lemma walk_step_steps T `{!PreOrder T} (f : Tensor -> Py RngState (list Q)) x mk st g :
  (forall t, steps T (f t)) -> steps T (walk_step f x mk st g).
Proof.
  intros Hf. unfold walk_step.
  apply steps_bind; [apply _ | apply Hf |]. intros ev.
  destruct (Nat.eqb _ _); [apply steps_ret | apply steps_raise]; apply _.
Qed.

Lemma sample_once_steps T `{!PreOrder T} (f : Tensor -> Py RngState (list Q))
    x b mk groups init acc k :
  (forall t, steps T (f t)) ->
  steps T (draw_randperm randperm groups) ->
  steps T (sample_once randperm f x b mk groups init acc k).
Proof.
  intros Hf Hd. unfold sample_once.
  apply steps_bind; [apply _ | assumption |]. intros perm.
  apply steps_bind; [apply _ | | intros; apply steps_ret; apply _].
  apply steps_foldM; [apply _|]. intros st g. now apply walk_step_steps.
Qed.

Lemma attribute_steps T `{!PreOrder T} (f : Tensor -> Py RngState (list Q)) x b mk n :
  (forall t, steps T (f t)) ->
  (forall groups, steps T (draw_randperm randperm groups)) ->
  steps T (attribute randperm f x b mk n).
Proof.
  intros Hf Hd. unfold attribute.
  destruct (n <? 1); [apply steps_raise; apply _|].
  destruct (negb _); [apply steps_raise; apply _|].
  destruct (negb _); [apply steps_raise; apply _|].
  apply steps_bind; [apply _ | apply Hf |]. intros init.
  destruct (Nat.eqb _ _); [|apply steps_raise; apply _].
  apply steps_bind; [apply _ | | intros; apply steps_ret; apply _].
  apply steps_foldM; [apply _|]. intros acc k. now apply sample_once_steps.
Qed.

(** What a returned attribution looks like. *)
Lemma attribute_ok (f : Tensor -> Py RngState (list Q)) x b mk n w out w' :
  attribute randperm f x b mk n w = (Ok out, w') ->
  1 <= n /\ shape b = shape x /\ length mk = t_cols x /\
  exists recs,
    out = mkTensor (t_cols x)
            (map (attribution_row recs mk n) (seq 0 (length (t_rows x)))).
Proof.
  unfold attribute. intros H.
  destruct (Z.ltb_spec n 1) as [|Hn]; [discriminate|].
  destruct (Nat.eqb_spec (length (t_rows b)) (length (t_rows x))) as [Hr|]; [|discriminate].
  destruct (Nat.eqb_spec (t_cols b) (t_cols x)) as [Hc|]; [|discriminate].
  destruct (Nat.eqb_spec (length mk) (t_cols x)) as [Hm|]; [|discriminate].
  simpl in H.
  apply bind_ok_inv in H as (init & w2 & _ & H).
  destruct (Nat.eqb _ _); [|discriminate].
  apply bind_ok_inv in H as (recs & w3 & _ & H).
  injection H as <- _.
  repeat split; auto.
  - unfold shape. congruence.
  - eauto.
Qed.

Lemma attribute_shape (f : Tensor -> Py RngState (list Q)) x b mk n w out w' :
  attribute randperm f x b mk n w = (Ok out, w') ->
  shape out = shape x /\ well_shaped out.
Proof.
  intros H. apply attribute_ok in H as (_ & _ & Hm & recs & ->).
  unfold shape, well_shaped; simpl. rewrite length_map, length_seq. split; [reflexivity|].
  apply List.Forall_forall. intros row Hin. apply in_map_iff in Hin as (i & <- & _).
  unfold attribution_row. now rewrite length_map.
Qed.

End Sampler.

(** ** execute *)

Section Execute.

Context {RngState : Type}
  (bernoulli : RngState -> Q -> bool * RngState)
  (randperm : RngState -> list Z -> list Z * RngState).

Implicit Types (w : World RngState) (req : InferenceRequest)
  (T : relation (World RngState)).

Lemma as_numpy_ok_inv {A} (input : option A) w a w' :
  as_numpy input w = (Ok a, w') -> input = Some a /\ w' = w.
Proof. destruct input; simpl; [intros [= -> ->]; auto | discriminate]. Qed.

Lemma index0_ok_inv {A} (l : list A) w a w' :
  index0 l w = (Ok a, w') -> (exists rest, l = a :: rest) /\ w' = w.
Proof. destruct l; simpl; [discriminate | intros [= -> ->]; eauto]. Qed.

(** The two branches of [execute_request] on an answered request. *)
Lemma execute_request_ok_inv req w resp w' :
  execute_request bernoulli randperm req w = (Ok resp, w') ->
  let self := py_self w in
  exists x e flag rest mk emb scores attributions w1 w2,
    NODE_FEATURES req = Some x /\ EDGE_INDEX req = Some e /\
    COMPUTE_SHAP req = Some (flag :: rest) /\ FEATURE_MASK req = Some mk /\
    model_call bernoulli (model self) x e true w = (Ok emb, w1) /\
    bst_predict (bst self) emb w1 = (Ok scores, w2) /\
    resp = response self scores attributions /\
    (if flag then
       exists w3,
         ShapleyValueSampling (forward_function bernoulli e) w2
           = (Ok (forward_function bernoulli e), w3) /\
         attribute_call randperm (forward_function bernoulli e) x (zeros_like x)
           (map to_int32 mk) 128 w3
           = (Ok attributions, w')
     else
       0 <= in_channels self /\
       attributions = zeros 1 (Z.to_nat (in_channels self)) /\ w' = w2).
Proof.
  intros H self. unfold execute_request in H.
  apply bind_ok_inv in H as (self' & w0 & Hs & H). unfold get_self in Hs. injection Hs as <- <-.
  apply bind_ok_inv in H as (x & w0 & Hx & H). apply as_numpy_ok_inv in Hx as [Hx ->].
  apply bind_ok_inv in H as (e & w0 & He & H). apply as_numpy_ok_inv in He as [He ->].
  apply bind_ok_inv in H as (flags & w0 & Hf & H). apply as_numpy_ok_inv in Hf as [Hf ->].
  apply bind_ok_inv in H as (mk & w0 & Hm & H). apply as_numpy_ok_inv in Hm as [Hm ->].
  apply bind_ok_inv in H as (emb & w1 & Hemb & H).
  apply bind_ok_inv in H as (scores & w2 & Hsc & H).
  apply bind_ok_inv in H as (flag & w0 & Hfl & H).
  apply index0_ok_inv in Hfl as [[rest ->] ->].
  apply bind_ok_inv in H as (attributions & w3 & Hat & H).
  injection H as <- <-.
  exists x, e, flag, rest, mk, emb, scores, attributions, w1, w2.
  repeat split; auto.
  destruct flag.
  - apply bind_ok_inv in Hat as (sampler & w4 & Hsm & Hat).
    unfold ShapleyValueSampling, bind, record, ret in Hsm. injection Hsm as <- <-.
    eexists. split; [reflexivity | exact Hat].
  - fold self in Hat. destruct (Z.leb_spec 0 (in_channels self)); [|discriminate].
    injection Hat as <- <-. auto.
Qed.

Lemma ShapleyValueSampling_bind {A} (f : Tensor -> Py RngState (list Q))
    (k : (Tensor -> Py RngState (list Q)) -> Py RngState A) w :
  bind (ShapleyValueSampling f) k w
  = k f (mkWorld (py_self w) (rng w) (calls w ++ [CallShapleyValueSampling])).
Proof. reflexivity. Qed.

Lemma steps_bind_as_numpy {A B} T `{!Reflexive T} (input : option A)
    (k : A -> Py RngState B) :
  (forall a, input = Some a -> steps T (k a)) -> steps T (bind (as_numpy input) k).
Proof.
  intros Hk. destruct input as [a|]; intros w; simpl.
  - apply (Hk a eq_refl).
  - reflexivity.
Qed.

(** Which calls a request makes: one pass of the embedder and of the
    ensemble on the request's features and edges and, on the attribution
    branch, the construction of the sampler, one call of [attribute] on the
    features, their [zeros_like] and 128 samples, and what [attribute]
    itself calls. *)
Lemma execute_request_steps T `{!PreOrder T} req :
  (forall q, steps T (draw_bernoulli bernoulli q)) ->
  (forall groups, steps T (draw_randperm randperm groups)) ->
  (forall x e, steps T (record (CallModel x e true))) ->
  (forall emb, steps T (record (CallPredict emb))) ->
  steps T (record CallShapleyValueSampling) ->
  (forall x mk, NODE_FEATURES req = Some x ->
     steps T (record (CallAttribute x (zeros_like x) mk 128))) ->
  steps T (execute_request bernoulli randperm req).
Proof.
  intros Hb Hp Hm Hs Hv Ha. unfold execute_request.
  apply steps_bind; [apply _ | apply steps_get_self; apply _ |]. intros self.
  apply steps_bind_as_numpy; [apply _|]. intros x Hx.
  do 3 (apply steps_bind; [apply _ | apply steps_as_numpy; apply _ |]; intros ?).
  apply steps_bind; [apply _ | now apply model_call_steps |]. intros emb.
  apply steps_bind; [apply _ | now apply bst_predict_steps |]. intros scores.
  apply steps_bind; [apply _ | apply steps_index0; apply _ |]. intros flag.
  apply steps_bind; [apply _ | | intros; apply steps_ret; apply _].
  destruct flag.
  - assert (Hf : forall t, steps T (forward_function bernoulli a t)).
    { intros t. unfold forward_function.
      apply steps_bind; [apply _ | apply steps_get_self; apply _ |]. intros self'.
      apply steps_bind; [apply _ | now apply model_call_steps |]. intros emb'.
      now apply bst_predict_steps. }
    assert (Hac : steps T (attribute_call randperm (forward_function bernoulli a) x
                             (zeros_like x) (map to_int32 a1) 128)).
    { unfold attribute_call.
      apply steps_bind; [apply _ | exact (Ha _ _ Hx) |]. intros _.
      now apply attribute_steps. }
    intros w. rewrite ShapleyValueSampling_bind.
    etransitivity; [apply (Hv w)|]. exact (Hac _).
  - destruct (0 <=? in_channels self); [apply steps_ret | apply steps_raise]; apply _.
Qed.

Lemma execute_request_same_self req :
  steps same_self (execute_request bernoulli randperm req).
Proof.
  apply execute_request_steps; try apply _; intros;
    first [ apply record_same_self | apply draw_bernoulli_same_self
          | apply draw_randperm_same_self ].
Qed.

Lemma execute_request_emits req :
  steps (emits (request_call req)) (execute_request bernoulli randperm req).
Proof.
  apply execute_request_steps; try apply _; intros;
    first [ apply record_emits; simpl; solve [auto]
          | apply emits_same_calls, draw_bernoulli_same_calls
          | apply draw_randperm_emits; exact I ].
Qed.

Lemma model_call_calls m x e rh w :
  calls (snd (model_call bernoulli m x e rh w)) = calls w ++ [CallModel x e rh].
Proof.
  unfold model_call, bind, record.
  pose proof (GraphSAGE_forward_steps bernoulli same_calls m x e rh) as H.
  match goal with
  | |- context [GraphSAGE_forward _ _ _ _ _ ?w1] =>
      specialize (H (fun q => draw_bernoulli_same_calls bernoulli q) w1);
      destruct (GraphSAGE_forward bernoulli m x e rh w1) as [[out|err] w2]
  end; exact H.
Qed.

Lemma bst_predict_calls b emb w :
  calls (snd (bst_predict b emb w)) = calls w ++ [CallPredict emb].
Proof. reflexivity. Qed.

(** C8. A request whose COMPUTE_SHAP flag is false makes no call to the
    sampler: no ShapleyValueSampling object is built, [attribute] is not
    called and no permutation is drawn; the only library calls are the one
    pass of the embedder and the one pass of the ensemble (both are made when
    the request is answered). *)
Theorem skipped_request_never_samples req w rest :
  COMPUTE_SHAP req = Some (false :: rest) ->
  exists l,
    calls (snd (execute_request bernoulli randperm req w)) = calls w ++ l /\
    (l = [] \/ (exists x e, l = [CallModel x e true]) \/
     (exists x e emb, l = [CallModel x e true; CallPredict emb])) /\
    (is_ok (fst (execute_request bernoulli randperm req w)) = true ->
     exists x e emb, l = [CallModel x e true; CallPredict emb]).
Proof.
  intros Hflag. unfold execute_request. rewrite Hflag, bind_get_self.
  destruct (NODE_FEATURES req) as [x|]; simpl;
    [|exists []; rewrite app_nil_r; split; [reflexivity | split; [auto | discriminate]]].
  rewrite bind_ret.
  destruct (EDGE_INDEX req) as [e|]; simpl;
    [|exists []; rewrite app_nil_r; split; [reflexivity | split; [auto | discriminate]]].
  rewrite !bind_ret.
  destruct (FEATURE_MASK req) as [mk|]; simpl;
    [|exists []; rewrite app_nil_r; split; [reflexivity | split; [auto | discriminate]]].
  rewrite bind_ret.
  pose proof (model_call_calls (model (py_self w)) x e true w) as Hm.
  destruct (model_call bernoulli (model (py_self w)) x e true w) as [[emb|err] w1] eqn:Em;
    simpl in Hm.
  - rewrite (bind_ok _ _ w emb w1 Em).
    pose proof (bst_predict_calls (bst (py_self w)) emb w1) as Hp.
    destruct (bst_predict (bst (py_self w)) emb w1) as [[scores|err] w2] eqn:Ep; simpl in Hp.
    + rewrite (bind_ok _ _ w1 scores w2 Ep).
      rewrite bind_ret.
      exists [CallModel x e true; CallPredict emb].
      split; [|split; eauto 6].
      destruct (0 <=? in_channels (py_self w)); simpl;
        rewrite Hp, Hm, <- app_assoc; reflexivity.
    + rewrite (bind_raise _ _ w1 err w2 Ep). simpl.
      exists [CallModel x e true; CallPredict emb].
      split; [rewrite Hp, Hm, <- app_assoc; reflexivity | split; eauto 6].
  - rewrite (bind_raise _ _ w err w1 Em). simpl.
    exists [CallModel x e true]. split; [assumption | split; [eauto | discriminate]].
Qed.

(** *** Errors a computation cannot raise *)

Lemma avoids_bind {A B} err (m : Py RngState A) (k : A -> Py RngState B) :
  avoids err m -> (forall a, avoids err (k a)) -> avoids err (bind m k).
Proof.
  intros Hm Hk w. unfold bind. specialize (Hm w).
  destruct (m w) as [[a|e] w1]; simpl in *; [apply Hk|].
  intros [= ->]. now apply Hm.
Qed.

Lemma avoids_ret {A} err (a : A) : avoids err (@ret RngState A a).
Proof. intros w. discriminate. Qed.

Lemma avoids_lift {A} err (r : result A) : r <> Raise err -> avoids err (@lift RngState A r).
Proof. intros H w. exact H. Qed.

Lemma avoids_raise {A} err e : e <> err -> avoids err (@raise RngState A e).
Proof. intros H w. simpl. congruence. Qed.

Lemma avoids_mapM {A B} err (f : A -> Py RngState B) (l : list A) :
  (forall a, avoids err (f a)) -> avoids err (mapM f l).
Proof.
  intros Hf. induction l as [|a l IH]; simpl; [apply avoids_ret|].
  apply avoids_bind; [apply Hf|]. intros b.
  apply avoids_bind; [apply IH|]. intros bs. apply avoids_ret.
Qed.

Lemma avoids_foldM {A B} err (f : B -> A -> Py RngState B) (l : list A) acc :
  (forall b a, avoids err (f b a)) -> avoids err (foldM f l acc).
Proof.
  intros Hf. revert acc. induction l as [|a l IH]; intros acc; simpl; [apply avoids_ret|].
  apply avoids_bind; [apply Hf | auto].
Qed.

Lemma Linear_forward_no_baseline_error l x :
  Linear_forward l x <> Raise baseline_shape_error.
Proof. unfold Linear_forward. destruct (Nat.eqb _ _); discriminate. Qed.

Lemma SAGEConv_forward_no_baseline_error c x e :
  SAGEConv_forward c x e <> Raise baseline_shape_error.
Proof.
  unfold SAGEConv_forward. destruct (forallb _ e); [|discriminate].
  pose proof (Linear_forward_no_baseline_error (lin_l c) (aggregate x e)).
  pose proof (Linear_forward_no_baseline_error (lin_r c) x).
  destruct (Linear_forward (lin_l c) _); simpl; [|assumption].
  destruct (Linear_forward (lin_r c) _); simpl; [discriminate | assumption].
Qed.

Lemma model_call_no_baseline_error m x e rh :
  avoids baseline_shape_error (model_call bernoulli m x e rh).
Proof.
  unfold model_call. apply avoids_bind; [intros w; discriminate|]. intros _.
  unfold GraphSAGE_forward. apply avoids_bind.
  - generalize x. induction (convs m) as [|c cs IH]; intros emb; simpl.
    + apply avoids_ret.
    + apply avoids_bind;
        [apply avoids_lift, SAGEConv_forward_no_baseline_error|]. intros e1.
      apply avoids_bind; [|apply IH].
      unfold dropout. destruct (_ && _); [|apply avoids_raise; discriminate].
      destruct (training _); [|apply avoids_ret].
      apply avoids_bind; [|intros; apply avoids_ret].
      apply avoids_mapM. intros row. apply avoids_mapM. intros v.
      unfold dropout_entry. apply avoids_bind; [|intros; apply avoids_ret].
      intros w. unfold draw_bernoulli. destruct (bernoulli _ _). discriminate.
  - intros emb. apply avoids_bind.
    + apply avoids_lift. unfold cat_dim1. destruct (Nat.eqb _ _); discriminate.
    + intros c. destruct rh; [apply avoids_ret|].
      apply avoids_lift, Linear_forward_no_baseline_error.
Qed.

Lemma bst_predict_no_baseline_error b emb :
  avoids baseline_shape_error (@bst_predict RngState b emb).
Proof.
  unfold bst_predict. apply avoids_bind; [intros w; discriminate|]. intros _.
  apply avoids_lift. unfold Booster_predict. destruct (Nat.eqb _ _); discriminate.
Qed.

Lemma forward_function_no_baseline_error e t :
  avoids baseline_shape_error (forward_function bernoulli e t).
Proof.
  unfold forward_function.
  apply avoids_bind; [intros w; discriminate|]. intros self.
  apply avoids_bind; [apply model_call_no_baseline_error|]. intros emb.
  apply bst_predict_no_baseline_error.
Qed.

(** With a baseline of the shape of the input, [attribute] does not raise
    the error of the shape check. *)
Lemma attribute_no_baseline_error (f : Tensor -> Py RngState (list Q)) x b mk n :
  (forall t, avoids baseline_shape_error (f t)) ->
  shape b = shape x ->
  avoids baseline_shape_error (attribute randperm f x b mk n).
Proof.
  intros Hf Hshape. unfold attribute. injection Hshape as Hr Hc.
  destruct (n <? 1); [apply avoids_raise; discriminate|].
  rewrite Hr, Hc, !Nat.eqb_refl. simpl.
  destruct (negb _); [apply avoids_raise; discriminate|].
  apply avoids_bind; [apply Hf|]. intros init.
  destruct (Nat.eqb _ _); [|apply avoids_raise; discriminate].
  apply avoids_bind; [|intros; apply avoids_ret].
  apply avoids_foldM. intros acc k. unfold sample_once.
  apply avoids_bind.
  { intros w. unfold draw_randperm. destruct (randperm _ _). discriminate. }
  intros perm. apply avoids_bind; [|intros; apply avoids_ret].
  apply avoids_foldM. intros st g. unfold walk_step.
  apply avoids_bind; [apply Hf|]. intros ev.
  destruct (Nat.eqb _ _); [apply avoids_ret | apply avoids_raise; discriminate].
Qed.

Lemma execute_request_no_baseline_error req :
  avoids baseline_shape_error (execute_request bernoulli randperm req).
Proof.
  unfold execute_request.
  apply avoids_bind; [intros w; discriminate|]. intros self.
  do 4 (apply avoids_bind;
        [match goal with |- avoids _ (as_numpy ?o) => destruct o end;
         intros w; discriminate|]; intros ?).
  apply avoids_bind; [apply model_call_no_baseline_error|]. intros emb.
  apply avoids_bind; [apply bst_predict_no_baseline_error|]. intros scores.
  apply avoids_bind; [destruct a1; intros w; discriminate|]. intros flag.
  apply avoids_bind; [|intros; apply avoids_ret].
  destruct flag.
  - intros w. rewrite ShapleyValueSampling_bind. unfold attribute_call.
    rewrite (bind_ok (record _) _ _ tt _ eq_refl).
    apply attribute_no_baseline_error.
    + apply forward_function_no_baseline_error.
    + apply zeros_like_shape.
  - destruct (0 <=? in_channels self); [apply avoids_ret | apply avoids_raise; discriminate].
Qed.

(** *** Counting the permutations drawn *)

Lemma count_randperm_app l1 l2 :
  count_randperm (l1 ++ l2) = (count_randperm l1 + count_randperm l2)%nat.
Proof. unfold count_randperm. now rewrite List.filter_app, length_app. Qed.

Lemma count_randperm_none l : Forall not_randperm l -> count_randperm l = O.
Proof.
  unfold count_randperm. induction 1 as [|c l Hc _ IH]; simpl; [reflexivity|].
  unfold not_randperm in Hc. now rewrite Hc.
Qed.

Lemma samples_draw (f : Tensor -> Py RngState (list Q)) x b mk groups init :
  (forall t, steps (emits not_randperm) (f t)) ->
  forall ks acc w recs w',
    foldM (sample_once randperm f x b mk groups init) ks acc w = (Ok recs, w') ->
    exists l, calls w' = calls w ++ l /\ count_randperm l = length ks.
Proof.
  intros Hf. induction ks as [|k ks IH]; intros acc w recs w' H; simpl in H.
  - injection H as _ <-. exists []. now rewrite app_nil_r.
  - apply bind_ok_inv in H as (acc' & w1 & Hs & H).
    apply IH in H as (l2 & Hl2 & Hc2).
    unfold sample_once in Hs.
    apply bind_ok_inv in Hs as (perm & w0 & Hd & Hs).
    apply bind_ok_inv in Hs as (st & w0' & Hw & Hs). injection Hs as _ <-.
    assert (Hd' : calls w0 = calls w ++ [CallRandperm groups]).
    { unfold draw_randperm in Hd. destruct (randperm (rng w) groups).
      now injection Hd as _ <-. }
    pose proof (steps_foldM (emits not_randperm) (walk_step f x mk) perm
                  (mkWalkState b init acc)
                  (fun st g => walk_step_steps (emits not_randperm) f x mk st g Hf) w0) as Hl1.
    rewrite Hw in Hl1. destruct Hl1 as (l1 & Hl1 & Hn1). simpl in Hl1.
    exists (CallRandperm groups :: l1 ++ l2). split.
    + rewrite Hl2, Hl1, Hd', <- !app_assoc. reflexivity.
    + change (CallRandperm groups :: l1 ++ l2) with ([CallRandperm groups] ++ l1 ++ l2).
      rewrite !count_randperm_app, (count_randperm_none l1 Hn1), Hc2. reflexivity.
Qed.

(** A returned attribution has drawn one permutation per sample. *)
Lemma attribute_draws (f : Tensor -> Py RngState (list Q)) x b mk n w out w' :
  (forall t, steps (emits not_randperm) (f t)) ->
  attribute randperm f x b mk n w = (Ok out, w') ->
  exists l, calls w' = calls w ++ l /\ count_randperm l = Z.to_nat n.
Proof.
  intros Hf H. unfold attribute in H.
  destruct (n <? 1); [discriminate|].
  destruct (negb _); [discriminate|].
  destruct (negb _); [discriminate|].
  apply bind_ok_inv in H as (init & w1 & Hi & H).
  destruct (Nat.eqb _ _); [|discriminate].
  apply bind_ok_inv in H as (recs & w2 & Hs & H). injection H as _ <-.
  pose proof (Hf b w) as (l1 & Hl1 & Hn1). rewrite Hi in Hl1. simpl in Hl1.
  eapply samples_draw in Hs as (l2 & Hl2 & Hc2); [|assumption].
  exists (l1 ++ l2). split.
  - now rewrite Hl2, Hl1, app_assoc.
  - now rewrite count_randperm_app, (count_randperm_none l1 Hn1), Hc2, length_seq.
Qed.

(** The calls of an answered request with COMPUTE_SHAP true. *)
Lemma execute_request_attributed_calls req w resp w' rest :
  execute_request bernoulli randperm req w = (Ok resp, w') ->
  COMPUTE_SHAP req = Some (true :: rest) ->
  exists x e mk emb la,
    NODE_FEATURES req = Some x /\
    calls w' = calls w ++
      [CallModel x e true; CallPredict emb; CallShapleyValueSampling;
       CallAttribute x (zeros_like x) mk 128] ++ la /\
    count_randperm la = 128%nat.
Proof.
  intros H Hflag. apply execute_request_ok_inv in H.
  destruct H as (x & e & flag & rest' & mk & emb & scores & attr & w1 & w2 &
                 Hx & He & Hf & Hm & Hmc & Hbp & _ & Hbr).
  rewrite Hflag in Hf. injection Hf as <- <-.
  destruct Hbr as (w3 & Hsv & Hat).
  pose proof (model_call_calls (model (py_self w)) x e true w) as C1.
  rewrite Hmc in C1. simpl in C1.
  pose proof (bst_predict_calls (bst (py_self w)) emb w1) as C2.
  rewrite Hbp in C2. simpl in C2.
  unfold ShapleyValueSampling, bind, record, ret in Hsv. injection Hsv as <-.
  unfold attribute_call in Hat. rewrite (bind_ok (record _) _ _ tt _ eq_refl) in Hat.
  apply attribute_draws in Hat as (la & Hla & Hc).
  - exists x, e, (map to_int32 mk), emb, la. split; [assumption|]. split; [|exact Hc].
    rewrite Hla. simpl. rewrite C2, C1, <- !app_assoc. reflexivity.
  - intros t. apply forward_function_emits. now intros [].
Qed.

(** C9. Every call of [attribute] that a request makes asks for 128
    samples, whatever the request holds; an answered request with
    COMPUTE_SHAP true makes such a call and draws exactly 128
    permutations. *)
Theorem n_samples_is_128 req w :
  exists l,
    calls (snd (execute_request bernoulli randperm req w)) = calls w ++ l /\
    (forall x b mk n, In (CallAttribute x b mk n) l -> n = 128) /\
    (forall resp rest,
        fst (execute_request bernoulli randperm req w) = Ok resp ->
        COMPUTE_SHAP req = Some (true :: rest) ->
        (exists x b mk, In (CallAttribute x b mk 128) l) /\
        count_randperm l = 128%nat).
Proof.
  destruct (execute_request_emits req w) as (l & Hl & HP).
  exists l. split; [assumption|]. split.
  - intros x b mk n Hin. rewrite List.Forall_forall in HP.
    apply HP in Hin. simpl in Hin. tauto.
  - intros resp rest Hok Hflag.
    destruct (execute_request bernoulli randperm req w) as [r w'] eqn:E.
    simpl in Hok, Hl. subst r.
    destruct (execute_request_attributed_calls req w resp w' rest E Hflag)
      as (x & e & mk & emb & la & _ & Hc & Hn).
    rewrite Hl in Hc. apply app_inv_head in Hc. subst l. split.
    + exists x, (zeros_like x), mk. simpl. auto.
    + change (count_randperm ([CallModel x e true; CallPredict emb; CallShapleyValueSampling;
                CallAttribute x (zeros_like x) mk 128] ++ la) = 128%nat).
      rewrite count_randperm_app, Hn. reflexivity.
Qed.

(** C10. The baseline handed to [attribute] is [zeros_like] of the
    request's NODE_FEATURES: all zeros, of the same shape; it is made by
    [execute], not read from the request, and the error for a baseline whose
    shape differs from the input's is never raised. An answered request with
    COMPUTE_SHAP true does make the call. *)
Theorem baseline_is_zeros_like_input req w :
  (exists l,
     calls (snd (execute_request bernoulli randperm req w)) = calls w ++ l /\
     (forall x b mk n, In (CallAttribute x b mk n) l ->
        NODE_FEATURES req = Some x /\ b = zeros_like x /\
        shape b = shape x /\ all_zero b) /\
     (forall resp rest,
        fst (execute_request bernoulli randperm req w) = Ok resp ->
        COMPUTE_SHAP req = Some (true :: rest) ->
        exists x mk, In (CallAttribute x (zeros_like x) mk 128) l)) /\
  fst (execute_request bernoulli randperm req w) <> Raise baseline_shape_error.
Proof.
  split; [|apply execute_request_no_baseline_error].
  destruct (execute_request_emits req w) as (l & Hl & HP).
  exists l. split; [assumption|]. split.
  - intros x b mk n Hin. rewrite List.Forall_forall in HP.
    apply HP in Hin. simpl in Hin. destruct Hin as (Hx & -> & _).
    repeat split; auto using zeros_like_shape, zeros_like_all_zero.
  - intros resp rest Hok Hflag.
    destruct (execute_request bernoulli randperm req w) as [r w'] eqn:E.
    simpl in Hok, Hl. subst r.
    destruct (execute_request_attributed_calls req w resp w' rest E Hflag)
      as (x & e & mk & emb & la & _ & Hc & _).
    rewrite Hl in Hc. apply app_inv_head in Hc. subst l.
    exists x, mk. simpl. auto.
Qed.

(** *** The loop over the batch *)

Lemma execute_loop_app pre : forall rest acc w rs w1,
  execute_loop bernoulli randperm pre acc w = (Ok rs, w1) ->
  execute_loop bernoulli randperm (pre ++ rest) acc w
  = execute_loop bernoulli randperm rest rs w1.
Proof.
  induction pre as [|r pre IH]; intros rest acc w rs w1 H; simpl in *.
  - now injection H as <- <-.
  - apply bind_ok_inv in H as (resp & w0 & Hr & H).
    erewrite bind_ok by eassumption. now apply IH.
Qed.

Lemma execute_loop_same_self reqs : forall acc,
  steps same_self (execute_loop bernoulli randperm reqs acc).
Proof.
  induction reqs as [|r reqs IH]; intros acc; simpl.
  - apply steps_ret; apply _.
  - apply steps_bind; [apply _ | apply execute_request_same_self | auto].
Qed.

Lemma execute_loop_length reqs : forall acc w rs w',
  execute_loop bernoulli randperm reqs acc w = (Ok rs, w') ->
  length rs = (length acc + length reqs)%nat.
Proof.
  induction reqs as [|r reqs IH]; intros acc w rs w' H; simpl in *.
  - injection H as <- _. lia.
  - apply bind_ok_inv in H as (resp & w0 & _ & H).
    apply IH in H. rewrite length_app in H. simpl in H. lia.
Qed.

(** C5, as the code has it. [execute] has no handler: when the requests
    before [req] were processed and [req] raises, the exception leaves
    [execute], which returns no response at all, neither a failed one for
    [req] nor those already built for the requests before it, and the
    requests after it are not processed. [self] (model weights and tree
    ensemble) is unchanged. Responses are returned only when every request
    of the batch succeeded, one per request. *)
Theorem failed_request_fails_the_batch pre req post w rs w1 err w2 :
  execute bernoulli randperm pre w = (Ok rs, w1) ->
  execute_request bernoulli randperm req w1 = (Raise err, w2) ->
  execute bernoulli randperm (pre ++ req :: post) w = (Raise err, w2) /\
  py_self w2 = py_self w /\
  length rs = length pre /\
  (forall reqs rs' w', execute bernoulli randperm reqs w = (Ok rs', w') ->
     length rs' = length reqs /\ py_self w' = py_self w).
Proof.
  intros Hpre Hreq. unfold execute in *. split; [|split; [|split]].
  - erewrite execute_loop_app by eassumption. simpl.
    now erewrite bind_raise by eassumption.
  - pose proof (execute_loop_same_self pre [] w) as H1. rewrite Hpre in H1.
    pose proof (execute_request_same_self req w1) as H2. rewrite Hreq in H2.
    unfold same_self in *. simpl in *. congruence.
  - apply execute_loop_length in Hpre. simpl in Hpre. lia.
  - intros reqs rs' w' H. split.
    + apply execute_loop_length in H. simpl in H. lia.
    + pose proof (execute_loop_same_self reqs [] w) as H1. now rewrite H in H1.
Qed.

(** *** The attribution output *)

Lemma model_call_ok_inv m x e rh w out w' :
  model_call bernoulli m x e rh w = (Ok out, w') ->
  exists w0, GraphSAGE_forward bernoulli m x e rh w0 = (Ok out, w').
Proof.
  unfold model_call. intros H. apply bind_ok_inv in H as ([] & w0 & _ & H). eauto.
Qed.

Lemma model_call_total (self : TritonPythonModel) x e w :
  self_wf self ->
  t_cols x = Z.to_nat (in_channels self) ->
  forallb (edge_in_range (length (t_rows x))) e = true ->
  exists out w',
    model_call bernoulli (model self) x e true w = (Ok out, w') /\
    t_cols out = embedding_width self /\ length (t_rows out) = length (t_rows x).
Proof.
  intros (Hwf & Hin & Hhid & Ht & Hp) Hx He. unfold model_call.
  rewrite (bind_ok (record _) _ _ tt _ eq_refl).
  edestruct (GraphSAGE_forward_hidden_total bernoulli (model self) x e) as (out & w' & H);
    eauto.
  - now rewrite Hp.
  - now rewrite Hin.
  - exists out, w'. split; [exact H|].
    apply GraphSAGE_forward_hidden_ok in H as (emb & _ & Hrows & Hlen & _ & _ & Hc & _);
      [|assumption].
    unfold embedding_width. rewrite <- Hin, <- Hhid. split; [assumption|].
    rewrite Hrows, length_zip_with, Hlen. apply Nat.min_id.
Qed.

Lemma bst_predict_total b emb w :
  t_cols emb = num_feature b ->
  bst_predict b emb w
  = (Ok (map (bst_score b) (t_rows emb)),
     mkWorld (py_self w) (rng w) (calls w ++ [CallPredict emb])).
Proof.
  intros H. unfold bst_predict, bind, record, lift, Booster_predict.
  now rewrite H, Nat.eqb_refl.
Qed.

(** C1, as the code has it. When COMPUTE_SHAP is false the SHAP_VALUES
    output of an answered request is [torch.zeros((1, in_channels))]: all
    zeros, of the fixed shape [(1, in_channels)]. The output for the same
    request with COMPUTE_SHAP true has the shape of NODE_FEATURES,
    [(num_nodes, in_channels)]; the two shapes are equal exactly when the
    request has one node. A request with COMPUTE_SHAP false whose features
    have width [in_channels], whose edges name existing nodes and whose
    embedding has the width the ensemble expects is answered. *)
Theorem skipped_SHAP_VALUES_shape req w rest :
  self_wf (py_self w) ->
  COMPUTE_SHAP req = Some (false :: rest) ->
  let self := py_self w in
  let cin := Z.to_nat (in_channels self) in
  (forall resp w',
      execute_request bernoulli randperm req w = (Ok resp, w') ->
      exists x zs,
        NODE_FEATURES req = Some x /\
        output_named "SHAP_VALUES" resp = Some zs /\
        all_zero zs /\ shape zs = (1%nat, cin) /\
        shape x = (length (t_rows x), cin) /\
        forall flags w0 resp2 w2,
          py_self w0 = self ->
          execute_request bernoulli randperm (with_COMPUTE_SHAP req (true :: flags)) w0
            = (Ok resp2, w2) ->
          exists attributions,
            output_named "SHAP_VALUES" resp2 = Some attributions /\
            shape attributions = shape x /\
            (shape zs = shape attributions <-> length (t_rows x) = 1%nat)) /\
  (forall x e mk,
      NODE_FEATURES req = Some x -> EDGE_INDEX req = Some e -> FEATURE_MASK req = Some mk ->
      t_cols x = cin ->
      forallb (edge_in_range (length (t_rows x))) e = true ->
      num_feature (bst self) = embedding_width self ->
      exists resp w', execute_request bernoulli randperm req w = (Ok resp, w')).
Proof.
  intros Hwf Hflag self cin. split.
  - intros resp w' H. apply execute_request_ok_inv in H.
    destruct H as (x & e & flag & rest' & mk & emb & scores & attr & w1 & w2 &
                   Hx & He & Hf & Hm & Hmc & Hbp & -> & Hbr).
    rewrite Hflag in Hf. injection Hf as <- <-. destruct Hbr as (Hnn & -> & ->).
    apply model_call_ok_inv in Hmc as (w0 & Hmc).
    destruct Hwf as (Hgw & Hin & _).
    apply GraphSAGE_forward_hidden_ok in Hmc as (_ & _ & _ & _ & Hc & _); [|assumption].
    rewrite Hin in Hc. fold self cin in Hc.
    exists x, (astype (shap_dtype self) (zeros 1 cin)).
    split; [assumption|]. split; [reflexivity|].
    split; [apply astype_all_zero, zeros_all_zero|].
    split; [rewrite astype_shape; apply zeros_shape|].
    split; [unfold shape; now rewrite Hc|].
    intros flags w0' resp2 w2' Hs H2. apply execute_request_ok_inv in H2.
    destruct H2 as (x2 & e2 & flag2 & rest2 & mk2 & emb2 & scores2 & attr2 & w3 & w4 &
                    Hx2 & _ & Hf2 & _ & _ & _ & -> & Hbr2).
    simpl in Hx2, Hf2. rewrite Hx in Hx2. injection Hx2 as <-.
    injection Hf2 as <- <-. destruct Hbr2 as (w5 & _ & Hat).
    unfold attribute_call in Hat. rewrite (bind_ok (record _) _ _ tt _ eq_refl) in Hat.
    apply attribute_shape in Hat as [Hsh _].
    exists (astype (shap_dtype (py_self w0')) attr2).
    split; [reflexivity|]. rewrite !astype_shape. split; [assumption|].
    rewrite Hsh, zeros_shape. unfold shape. rewrite Hc. split.
    + now intros [= <-].
    + now intros ->.
  - intros x e mk Hx He Hm Hc Hedges Hnf. unfold execute_request.
    rewrite bind_get_self, Hx, He, Hm, Hflag. simpl. rewrite !bind_ret.
    fold self.
    destruct (model_call_total self x e w Hwf Hc Hedges) as (emb & w1 & Hmc & Hw & _).
    erewrite bind_ok by eassumption.
    erewrite bind_ok by (apply bst_predict_total; congruence).
    change (index0 (false :: rest)) with (@ret RngState bool false).
    rewrite bind_ret.
    destruct Hwf as ((Hnn & _) & Hin & _). rewrite Hin in Hnn.
    fold self in Hnn. apply Z.leb_le in Hnn. rewrite Hnn. rewrite bind_ret.
    eexists _, _. reflexivity.
Qed.

End Execute.

(** ** initialize *)

Lemma rbind_ok_inv {A B} (r : result A) (k : A -> result B) b :
  rbind r k = Ok b -> exists a, r = Ok a /\ k a = Ok b.
Proof. destruct r; simpl; [eauto | discriminate]. Qed.

(** Splits a chain of [try] steps that ended without an exception. *)
Ltac try_inv H :=
  repeat (let a := fresh "a" in
          let E := fresh "E" in
          apply rbind_ok_inv in H as (a & E & H)).

Lemma getitem_ok_inv {V} (d : gmap string V) key v :
  getitem d key = Ok v -> d !! key = Some v.
Proof. unfold getitem. destruct (d !! key); [now intros [= ->] | discriminate]. Qed.

Lemma getitem_raise_inv {V} (d : gmap string V) key err :
  getitem d key = Raise err -> d !! key = None /\ err = KeyError key.
Proof. unfold getitem. destruct (d !! key); [discriminate | now intros [= <-]]. Qed.

Lemma py_int_raise_inv s err :
  py_int s = Raise err -> err = ValueError "invalid literal for int() with base 10".
Proof. unfold py_int. destruct (match strip _ with [] => _ | _ => _ end); [discriminate|]. now intros [= <-]. Qed.

Lemma Linear_init_ok cin cout wb l :
  Linear_init cin cout wb = Ok l ->
  0 <= cin /\ 0 <= cout /\
  in_features l = Z.to_nat cin /\ out_features l = Z.to_nat cout /\ Linear_wf l.
Proof.
  unfold Linear_init.
  destruct (Z.ltb_spec cin 0); [discriminate|].
  destruct (Z.ltb_spec cout 0); [discriminate|]. simpl. intros [= <-].
  pose proof (zeros_well_shaped (Z.to_nat cout) (Z.to_nat cin)) as Hz.
  destruct wb; unfold in_features, out_features, Linear_wf; simpl;
    rewrite !repeat_length; repeat split; auto;
    unfold out_features; simpl; now rewrite repeat_length.
Qed.

Lemma SAGEConv_init_ok cin cout c :
  SAGEConv_init cin cout = Ok c ->
  0 <= cin /\ 0 <= cout /\ SAGEConv_wf (Z.to_nat cin) (Z.to_nat cout) c.
Proof.
  unfold SAGEConv_init. intros H. try_inv H. injection H as <-.
  apply Linear_init_ok in E as (? & ? & ? & ? & ?).
  apply Linear_init_ok in E0 as (? & ? & ? & ? & ?).
  split; [assumption|]. split; [assumption|].
  unfold SAGEConv_wf; simpl. repeat (split; [assumption|]). assumption.
Qed.

Lemma convs_wf_snoc cin cout cs c :
  cs <> [] -> convs_wf cin cout cs -> SAGEConv_wf cout cout c ->
  convs_wf cin cout (cs ++ [c]).
Proof.
  revert cin. induction cs as [|c0 cs IH]; intros cin Hne Hwf Hc; [congruence|].
  destruct Hwf as [H0 Hrest]. simpl. split; [assumption|].
  destruct cs as [|c1 cs]; simpl; [auto|].
  apply IH; auto; discriminate.
Qed.

Lemma append_convs_ok n hidden : forall cin cs cs',
  append_convs n hidden cs = Ok cs' ->
  cs <> [] -> convs_wf cin (Z.to_nat hidden) cs ->
  cs' <> [] /\ convs_wf cin (Z.to_nat hidden) cs'.
Proof.
  induction n as [|n IH]; intros cin cs cs' H Hne Hwf; simpl in H.
  - injection H as <-. auto.
  - try_inv H. apply SAGEConv_init_ok in E as (_ & _ & Hc).
    eapply IH in H; eauto.
    + now destruct cs.
    + now apply convs_wf_snoc.
Qed.

Lemma GraphSAGE_init_ok in_ch hidden_ch out_ch layers m :
  GraphSAGE_init in_ch hidden_ch out_ch layers = Ok m ->
  GraphSAGE_wf m /\ m_in_channels m = in_ch /\ m_hidden_channels m = hidden_ch /\
  training m = true /\ dropout_prob m = (1 # 4)%Q.
Proof.
  unfold GraphSAGE_init. intros H. try_inv H. injection H as <-.
  apply SAGEConv_init_ok in E as (Hin & Hhid & Hc).
  eapply append_convs_ok in E0 as [Hne Hwf]; [| discriminate | simpl; eauto].
  unfold GraphSAGE_wf; simpl. repeat split; auto.
Qed.

Lemma load_linear_ok l w b l' :
  load_linear l w b = Ok l' ->
  in_features l' = in_features l /\ out_features l' = out_features l /\ Linear_wf l'.
Proof.
  unfold load_linear. destruct (has_shape _ _ _) eqn:Hs; [|discriminate].
  apply has_shape_spec in Hs as (Hr & Hc & Hw).
  destruct b as [bias|]; simpl.
  - destruct (Nat.eqb_spec (length bias) (out_features l)) as [Hb|]; [|discriminate].
    intros [= <-]. unfold in_features, out_features, Linear_wf in *; simpl.
    repeat split; auto. unfold out_features; simpl. congruence.
  - intros [= <-]. unfold in_features, out_features, Linear_wf in *; simpl.
    repeat split; auto.
Qed.

Lemma load_convs_ok cs : forall ps cs' cin cout,
  load_convs cs ps = Ok cs' ->
  convs_wf cin cout cs ->
  convs_wf cin cout cs' /\ (cs <> [] -> cs' <> []).
Proof.
  induction cs as [|c cs IH]; intros ps cs' cin cout H Hwf; destruct ps as [|p ps];
    simpl in H; try discriminate.
  - injection H as <-. auto.
  - try_inv H. injection H as <-. destruct Hwf as [Hc Hrest].
    apply load_linear_ok in E as (Hl1 & Hl2 & Hl3).
    apply load_linear_ok in E0 as (Hr1 & Hr2 & Hr3).
    eapply IH in E1 as [Hwf' _]; [|eassumption].
    split; [|discriminate]. simpl. split; [|assumption].
    destruct Hc as (_ & _ & Hli & Hlo & Hri & Hro).
    unfold SAGEConv_wf; simpl.
    repeat (split; [first [assumption | congruence]|]). congruence.
Qed.

Lemma load_state_dict_ok m sd m' :
  load_state_dict m sd = Ok m' ->
  GraphSAGE_wf m -> GraphSAGE_wf m' /\
  m_in_channels m' = m_in_channels m /\ m_hidden_channels m' = m_hidden_channels m /\
  training m' = training m /\ dropout_prob m' = dropout_prob m.
Proof.
  unfold load_state_dict. intros H (Hin & Hhid & Hne & Hwf). try_inv H. injection H as <-.
  eapply load_convs_ok in E as [Hwf' Hne']; [|eassumption].
  unfold GraphSAGE_wf; simpl. repeat split; auto.
Qed.

(** [initialize] leaves a well-formed [self], in inference mode. *)
Lemma initialize_wf model_config files self :
  initialize model_config files = Ok self -> self_wf self.
Proof.
  unfold initialize. intros H. try_inv H. injection H as <-.
  apply GraphSAGE_init_ok in E22 as (Hwf & Hin & Hhid & _ & Hp).
  eapply load_state_dict_ok in E24 as (Hwf' & Hin' & Hhid' & _ & Hp'); [|eassumption].
  unfold self_wf, eval_mode, GraphSAGE_wf in *; simpl.
  repeat split; try tauto; congruence.
Qed.

(** One [try] step of [initialize] on an entry: either it raises a KeyError
    or a ValueError, or the entry is present. *)
Ltac entry_step :=
  match goal with
  | |- context [rbind (getitem ?d ?k) _] =>
      let E := fresh "E" in
      destruct (getitem d k) eqn:E; simpl rbind;
      [ apply getitem_ok_inv in E
      | apply getitem_raise_inv in E as [_ ->]; eexists; split; [reflexivity | left; eauto] ]
  | |- context [rbind (py_int ?s) _] =>
      let E := fresh "E" in
      destruct (py_int s) eqn:E; simpl rbind;
      [ | apply py_int_raise_inv in E as ->; eexists; split; [reflexivity | right; eauto] ]
  end.

(** C7. When one of the four hyperparameters or one of the two file names is
    absent from the model configuration, [initialize] raises (a KeyError, or
    the ValueError of an earlier malformed entry) and returns no [self];
    nothing is defaulted: whenever [initialize] returns, each of the six
    values of [self] is the one the configuration holds. *)
Theorem startup_parameters_required (model_config : ModelConfig) (files : gmap string File) :
  (forall key, In key startup_keys -> config_entry model_config key = None ->
     exists err, initialize model_config files = Raise err /\ KeyError_or_ValueError err) /\
  (forall self, initialize model_config files = Ok self ->
     (exists s, config_entry model_config "in_channels" = Some s /\
                py_int s = Ok (in_channels self)) /\
     (exists s, config_entry model_config "hidden_channels" = Some s /\
                py_int s = Ok (hidden_channels self)) /\
     (exists s, config_entry model_config "out_channels" = Some s /\
                py_int s = Ok (out_channels self)) /\
     (exists s, config_entry model_config "n_layers" = Some s /\
                py_int s = Ok (n_layers self)) /\
     config_entry model_config "embedding_generator_model_state_dict"
       = Some (embedder_state_dict_filename self) /\
     config_entry model_config "embeddings_based_xgboost_model"
       = Some (xgb_model_filename self)).
Proof.
  split.
  - intros key Hin Hnone. unfold initialize, config_entry in *.
    destruct (cfg_parameters model_config) as [parameters|]; simpl rbind;
      [|eexists; split; [reflexivity | left; eauto]].
    simpl in Hin.
    repeat (destruct Hin as [<-|Hin]; [|]); try contradiction;
      repeat (entry_step;
              try (repeat match goal with
                          | E : _ !! _ = Some _ |- _ => rewrite E in Hnone
                          end; discriminate)).
  - intros self H. unfold initialize in H.
    destruct (cfg_parameters model_config) as [parameters|] eqn:Hp; [|discriminate].
    simpl rbind in H. try_inv H. injection H as <-. simpl.
    unfold config_entry. rewrite Hp.
    repeat match goal with
           | E : getitem _ _ = Ok _ |- _ => apply getitem_ok_inv in E; try rewrite E
           end.
    repeat split; eauto.
Qed.




Section WidthMismatch.

Context {RngState : Type}
  (bernoulli : RngState -> Q -> bool * RngState)
  (randperm : RngState -> list Z -> list Z * RngState).



End WidthMismatch.

(** ** Additivity of the sampled attributions *)

(** *** Sums of rationals *)








(** *** Switching every group on reaches the input *)






(** *** The walk telescopes *)




Section Additivity.

Context {RngState : Type} (randperm : RngState -> list Z -> list Z * RngState).

(** The scoring function [f] computes [F] and keeps [self], in every world
    whose [self] is [self0]. *)
Variables (self0 : TritonPythonModel)
          (f : Tensor -> Py RngState (list Q))
          (F : Tensor -> result (list Q)).
Hypothesis f_pure : forall t (w : World RngState),
  py_self w = self0 -> fst (f t w) = F t /\ py_self (snd (f t w)) = self0.

(** The generator returns arrangements of the list it is given. *)
Hypothesis randperm_permutation : forall s groups, Permutation groups (fst (randperm s groups)).

Variables (x b : Tensor) (mk : list Z).
Hypothesis x_well_shaped : well_shaped x.
Hypothesis b_well_shaped : well_shaped b.
Hypothesis b_shape : shape b = shape x.
Hypothesis mk_length : length mk = t_cols x.





End Additivity.

(** ** Requests that ask for attributions *)

Section Attributed.

Context {RngState : Type}
  (bernoulli : RngState -> Q -> bool * RngState)
  (randperm : RngState -> list Z -> list Z * RngState).

Implicit Types (w : World RngState).







End Attributed.

(** ** The small deployment *)

Lemma Demo_initialize (width : nat) :
  initialize (Demo.model_config Demo.parameters) (Demo.files width) = Ok (Demo.self width).
Proof. vm_compute. reflexivity. Qed.

Lemma Demo_self_wf (width : nat) : self_wf (Demo.self width).
Proof. eapply initialize_wf, Demo_initialize. Qed.


(** ** The claims on the small deployment *)

(** C1 as stated fails: for a request with two nodes the skipped output has
    shape [(1, 2)] and is all zeros, the computed output has shape
    [(2, 2)]. *)
Lemma skipped_shape_differs_for_two_nodes :
  exists skipped computed zs attributions,
    Demo.run (execute_request Demo.bernoulli Demo.randperm (Demo.two_nodes false))
      (Demo.world 3) = Ok skipped /\
    Demo.run (execute_request Demo.bernoulli Demo.randperm (Demo.two_nodes true))
      (Demo.world 3) = Ok computed /\
    output_named "SHAP_VALUES" skipped = Some zs /\
    output_named "SHAP_VALUES" computed = Some attributions /\
    all_zero zs /\
    shape zs = (1%nat, 2%nat) /\ shape attributions = (2%nat, 2%nat) /\
    shape zs <> shape attributions.
Proof.
  eexists _, _, _, _.
  split; [vm_compute; reflexivity|]. split; [vm_compute; reflexivity|].
  split; [reflexivity|]. split; [reflexivity|].
  split; [repeat constructor|]. split; [reflexivity|]. split; [reflexivity|].
  discriminate.
Qed.

Lemma skipped_SHAP_VALUES_shape_witness :
  exists resp w' zs,
    execute_request Demo.bernoulli Demo.randperm (Demo.two_nodes false) (Demo.world 3)
      = (Ok resp, w') /\
    output_named "SHAP_VALUES" resp = Some zs /\
    all_zero zs /\ shape zs = (1%nat, 2%nat).
Proof.
  destruct (skipped_SHAP_VALUES_shape Demo.bernoulli Demo.randperm
              (Demo.two_nodes false) (Demo.world 3) [] (Demo_self_wf 3) eq_refl)
    as [Hok Htotal].
  destruct (Htotal _ _ _ eq_refl eq_refl eq_refl eq_refl eq_refl eq_refl)
    as (resp & w' & Hrun).
  destruct (Hok resp w' Hrun) as (x & zs & _ & Hzs & Hzero & Hshape & _).
  exists resp, w', zs. auto.
Defined.



(** The cast of the mask to int32 decides the groups: the ids [0] and
    [2^32] are one group, and the two features carry its contribution, 7,
    each. *)
Example wrapped_mask_is_one_group :
  exists resp attributions,
    Demo.run (execute_request Demo.bernoulli Demo.randperm
                (Demo.one_node true [0; 4294967296])) (Demo.world 3) = Ok resp /\
    output_named "SHAP_VALUES" resp = Some attributions /\
    map (map Qred) (t_rows attributions) = [[7; 7]%Q].
Proof.
  eexists _, _. split; [vm_compute; reflexivity|]. split; reflexivity.
Qed.



Lemma forward_function_deterministic_witness :
  fst (forward_function Demo.bernoulli Demo.self_loop Demo.features (Demo.world 3))
  = fst (forward_function Demo.bernoulli Demo.self_loop Demo.features Demo.later_world) /\
  py_self (snd (forward_function Demo.bernoulli Demo.self_loop Demo.features (Demo.world 3)))
  = Demo.self 3 /\
  rng (snd (forward_function Demo.bernoulli Demo.self_loop Demo.features (Demo.world 3)))
  = O.
Proof.
  exact (forward_function_deterministic Demo.bernoulli Demo.self_loop Demo.features
           (Demo.world 3) Demo.later_world eq_refl eq_refl).
Defined.

(** Inference mode is needed for C4: in training mode dropout reads the
    generator, so the score of the same features changes with its state and
    the generator is advanced. *)
Example training_mode_depends_on_generator :
  Demo.run (forward_function Demo.bernoulli Demo.self_loop Demo.features)
    (Demo.training_world 0) = Ok [(1 + 2 + 4 / (3 # 4))%Q] /\
  Demo.run (forward_function Demo.bernoulli Demo.self_loop Demo.features)
    (Demo.training_world 1) = Ok [(1 + 2 + 0)%Q] /\
  rng (snd (forward_function Demo.bernoulli Demo.self_loop Demo.features
              (Demo.training_world 0))) = 1%nat.
Proof. repeat split; vm_compute; reflexivity. Qed.

(** C5 as stated fails: the batch whose second request has features of the
    wrong width gets no response list at all, although its first request
    alone is answered. *)
Lemma bad_request_fails_whole_batch :
  (exists rs, Demo.run (execute Demo.bernoulli Demo.randperm [Demo.two_nodes false])
                (Demo.world 3) = Ok rs /\ length rs = 1%nat) /\
  Demo.run (execute Demo.bernoulli Demo.randperm
              [Demo.two_nodes false; Demo.bad_width; Demo.one_node false [0; 1]])
    (Demo.world 3)
  = Raise (RuntimeError "mat1 and mat2 shapes cannot be multiplied").
Proof.
  split; [eexists; split; [vm_compute; reflexivity | reflexivity]|].
  vm_compute. reflexivity.
Qed.

Lemma failed_request_fails_the_batch_witness :
  exists err w2,
    execute Demo.bernoulli Demo.randperm
      ([Demo.two_nodes false] ++ Demo.bad_width :: [Demo.one_node false [0; 1]])
      (Demo.world 3) = (Raise err, w2) /\
    py_self w2 = Demo.self 3.
Proof.
  edestruct (failed_request_fails_the_batch Demo.bernoulli Demo.randperm
               [Demo.two_nodes false] Demo.bad_width [Demo.one_node false [0; 1]]
               (Demo.world 3)) as (Hraise & Hself & _).
  - vm_compute. reflexivity.
  - vm_compute. reflexivity.
  - eexists _, _. split; [exact Hraise | exact Hself].
Defined.


Lemma skipped_request_never_samples_witness :
  exists l,
    calls (snd (execute_request Demo.bernoulli Demo.randperm (Demo.two_nodes false)
                  (Demo.world 3))) = calls (Demo.world 3) ++ l /\
    (l = [] \/ (exists x e, l = [CallModel x e true]) \/
     (exists x e emb, l = [CallModel x e true; CallPredict emb])) /\
    (is_ok (fst (execute_request Demo.bernoulli Demo.randperm (Demo.two_nodes false)
                   (Demo.world 3))) = true ->
     exists x e emb, l = [CallModel x e true; CallPredict emb]).
Proof.
  exact (skipped_request_never_samples Demo.bernoulli Demo.randperm
           (Demo.two_nodes false) (Demo.world 3) [] eq_refl).
Defined.

(** ** Further properties of [initialize] and [execute] *)

Lemma append_convs_length n hidden : forall cs cs',
  append_convs n hidden cs = Ok cs' -> length cs' = (length cs + n)%nat.
Proof.
  induction n as [|n IH]; intros cs cs' H; simpl in H.
  - injection H as <-. lia.
  - try_inv H. apply IH in H. rewrite length_app in H. simpl in H. lia.
Qed.

(** X1. [GraphSAGE.__init__] always builds the first layer and then
    [n_layers - 1] more when that is positive: a module has
    [max 1 n_layers] convolution layers. *)
Theorem GraphSAGE_init_layer_count (in_ch hidden_ch out_ch layers : Z) (m : GraphSAGE) :
  GraphSAGE_init in_ch hidden_ch out_ch layers = Ok m ->
  length (convs m) = Z.to_nat (Z.max 1 layers).
Proof.
  unfold GraphSAGE_init. intros H. try_inv H. injection H as <-. simpl.
  apply append_convs_length in E0. simpl in E0. lia.
Qed.

Lemma GraphSAGE_init_layer_count_witness :
  exists m, GraphSAGE_init 2 1 1 0 = Ok m /\ length (convs m) = 1%nat.
Proof.
  eexists. split; [vm_compute; reflexivity|].
  exact (GraphSAGE_init_layer_count 2 1 1 0 _ eq_refl).
Defined.

(** X2. Whenever [initialize] returns, the embedder is in inference mode
    ([model.eval()]), it keeps the default dropout probability 0.25, and the
    four sizes it was constructed with are those stored in [self]. *)
Theorem initialize_sets_inference_mode model_config files self :
  initialize model_config files = Ok self ->
  training (model self) = false /\
  dropout_prob (model self) = (1 # 4)%Q /\
  m_in_channels (model self) = in_channels self /\
  m_hidden_channels (model self) = hidden_channels self /\
  m_out_channels (model self) = out_channels self /\
  m_n_layers (model self) = n_layers self.
Proof.
  unfold initialize. intros H. try_inv H. injection H as <-. simpl.
  match goal with
  | E : load_state_dict _ _ = Ok _ |- _ =>
      unfold load_state_dict in E; try_inv E; injection E as <-
  end.
  match goal with
  | E : GraphSAGE_init _ _ _ _ = Ok _ |- _ =>
      unfold GraphSAGE_init in E; try_inv E; injection E as <-
  end.
  simpl. repeat split.
Qed.

Lemma initialize_sets_inference_mode_witness :
  training (model (Demo.self 3)) = false /\
  dropout_prob (model (Demo.self 3)) = (1 # 4)%Q /\
  m_in_channels (model (Demo.self 3)) = in_channels (Demo.self 3) /\
  m_hidden_channels (model (Demo.self 3)) = hidden_channels (Demo.self 3) /\
  m_out_channels (model (Demo.self 3)) = out_channels (Demo.self 3) /\
  m_n_layers (model (Demo.self 3)) = n_layers (Demo.self 3).
Proof.
  exact (initialize_sets_inference_mode (Demo.model_config Demo.parameters) (Demo.files 3)
           (Demo.self 3) (Demo_initialize 3)).
Defined.

Section Prediction.

Context {RngState : Type}
  (bernoulli : RngState -> Q -> bool * RngState)
  (randperm : RngState -> list Z -> list Z * RngState).

(** X3. Every answered request carries exactly two output tensors, PREDICTION
    and then SHAP_VALUES, with the configured element types; PREDICTION has
    one row per node of NODE_FEATURES and one column. *)
Theorem PREDICTION_has_one_column (req : InferenceRequest) (w : World RngState) resp w' :
  self_wf (py_self w) ->
  execute_request bernoulli randperm req w = (Ok resp, w') ->
  exists x scores attributions,
    NODE_FEATURES req = Some x /\
    output_tensors resp =
      [ mkPbTensor "PREDICTION" (prediction_dtype (py_self w)) (column scores);
        mkPbTensor "SHAP_VALUES" (shap_dtype (py_self w)) attributions ] /\
    shape (column scores) = (length (t_rows x), 1%nat).
Proof.
  intros Hwf H. apply execute_request_ok_inv in H.
  destruct H as (x & e & flag & rest & mk & emb & scores & attr & w1 & w2 &
                 Hx & _ & _ & _ & Hmc & Hbp & -> & _).
  exists x, (map (cast (prediction_dtype (py_self w))) scores),
    (astype (shap_dtype (py_self w)) attr).
  split; [assumption|].
  split; [unfold response; now rewrite astype_column|].
  apply model_call_ok_inv in Hmc as (w0 & Hmc).
  destruct Hwf as (Hgw & _).
  apply GraphSAGE_forward_hidden_ok in Hmc as (emb' & _ & Hrows & Hlen & _); [|assumption].
  unfold bst_predict, bind, record, lift, Booster_predict in Hbp.
  destruct (Nat.eqb _ _); [|discriminate]. injection Hbp as <- _.
  unfold shape, column; simpl. rewrite !length_map, Hrows, length_zip_with, Hlen.
  now rewrite Nat.min_id.
Qed.

End Prediction.

Lemma PREDICTION_has_one_column_witness :
  exists resp w' x scores attributions,
    execute_request Demo.bernoulli Demo.randperm (Demo.two_nodes true) (Demo.world 3)
      = (Ok resp, w') /\
    NODE_FEATURES (Demo.two_nodes true) = Some x /\
    output_tensors resp =
      [ mkPbTensor "PREDICTION" np_float32 (column scores);
        mkPbTensor "SHAP_VALUES" np_float32 attributions ] /\
    shape (column scores) = (2%nat, 1%nat).
Proof.
  assert (Hrun : exists resp w',
             execute_request Demo.bernoulli Demo.randperm (Demo.two_nodes true) (Demo.world 3)
             = (Ok resp, w')) by (eexists _, _; vm_compute; reflexivity).
  destruct Hrun as (resp & w' & Hrun).
  destruct (PREDICTION_has_one_column Demo.bernoulli Demo.randperm (Demo.two_nodes true)
              (Demo.world 3) resp w' (Demo_self_wf 3) Hrun)
    as (x & scores & attributions & Hx & Hout & Hshape).
  exists resp, w', x, scores, attributions. repeat split; auto.
  simpl in Hx. injection Hx as <-. exact Hshape.
Defined.

(** ** Malformed requests *)

Section Requests.

Context {RngState : Type}
  (bernoulli : RngState -> Q -> bool * RngState)
  (randperm : RngState -> list Z -> list Z * RngState).

Implicit Types (w : World RngState) (req : InferenceRequest).

Lemma bind_ext {A B} (m : Py RngState A) (k1 k2 : A -> Py RngState B) w :
  (forall v w', k1 v w' = k2 v w') -> bind m k1 w = bind m k2 w.
Proof.
  intros H. unfold bind. destruct (m w) as [[v|err] w']; [apply H | reflexivity].
Qed.

(** X4. A request that lacks one of the four input tensors raises the
    AttributeError of [None.as_numpy()] before anything is computed: no
    library call is made and the world is as it was, whatever the other
    inputs hold. *)
Theorem missing_input_raises_before_any_call req w :
  NODE_FEATURES req = None \/ EDGE_INDEX req = None \/
  COMPUTE_SHAP req = None \/ FEATURE_MASK req = None ->
  execute_request bernoulli randperm req w
  = (Raise (AttributeError "'NoneType' object has no attribute 'as_numpy'"), w).
Proof.
  intros H. unfold execute_request. rewrite bind_get_self.
  destruct (NODE_FEATURES req) as [x|]; [|reflexivity]. simpl. rewrite bind_ret.
  destruct (EDGE_INDEX req) as [e|]; [|reflexivity]. simpl. rewrite bind_ret.
  destruct (COMPUTE_SHAP req) as [flags|]; [|reflexivity]. simpl. rewrite bind_ret.
  destruct (FEATURE_MASK req) as [mk|]; [|reflexivity].
  destruct H as [H|[H|[H|H]]]; discriminate.
Qed.

(** X5. COMPUTE_SHAP is read only after the scoring pass: a request whose
    COMPUTE_SHAP array is empty is never answered, and when its embedding and
    scoring succeed the error is the IndexError of [compute_shap_numpy[0]],
    raised after both library calls were made. *)
Theorem empty_COMPUTE_SHAP_raises_after_scoring req w :
  COMPUTE_SHAP req = Some [] ->
  (exists err, fst (execute_request bernoulli randperm req w) = Raise err) /\
  (forall x e mk emb w1 scores w2,
      NODE_FEATURES req = Some x -> EDGE_INDEX req = Some e -> FEATURE_MASK req = Some mk ->
      model_call bernoulli (model (py_self w)) x e true w = (Ok emb, w1) ->
      bst_predict (bst (py_self w)) emb w1 = (Ok scores, w2) ->
      execute_request bernoulli randperm req w
      = (Raise (IndexError "index 0 is out of bounds for axis 0 with size 0"), w2) /\
      calls w2 = calls w ++ [CallModel x e true; CallPredict emb]).
Proof.
  intros Hflag. split.
  - destruct (execute_request bernoulli randperm req w) as [[resp|err] w'] eqn:E;
      [|simpl; eauto].
    apply execute_request_ok_inv in E.
    destruct E as (x & e & flag & rest & mk & emb & scores & attr & w1 & w2 &
                   _ & _ & Hf & _).
    rewrite Hflag in Hf. discriminate.
  - intros x e mk emb w1 scores w2 Hx He Hm Hmc Hbp. split.
    + unfold execute_request. rewrite bind_get_self, Hx, He, Hm, Hflag. simpl.
      rewrite !bind_ret. erewrite bind_ok by eassumption.
      erewrite bind_ok by eassumption. reflexivity.
    + pose proof (model_call_calls bernoulli (model (py_self w)) x e true w) as C1.
      rewrite Hmc in C1. simpl in C1.
      pose proof (bst_predict_calls (bst (py_self w)) emb w1) as C2.
      rewrite Hbp in C2. simpl in C2. rewrite C2, C1, <- app_assoc. reflexivity.
Qed.

(** X6. When the first COMPUTE_SHAP flag is false, the values of FEATURE_MASK
    and of the further flags are not read: any other mask and any other
    further flags give the same result and the same world. (The mask must
    still be present, see X4.) *)
Theorem skipped_request_ignores_mask req w mk rest :
  FEATURE_MASK req = Some mk -> COMPUTE_SHAP req = Some (false :: rest) ->
  forall mk' rest',
    execute_request bernoulli randperm
      (mkInferenceRequest (NODE_FEATURES req) (EDGE_INDEX req) (Some (false :: rest'))
         (Some mk')) w
    = execute_request bernoulli randperm req w.
Proof.
  intros Hm Hf mk' rest'. unfold execute_request. simpl. rewrite Hm, Hf.
  rewrite !bind_get_self.
  destruct (NODE_FEATURES req) as [x|]; [|reflexivity]. simpl. rewrite !bind_ret.
  destruct (EDGE_INDEX req) as [e|]; [|reflexivity]. simpl. rewrite !bind_ret.
  apply bind_ext. intros emb w1. apply bind_ext. intros scores w2. reflexivity.
Qed.

End Requests.

Lemma missing_input_raises_before_any_call_witness :
  execute_request Demo.bernoulli Demo.randperm
    (mkInferenceRequest (Some Demo.features) (Some Demo.self_loop) (Some [true]) None)
    (Demo.world 3)
  = (Raise (AttributeError "'NoneType' object has no attribute 'as_numpy'"), Demo.world 3).
Proof.
  apply (missing_input_raises_before_any_call Demo.bernoulli Demo.randperm).
  simpl. auto.
Defined.

Lemma empty_COMPUTE_SHAP_raises_after_scoring_witness :
  exists w2,
    execute_request Demo.bernoulli Demo.randperm
      (mkInferenceRequest (Some Demo.features) (Some Demo.self_loop) (Some []) (Some [0; 1]))
      (Demo.world 3)
    = (Raise (IndexError "index 0 is out of bounds for axis 0 with size 0"), w2) /\
    length (calls w2) = 2%nat.
Proof.
  destruct (empty_COMPUTE_SHAP_raises_after_scoring Demo.bernoulli Demo.randperm
              (mkInferenceRequest (Some Demo.features) (Some Demo.self_loop) (Some [])
                 (Some [0; 1])) (Demo.world 3) eq_refl) as [_ H].
  edestruct (H Demo.features Demo.self_loop [0; 1]) as [Hrun Hcalls];
    [reflexivity | reflexivity | reflexivity | vm_compute; reflexivity
    | vm_compute; reflexivity |].
  eexists. split; [exact Hrun|]. rewrite Hcalls. reflexivity.
Defined.

Lemma skipped_request_ignores_mask_witness :
  execute_request Demo.bernoulli Demo.randperm
    (mkInferenceRequest (Some Demo.features) (Some Demo.self_loop) (Some [false; true])
       (Some [5; 5; 5])) (Demo.world 3)
  = execute_request Demo.bernoulli Demo.randperm (Demo.one_node false [0; 1]) (Demo.world 3).
Proof.
  exact (skipped_request_ignores_mask Demo.bernoulli Demo.randperm
           (Demo.one_node false [0; 1]) (Demo.world 3) [0; 1] [] eq_refl eq_refl
           [5; 5; 5] [true]).
Defined.

(** ** The embedder's output layer and the sign of the embedding *)

Lemma GraphSAGE_init_head in_ch hidden_ch out_ch layers m :
  GraphSAGE_init in_ch hidden_ch out_ch layers = Ok m ->
  head_wf m /\ m_out_channels m = out_ch /\ 0 <= out_ch.
Proof.
  unfold GraphSAGE_init. intros H. try_inv H. injection H as <-.
  apply SAGEConv_init_ok in E as (Hin & Hhid & _).
  apply Linear_init_ok in E1 as (Hsum & Hout & Hi & Ho & Hwf).
  unfold head_wf; simpl. split; [split; [assumption|]|split; [reflexivity|lia]].
  split; [rewrite Hi; lia | assumption].
Qed.

Lemma load_state_dict_head m sd m' :
  load_state_dict m sd = Ok m' -> head_wf m ->
  head_wf m' /\ m_out_channels m' = m_out_channels m.
Proof.
  unfold load_state_dict. intros H (Hwf & Hi & Ho). try_inv H. injection H as <-.
  apply load_linear_ok in E0 as (Hi' & Ho' & Hwf').
  unfold head_wf; simpl. split; [split; [assumption|]|reflexivity].
  split; congruence.
Qed.

Lemma initialize_head model_config files self :
  initialize model_config files = Ok self ->
  head_wf (model self) /\ m_out_channels (model self) = out_channels self /\
  0 <= out_channels self.
Proof.
  unfold initialize. intros H. try_inv H. injection H as <-.
  apply GraphSAGE_init_head in E22 as (Hh & Ho & Hpos).
  eapply load_state_dict_head in E24 as (Hh' & Ho'); [|eassumption].
  destruct Hh' as (Hfc & Hfi & Hfo).
  simpl. unfold head_wf, eval_mode; simpl.
  split; [split; [assumption|]|split; [congruence|lia]].
  split; congruence.
Qed.

Lemma relu_q_nonnegative v : (0 <= relu_q v)%Q.
Proof.
  unfold relu_q. destruct (Qle_bool 0 v) eqn:E; [now apply Qle_bool_iff | apply Qle_refl].
Qed.

Lemma relu_nonnegative t : nonnegative (relu t).
Proof.
  unfold nonnegative, relu; simpl.
  apply List.Forall_forall. intros row Hin. apply in_map_iff in Hin as (r & <- & _).
  apply List.Forall_forall. intros v Hv. apply in_map_iff in Hv as (u & <- & _).
  apply relu_q_nonnegative.
Qed.

Section Head.

Context {RngState : Type} (bernoulli : RngState -> Q -> bool * RngState).

Lemma dropout_entry_nonnegative p v w r w' :
  Qle_bool 0 p && Qle_bool p 1 = true ->
  dropout_entry bernoulli p v w = (Ok r, w') -> (0 <= v)%Q -> (0 <= r)%Q.
Proof.
  intros Hp H Hv. apply andb_true_iff in Hp as [_ Hp1]. apply Qle_bool_iff in Hp1.
  unfold dropout_entry in H. apply bind_ok_inv in H as (keep & w1 & _ & H).
  injection H as <- _. destruct keep; [|apply Qle_refl].
  unfold Qdiv. apply Qmult_le_0_compat; [assumption|].
  apply Qinv_le_0_compat. unfold Qminus. now apply -> Qle_minus_iff.
Qed.

Lemma dropout_nonnegative input p train w out w' :
  dropout bernoulli input p train w = (Ok out, w') ->
  nonnegative input -> nonnegative out.
Proof.
  unfold dropout. destruct (Qle_bool 0 p && Qle_bool p 1) eqn:Hp; [|discriminate].
  destruct train; [|now intros [= <- _]].
  intros H Hin. apply bind_ok_inv in H as (rows & w1 & Hrows & H).
  injection H as <- _. unfold nonnegative in *; simpl.
  apply (mapM_ok_Forall2
           (fun a b : list Q => Forall (fun v => (0 <= v)%Q) a ->
                                Forall (fun v => (0 <= v)%Q) b)) in Hrows.
  - induction Hrows as [|a b l l' Hab _ IH]; [constructor|].
    inversion Hin; subst. constructor; auto.
  - intros a w0 b w0' Hab.
    apply (mapM_ok_Forall2 (fun u v : Q => (0 <= u)%Q -> (0 <= v)%Q)) in Hab.
    + intros Ha. induction Hab as [|u v l l' Huv _ IH]; [constructor|].
      inversion Ha; subst. constructor; auto.
    + intros u w2 v w2' Huv. now apply (dropout_entry_nonnegative p u w2 v w2').
Qed.

Lemma conv_loop_nonnegative m cs : forall emb e w out w',
  cs <> [] ->
  conv_loop bernoulli m cs emb e w = (Ok out, w') -> nonnegative out.
Proof.
  induction cs as [|c cs IH]; intros emb e w out w' Hne H; [congruence|].
  simpl in H. apply bind_ok_inv in H as (e1 & w1 & _ & H).
  apply bind_ok_inv in H as (e3 & w3 & H3 & H).
  apply dropout_nonnegative in H3; [|apply relu_nonnegative].
  destruct cs as [|c' cs'].
  - simpl in H. now injection H as <- _.
  - eapply IH; [discriminate | eassumption].
Qed.

(** X7. The part of the embedding that the layers add is never negative:
    every result of [forward] with [return_hidden] true is, row by row, the
    input features followed by values that went through [relu] and then
    dropout, so each of them is at least zero, in training mode as in
    inference mode. The module has at least one layer, as [__init__] builds
    it. *)
Theorem hidden_part_is_nonnegative (m : GraphSAGE) x e w out w' :
  convs m <> [] ->
  GraphSAGE_forward bernoulli m x e true w = (Ok out, w') ->
  exists emb,
    t_rows out = zip_with (@app Q) (t_rows x) (t_rows emb) /\
    length (t_rows emb) = length (t_rows x) /\
    nonnegative emb.
Proof.
  intros Hne H. unfold GraphSAGE_forward in H.
  apply bind_ok_inv in H as (emb & w1 & Hemb & H).
  apply bind_ok_inv in H as (c & w2 & Hc & H).
  injection H as <- _. unfold lift in Hc. injection Hc as Hc _.
  unfold cat_dim1 in Hc.
  destruct (Nat.eqb_spec (length (t_rows x)) (length (t_rows emb))) as [Hlen|];
    [|discriminate].
  injection Hc as <-. exists emb. simpl. split; [reflexivity|]. split; [congruence|].
  eapply conv_loop_nonnegative; eassumption.
Qed.

(** X8. The output layer fits the embedding: for the module that
    [initialize] leaves in [self] when [in_channels] and [hidden_channels]
    are positive (every layer then has its size from the configuration),
    whenever [forward] returns the hidden embedding it also returns with
    [return_hidden] false, the result is [fc] applied to that embedding, and
    it has one row per node and [out_channels] columns. *)
Theorem output_layer_accepts_embedding model_config files self x e w hidden w' :
  initialize model_config files = Ok self ->
  0 < in_channels self -> 0 < hidden_channels self ->
  GraphSAGE_forward bernoulli (model self) x e true w = (Ok hidden, w') ->
  exists out,
    GraphSAGE_forward bernoulli (model self) x e false w = (Ok out, w') /\
    Linear_forward (fc (model self)) hidden = Ok out /\
    shape out = (length (t_rows x), Z.to_nat (out_channels self)) /\
    well_shaped out.
Proof.
  intros Hinit _ _ H.
  pose proof (initialize_wf _ _ _ Hinit) as (Hwf & _).
  pose proof (initialize_head _ _ _ Hinit) as ((Hfc & Hfi & Hfo) & Hout & _).
  pose proof H as Hshape.
  apply GraphSAGE_forward_hidden_ok in Hshape; [|assumption].
  destruct Hshape as (emb & _ & Hrows & Hlen & _ & _ & Hcols & _).
  destruct (Linear_forward_total (fc (model self)) hidden) as [out Hlin]; [congruence|].
  exists out. unfold GraphSAGE_forward in *.
  apply bind_ok_inv in H as (emb' & w1 & Hemb & H).
  apply bind_ok_inv in H as (c & w2 & Hc & H). injection H as -> ->.
  split.
  - erewrite bind_ok by eassumption. erewrite bind_ok by eassumption.
    unfold lift. now rewrite Hlin.
  - split; [assumption|].
    apply Linear_forward_ok in Hlin as (_ & Hoc & Hor & Hws).
    split; [|auto]. unfold shape. rewrite Hor, Hoc, Hfo, Hout, Hrows, length_zip_with, Hlen.
    now rewrite Nat.min_id.
Qed.

End Head.

Lemma hidden_part_is_nonnegative_witness :
  exists out w' emb,
    GraphSAGE_forward Demo.bernoulli (model (Demo.training_world 0).(py_self))
      Demo.features Demo.self_loop true (Demo.training_world 0) = (Ok out, w') /\
    t_rows out = zip_with (@app Q) (t_rows Demo.features) (t_rows emb) /\
    nonnegative emb.
Proof.
  assert (Hrun : exists out w',
             GraphSAGE_forward Demo.bernoulli (model (Demo.training_world 0).(py_self))
               Demo.features Demo.self_loop true (Demo.training_world 0) = (Ok out, w'))
    by (eexists _, _; vm_compute; reflexivity).
  destruct Hrun as (out & w' & Hrun).
  assert (Hne : convs (model (py_self (Demo.training_world 0))) <> []) by discriminate.
  destruct (hidden_part_is_nonnegative Demo.bernoulli _ _ _ _ out w' Hne Hrun)
    as (emb & Hrows & _ & Hnn).
  exists out, w', emb. auto.
Defined.

Lemma output_layer_accepts_embedding_witness :
  exists hidden out w',
    GraphSAGE_forward Demo.bernoulli (model (Demo.self 3)) Demo.features Demo.self_loop
      true (Demo.world 3) = (Ok hidden, w') /\
    GraphSAGE_forward Demo.bernoulli (model (Demo.self 3)) Demo.features Demo.self_loop
      false (Demo.world 3) = (Ok out, w') /\
    shape out = (1%nat, 1%nat).
Proof.
  assert (Hrun : exists hidden w',
             GraphSAGE_forward Demo.bernoulli (model (Demo.self 3)) Demo.features
               Demo.self_loop true (Demo.world 3) = (Ok hidden, w'))
    by (eexists _, _; vm_compute; reflexivity).
  destruct Hrun as (hidden & w' & Hrun).
  destruct (output_layer_accepts_embedding Demo.bernoulli _ _ _ _ _ _ hidden w'
              (Demo_initialize 3) eq_refl eq_refl Hrun) as (out & Hout & _ & Hshape & _).
  exists hidden, out, w'. auto.
Defined.

(** ** What [initialize] reads, and in which order *)

Lemma data_type_of_ok_inv config s :
  data_type_of config = Ok s -> exists c, config = Some c /\ io_data_type c = s.
Proof. destruct config as [c|]; simpl; [intros [= <-]; eauto | discriminate]. Qed.

Lemma torch_load_ok_inv files name sd :
  torch_load files name = Ok sd -> files !! name = Some (StateDictFile sd).
Proof.
  unfold torch_load. destruct (files !! name) as [[sd'|b|c]|]; try discriminate.
  now intros [= ->].
Qed.

Lemma load_model_ok_inv files name b :
  load_model files name = Ok b -> files !! name = Some (XGBModelFile b).
Proof.
  unfold load_model. destruct (files !! name) as [[sd|b'|c]|]; try discriminate.
  now intros [= ->].
Qed.

Lemma load_linear_params l w b l' :
  load_linear l w b = Ok l' -> lin_weight l' = w /\ lin_bias l' = b.
Proof.
  unfold load_linear. destruct (_ && _); [|discriminate]. now intros [= <-].
Qed.

Lemma load_convs_params cs : forall ps cs',
  load_convs cs ps = Ok cs' -> map conv_state cs' = ps /\ length cs = length ps.
Proof.
  induction cs as [|c cs IH]; intros ps cs' H; destruct ps as [|p ps];
    simpl in H; try discriminate.
  - injection H as <-. auto.
  - try_inv H. injection H as <-.
    apply load_linear_params in E as [Hlw Hlb].
    apply load_linear_params in E0 as [Hrw _].
    apply IH in E1 as [Hmap Hlen]. simpl. split; [|congruence].
    unfold conv_state at 1; simpl. rewrite Hlw, Hlb, Hrw, Hmap. simpl. now destruct p.
Qed.

Lemma load_state_dict_params m sd m' :
  load_state_dict m sd = Ok m' ->
  state_dict_of m' = sd /\ length (convs m) = length (sd_convs sd).
Proof.
  unfold load_state_dict. intros H. try_inv H. injection H as <-.
  apply load_convs_params in E as [Hmap Hlen].
  apply load_linear_params in E0 as [Hw Hb].
  split; [|assumption]. unfold state_dict_of; simpl. rewrite Hmap, Hw, Hb. simpl.
  now destruct sd.
Qed.

Lemma rbind_before_files {A B} (r : result A) (k1 k2 : A -> result B) err :
  (forall a, k1 a = Raise err -> k2 a = Raise err) ->
  rbind r k1 = Raise err -> rbind r k2 = Raise err.
Proof. destruct r as [a|e]; simpl; auto. Qed.

Lemma rbind_raise_inv {A B} (r : result A) (k : A -> result B) err :
  rbind r k = Raise err -> r = Raise err \/ exists a, r = Ok a /\ k a = Raise err.
Proof. destruct r as [a|e]; simpl; [eauto | intros [= ->]; auto]. Qed.

Lemma data_type_of_raise_inv config err :
  data_type_of config = Raise err -> configuration_error err.
Proof. destruct config; simpl; [discriminate | now intros [= <-]]. Qed.

Lemma triton_string_to_numpy_raise_inv s err :
  triton_string_to_numpy s = Raise err -> configuration_error err.
Proof.
  unfold triton_string_to_numpy. destruct (List.find _ _); [discriminate|].
  now intros [= <-].
Qed.

(** The layers are refused for one reason only, a negative size. *)
Lemma Linear_init_raise_inv cin cout wb err :
  Linear_init cin cout wb = Raise err ->
  err = RuntimeError "Trying to create tensor with negative dimension".
Proof. unfold Linear_init. destruct (_ || _); [now intros [= <-] | discriminate]. Qed.

Lemma SAGEConv_init_raise_inv cin cout err :
  SAGEConv_init cin cout = Raise err ->
  err = RuntimeError "Trying to create tensor with negative dimension".
Proof.
  unfold SAGEConv_init. intros H.
  apply rbind_raise_inv in H as [H|(l & _ & H)]; [now apply Linear_init_raise_inv in H|].
  apply rbind_raise_inv in H as [H|(r & _ & H)]; [now apply Linear_init_raise_inv in H|].
  discriminate.
Qed.

Lemma append_convs_raise_inv n hidden : forall cs err,
  append_convs n hidden cs = Raise err ->
  err = RuntimeError "Trying to create tensor with negative dimension".
Proof.
  induction n as [|n IH]; intros cs err H; simpl in H; [discriminate|].
  apply rbind_raise_inv in H as [H|(c & _ & H)]; [now apply SAGEConv_init_raise_inv in H|].
  now apply IH in H.
Qed.

Lemma GraphSAGE_init_raise_inv in_ch hidden_ch out_ch layers err :
  GraphSAGE_init in_ch hidden_ch out_ch layers = Raise err ->
  err = RuntimeError "Trying to create tensor with negative dimension".
Proof.
  unfold GraphSAGE_init. intros H.
  apply rbind_raise_inv in H as [H|(c & _ & H)]; [now apply SAGEConv_init_raise_inv in H|].
  apply rbind_raise_inv in H as [H|(cs & _ & H)]; [now apply append_convs_raise_inv in H|].
  apply rbind_raise_inv in H as [H|(l & _ & H)]; [now apply Linear_init_raise_inv in H|].
  discriminate.
Qed.

(** One step of [initialize] with no file present: either the step raises,
    and the exception is one of the configuration or of the construction, or
    it returns. *)
Ltac no_files_step :=
  match goal with
  | |- context [rbind ?r _] =>
      lazymatch r with
      | torch_load _ _ => fail
      | _ =>
          let E := fresh "E" in
          destruct r eqn:E; simpl rbind;
          [ | left; eexists; split; [reflexivity|];
              first [ apply getitem_raise_inv in E as [_ ->]; left; exact I
                    | apply py_int_raise_inv in E as ->; left; exact I
                    | apply data_type_of_raise_inv in E; left; exact E
                    | apply triton_string_to_numpy_raise_inv in E; left; exact E
                    | apply GraphSAGE_init_raise_inv in E as ->; right; reflexivity ] ]
      end
  end.

(** With no file present, [initialize] either raises an exception of the
    configuration or of the construction of the embedder, or it has read the
    six parameters and the three element types, has constructed the embedder
    and raises the FileNotFoundError of the weights file. *)
Lemma initialize_no_files model_config :
  (exists err, initialize model_config ∅ = Raise err /\
     (configuration_error err \/
      err = RuntimeError "Trying to create tensor with negative dimension")) \/
  (exists name in_ch hid out layers xgb,
     initialize model_config ∅ = Raise (FileNotFoundError name) /\
     (exists s, config_entry model_config "in_channels" = Some s /\ py_int s = Ok in_ch) /\
     (exists s, config_entry model_config "hidden_channels" = Some s /\ py_int s = Ok hid) /\
     (exists s, config_entry model_config "out_channels" = Some s /\ py_int s = Ok out) /\
     (exists s, config_entry model_config "n_layers" = Some s /\ py_int s = Ok layers) /\
     config_entry model_config "embedding_generator_model_state_dict" = Some name /\
     config_entry model_config "embeddings_based_xgboost_model" = Some xgb /\
     (exists c d, get_config_by_name (cfg_input model_config) "FEATURE_MASK" = Some c /\
                  triton_string_to_numpy (io_data_type c) = Ok d) /\
     (exists c d, get_config_by_name (cfg_output model_config) "PREDICTION" = Some c /\
                  triton_string_to_numpy (io_data_type c) = Ok d) /\
     (exists c d, get_config_by_name (cfg_output model_config) "SHAP_VALUES" = Some c /\
                  triton_string_to_numpy (io_data_type c) = Ok d) /\
     0 <= out /\ 0 <= hid + in_ch).
Proof.
  unfold initialize, config_entry.
  destruct (cfg_parameters model_config) as [parameters|]; simpl rbind;
    [|left; eexists; split; [reflexivity | left; exact I]].
  cbv zeta. do 23 no_files_step.
  right.
  repeat match goal with
         | E : getitem _ _ = Ok _ |- _ => apply getitem_ok_inv in E; try rewrite E
         | E : data_type_of _ = Ok _ |- _ =>
             apply data_type_of_ok_inv in E as (? & ? & <-)
         end.
  match goal with
  | E : GraphSAGE_init ?i ?h ?o ?l = Ok ?m |- context [torch_load ∅ ?n] =>
      pose proof (GraphSAGE_init_ok _ _ _ _ _ E) as ((Hi & Hh & _) & Hmi & Hmh & _);
      pose proof (GraphSAGE_init_head _ _ _ _ _ E) as (_ & _ & Ho);
      rewrite Hmi in Hi; rewrite Hmh in Hh;
      exists n, i, h, o, l
  end.
  eexists. unfold torch_load. rewrite lookup_empty. simpl.
  split; [reflexivity|].
  repeat (split; [solve [eauto] |]). lia.
Qed.

(** X9. The configuration is read before any file is opened, and the
    weights file is opened before the ensemble's. With no file present,
    [initialize] raises FileNotFoundError only after it has read the six
    parameters and the three element types and has constructed the output
    layer (its sizes are not negative); every other failure with no file
    present happens whatever files there are, with the same exception; and
    the ensemble's loader is not reached. *)
Theorem configuration_is_checked_before_files model_config :
  (forall err, initialize model_config ∅ = Raise err ->
     (forall name, err <> FileNotFoundError name) ->
     forall files, initialize model_config files = Raise err) /\
  (forall name, initialize model_config ∅ = Raise (FileNotFoundError name) ->
     exists in_ch hid out layers xgb,
       (exists s, config_entry model_config "in_channels" = Some s /\
                  py_int s = Ok in_ch) /\
       (exists s, config_entry model_config "hidden_channels" = Some s /\
                  py_int s = Ok hid) /\
       (exists s, config_entry model_config "out_channels" = Some s /\
                  py_int s = Ok out) /\
       (exists s, config_entry model_config "n_layers" = Some s /\
                  py_int s = Ok layers) /\
       config_entry model_config "embedding_generator_model_state_dict" = Some name /\
       config_entry model_config "embeddings_based_xgboost_model" = Some xgb /\
       (exists c d, get_config_by_name (cfg_input model_config) "FEATURE_MASK" = Some c /\
                    triton_string_to_numpy (io_data_type c) = Ok d) /\
       (exists c d, get_config_by_name (cfg_output model_config) "PREDICTION" = Some c /\
                    triton_string_to_numpy (io_data_type c) = Ok d) /\
       (exists c d, get_config_by_name (cfg_output model_config) "SHAP_VALUES" = Some c /\
                    triton_string_to_numpy (io_data_type c) = Ok d) /\
       0 <= out /\ 0 <= hid + in_ch) /\
  (forall msg, initialize model_config ∅ <> Raise (XGBoostError msg)) /\
  (forall self, initialize model_config ∅ <> Ok self).
Proof.
  split; [|split; [|split]].
  - intros err H Hne files. revert H. unfold initialize. cbv zeta.
    do 24 (apply rbind_before_files; intros ?).
    unfold torch_load at 1. rewrite lookup_empty. simpl.
    intros [= <-]. exfalso. exact (Hne _ eq_refl).
  - intros name H.
    destruct (initialize_no_files model_config)
      as [(err & He & Herr)|(name' & in_ch & hid & out & layers & xgb & He & Hrest)].
    + rewrite He in H. injection H as ->. destruct Herr as [[]|]; discriminate.
    + rewrite He in H. injection H as ->. exists in_ch, hid, out, layers, xgb. exact Hrest.
  - intros msg H.
    destruct (initialize_no_files model_config)
      as [(err & He & Herr)|(name' & in_ch & hid & out & layers & xgb & He & _)].
    + rewrite He in H. injection H as ->. destruct Herr as [[]|]; discriminate.
    + rewrite He in H. discriminate.
  - intros self H.
    destruct (initialize_no_files model_config)
      as [(err & He & _)|(name' & in_ch & hid & out & layers & xgb & He & _)];
      rewrite He in H; discriminate.
Qed.

(** X10. The element types of [self] are those the configuration declares:
    [initialize] returns only if FEATURE_MASK is a declared input and
    PREDICTION and SHAP_VALUES are declared outputs, each with a type name
    that [triton_string_to_numpy] knows, and the three types stored in [self]
    are the translations of those names. *)
Theorem initialize_resolves_element_types model_config files self :
  initialize model_config files = Ok self ->
  (exists c, get_config_by_name (cfg_input model_config) "FEATURE_MASK" = Some c /\
             triton_string_to_numpy (io_data_type c) = Ok (feature_mask_dtype self)) /\
  (exists c, get_config_by_name (cfg_output model_config) "PREDICTION" = Some c /\
             triton_string_to_numpy (io_data_type c) = Ok (prediction_dtype self)) /\
  (exists c, get_config_by_name (cfg_output model_config) "SHAP_VALUES" = Some c /\
             triton_string_to_numpy (io_data_type c) = Ok (shap_dtype self)).
Proof.
  unfold initialize. intros H. try_inv H. injection H as <-. simpl.
  repeat match goal with
         | E : data_type_of _ = Ok _ |- _ =>
             apply data_type_of_ok_inv in E as (? & ? & <-)
         end.
  repeat split; eauto.
Qed.

(** X11. Loading is strict and exact: whenever [initialize] returns, the two
    configured file names hold a saved state dict and a saved ensemble, the
    parameters of the embedder in [self] are those of the state dict (weights
    and biases of every layer and of [fc]), the ensemble of [self] is the one
    of the file, and the state dict has exactly [max 1 n_layers] layers. *)
Theorem initialize_loads_the_files model_config files self :
  initialize model_config files = Ok self ->
  exists sd,
    files !! embedder_state_dict_filename self = Some (StateDictFile sd) /\
    files !! xgb_model_filename self = Some (XGBModelFile (bst self)) /\
    state_dict_of (model self) = sd /\
    length (sd_convs sd) = Z.to_nat (Z.max 1 (n_layers self)).
Proof.
  unfold initialize. intros H. try_inv H. injection H as <-. simpl.
  match goal with E : torch_load _ _ = Ok ?sd |- _ =>
    exists sd; apply torch_load_ok_inv in E; split; [exact E|] end.
  match goal with E : load_model _ _ = Ok _ |- _ =>
    apply load_model_ok_inv in E; split; [exact E|] end.
  match goal with E : load_state_dict _ _ = Ok _ |- _ =>
    apply load_state_dict_params in E as [Hsd Hlen] end.
  split; [exact Hsd|]. rewrite <- Hlen.
  match goal with E : GraphSAGE_init _ _ _ _ = Ok _ |- _ =>
    unfold GraphSAGE_init in E; try_inv E; injection E as <- end.
  simpl.
  match goal with E : append_convs _ _ _ = Ok _ |- _ =>
    apply append_convs_length in E; simpl in E; lia end.
Qed.

Lemma configuration_is_checked_before_files_witness :
  initialize
    (Demo.model_config (delete "embeddings_based_xgboost_model"%string Demo.parameters))
    (Demo.files 3)
  = Raise (KeyError "embeddings_based_xgboost_model") /\
  exists in_ch hid out layers xgb,
    (exists s, config_entry (Demo.model_config Demo.parameters) "in_channels" = Some s /\
               py_int s = Ok in_ch) /\
    (exists s, config_entry (Demo.model_config Demo.parameters) "hidden_channels" = Some s /\
               py_int s = Ok hid) /\
    (exists s, config_entry (Demo.model_config Demo.parameters) "out_channels" = Some s /\
               py_int s = Ok out) /\
    (exists s, config_entry (Demo.model_config Demo.parameters) "n_layers" = Some s /\
               py_int s = Ok layers) /\
    config_entry (Demo.model_config Demo.parameters) "embedding_generator_model_state_dict"
    = Some "state_dict_gnn_model.pth"%string /\
    config_entry (Demo.model_config Demo.parameters) "embeddings_based_xgboost_model"
    = Some xgb.
Proof.
  split.
  - apply (proj1 (configuration_is_checked_before_files
                    (Demo.model_config
                       (delete "embeddings_based_xgboost_model"%string Demo.parameters)))).
    + vm_compute. reflexivity.
    + intros name. discriminate.
  - destruct (proj1 (proj2 (configuration_is_checked_before_files
                              (Demo.model_config Demo.parameters)))
                "state_dict_gnn_model.pth"%string)
      as (in_ch & hid & out & layers & xgb & H1 & H2 & H3 & H4 & H5 & H6 & _).
    + vm_compute. reflexivity.
    + exists in_ch, hid, out, layers, xgb. auto 10.
Defined.

Lemma initialize_resolves_element_types_witness :
  (exists c, get_config_by_name (cfg_input (Demo.model_config Demo.parameters))
               "FEATURE_MASK" = Some c /\
             triton_string_to_numpy (io_data_type c) = Ok np_int32) /\
  (exists c, get_config_by_name (cfg_output (Demo.model_config Demo.parameters))
               "PREDICTION" = Some c /\
             triton_string_to_numpy (io_data_type c) = Ok np_float32) /\
  (exists c, get_config_by_name (cfg_output (Demo.model_config Demo.parameters))
               "SHAP_VALUES" = Some c /\
             triton_string_to_numpy (io_data_type c) = Ok np_float32).
Proof.
  exact (initialize_resolves_element_types (Demo.model_config Demo.parameters)
           (Demo.files 3) (Demo.self 3) (Demo_initialize 3)).
Defined.

Lemma initialize_loads_the_files_witness :
  exists sd,
    Demo.files 3 !! "state_dict_gnn_model.pth"%string = Some (StateDictFile sd) /\
    Demo.files 3 !! "embedding_based_xgboost.json"%string
    = Some (XGBModelFile (Demo.booster 3)) /\
    state_dict_of Demo.graphsage = sd /\
    length (sd_convs sd) = 1%nat.
Proof.
  exact (initialize_loads_the_files (Demo.model_config Demo.parameters) (Demo.files 3)
           (Demo.self 3) (Demo_initialize 3)).
Defined.

(** ** The batch, request by request *)

Section Batch.

Context {RngState : Type}
  (bernoulli : RngState -> Q -> bool * RngState)
  (randperm : RngState -> list Z -> list Z * RngState).

Implicit Types (w : World RngState) (req : InferenceRequest).

Lemma execute_request_scored req w resp w' :
  training (model (py_self w)) = false ->
  execute_request bernoulli randperm req w = (Ok resp, w') ->
  forall w0, py_self w0 = py_self w -> scored_by bernoulli w0 req resp.
Proof.
  intros Ht H w0 Hw0. apply execute_request_ok_inv in H.
  destruct H as (x & e & flag & rest & mk & emb & scores & attr & w1 & w2 &
                 Hx & He & _ & _ & Hmc & Hbp & -> & _).
  exists x, e, scores. split; [assumption|]. split; [assumption|].
  split; [|rewrite Hw0; reflexivity].
  assert (Hrun : forward_function bernoulli e x w = (Ok scores, w2)).
  { unfold forward_function. rewrite bind_get_self.
    erewrite bind_ok by eassumption. exact Hbp. }
  destruct (forward_function_eval bernoulli (py_self w) e x Ht) as [r Hr].
  destruct (Hr w eq_refl) as [H1 _]. destruct (Hr w0 Hw0) as [H2 _].
  rewrite Hrun in H1. simpl in H1. congruence.
Qed.

Lemma execute_loop_scored reqs : forall acc w rs w',
  training (model (py_self w)) = false ->
  execute_loop bernoulli randperm reqs acc w = (Ok rs, w') ->
  forall w0, py_self w0 = py_self w ->
  exists new, rs = acc ++ new /\ Forall2 (scored_by bernoulli w0) reqs new.
Proof.
  induction reqs as [|req reqs IH]; intros acc w rs w' Ht H w0 Hw0; simpl in H.
  - injection H as <- _. exists []. rewrite app_nil_r. split; [reflexivity | constructor].
  - apply bind_ok_inv in H as (resp & w1 & Hreq & H).
    pose proof (execute_request_same_self bernoulli randperm req w) as Hself.
    rewrite Hreq in Hself. unfold same_self in Hself. simpl in Hself.
    assert (Ht1 : training (model (py_self w1)) = false) by congruence.
    assert (Hw1 : py_self w0 = py_self w1) by congruence.
    destruct (IH _ _ _ _ Ht1 H w0 Hw1) as (new & -> & Hnew).
    exists (resp :: new). rewrite <- app_assoc. split; [reflexivity|].
    constructor; [|assumption].
    exact (execute_request_scored req w resp w1 Ht Hreq w0 Hw0).
Qed.

(** X12. In inference mode the responses answer their requests one by one and
    in order: when [execute] returns, the i-th response carries as PREDICTION
    the scores of the i-th request's own features and edges, as one scoring
    pass computes them from [self] alone, converted to the configured
    element type. The scores of a request depend
    neither on its place in the batch, nor on the other requests, nor on its
    COMPUTE_SHAP and FEATURE_MASK inputs, nor on the random generator. *)
Theorem responses_answer_their_requests reqs w rs w' :
  training (model (py_self w)) = false ->
  execute bernoulli randperm reqs w = (Ok rs, w') ->
  forall w0, py_self w0 = py_self w -> Forall2 (scored_by bernoulli w0) reqs rs.
Proof.
  intros Ht H w0 Hw0. unfold execute in H.
  destruct (execute_loop_scored reqs [] w rs w' Ht H w0 Hw0) as (new & -> & Hnew).
  exact Hnew.
Qed.

End Batch.

Lemma responses_answer_their_requests_witness :
  exists rs w',
    execute Demo.bernoulli Demo.randperm
      [Demo.two_nodes true; Demo.one_node false [0; 1]] (Demo.world 3) = (Ok rs, w') /\
    Forall2 (scored_by Demo.bernoulli Demo.later_world)
      [Demo.two_nodes true; Demo.one_node false [0; 1]] rs.
Proof.
  assert (Hrun : exists rs w',
             execute Demo.bernoulli Demo.randperm
               [Demo.two_nodes true; Demo.one_node false [0; 1]] (Demo.world 3)
             = (Ok rs, w')) by (eexists _, _; vm_compute; reflexivity).
  destruct Hrun as (rs & w' & Hrun). exists rs, w'. split; [exact Hrun|].
  exact (responses_answer_their_requests Demo.bernoulli Demo.randperm
           [Demo.two_nodes true; Demo.one_node false [0; 1]] (Demo.world 3) rs w'
           eq_refl Hrun Demo.later_world eq_refl).
Defined.

(** ** Two runs side by side

    [sim R m1 m2]: from worlds related by [R], the two computations give the
    same result and leave related worlds. *)

Section Relational.

Context {RngState : Type} {R : relation (World RngState)}.

Lemma sim_ret {A} (a : A) : sim R (ret a) (ret a).
Proof. intros w1 w2 H. auto. Qed.

Lemma sim_raise {A} (e : PyError) : sim R (@raise RngState A e) (raise e).
Proof. intros w1 w2 H. auto. Qed.

Lemma sim_lift {A} (r : result A) : sim R (@lift RngState A r) (lift r).
Proof. intros w1 w2 H. auto. Qed.

Lemma sim_bind {A B} (m1 m2 : Py RngState A) (k1 k2 : A -> Py RngState B) :
  sim R m1 m2 -> (forall a, sim R (k1 a) (k2 a)) -> sim R (bind m1 k1) (bind m2 k2).
Proof.
  intros Hm Hk w1 w2 H. generalize (Hm w1 w2 H). unfold bind.
  destruct (m1 w1) as [[a|e] w1'], (m2 w2) as [[a'|e'] w2']; simpl;
    intros [Hf Hs]; try discriminate.
  - injection Hf as <-. now apply Hk.
  - injection Hf as <-. split; [reflexivity | assumption].
Qed.

Lemma sim_mapM {A B} (f : A -> Py RngState B) (l : list A) :
  (forall a, sim R (f a) (f a)) -> sim R (mapM f l) (mapM f l).
Proof.
  intros Hf. induction l as [|a l IH]; simpl; [apply sim_ret|].
  apply sim_bind; [apply Hf|]. intros b.
  apply sim_bind; [apply IH|]. intros bs. apply sim_ret.
Qed.

Lemma sim_foldM {A B} (f : B -> A -> Py RngState B) (l : list A) :
  (forall acc a, sim R (f acc a) (f acc a)) ->
  forall acc, sim R (foldM f l acc) (foldM f l acc).
Proof.
  intros Hf. induction l as [|a l IH]; intros acc; simpl; [apply sim_ret|].
  apply sim_bind; [apply Hf | apply IH].
Qed.

Lemma sim_as_numpy {A} (input : option A) : sim R (as_numpy input) (as_numpy input).
Proof. destruct input; [apply sim_ret | apply sim_raise]. Qed.

Lemma sim_index0 {A} (l : list A) : sim R (index0 l) (index0 l).
Proof. destruct l; [apply sim_raise | apply sim_ret]. Qed.

End Relational.

(** ** What [execute] reads of [self] *)

Section Frame.

Context {RngState : Type}
  (bernoulli : RngState -> Q -> bool * RngState)
  (randperm : RngState -> list Z -> list Z * RngState).

Lemma sim_bind_get_self {B} (k1 k2 : TritonPythonModel -> Py RngState B) :
  (forall s1 s2, same_serving s1 s2 -> sim (@serving_rel RngState) (k1 s1) (k2 s2)) ->
  sim (@serving_rel RngState) (bind get_self k1) (bind get_self k2).
Proof.
  intros Hk w1 w2 H. rewrite !bind_get_self. apply Hk; [apply H | exact H].
Qed.

Lemma sim_record c : sim (@serving_rel RngState) (record c) (record c).
Proof.
  intros w1 w2 (Hs & Hr & Hc). unfold record, serving_rel; simpl.
  repeat split; auto; try apply Hs. now rewrite Hc.
Qed.

Lemma sim_draw_bernoulli p : sim (@serving_rel RngState) (draw_bernoulli bernoulli p) (draw_bernoulli bernoulli p).
Proof.
  intros w1 w2 (Hs & Hr & Hc). unfold draw_bernoulli. rewrite Hr.
  destruct (bernoulli (rng w2) p) as [b r]. unfold serving_rel; simpl. auto.
Qed.

Lemma sim_draw_randperm groups :
  sim (@serving_rel RngState) (draw_randperm randperm groups) (draw_randperm randperm groups).
Proof.
  intros w1 w2 (Hs & Hr & Hc). unfold draw_randperm. rewrite Hr.
  destruct (randperm (rng w2) groups) as [perm r]. unfold serving_rel; simpl.
  rewrite Hc. auto.
Qed.

Lemma sim_dropout input p train :
  sim (@serving_rel RngState) (dropout bernoulli input p train) (dropout bernoulli input p train).
Proof.
  unfold dropout. destruct (Qle_bool 0 p && Qle_bool p 1); [|apply sim_raise].
  destruct train; [|apply sim_ret].
  apply sim_bind; [|intros; apply sim_ret].
  apply sim_mapM. intros row. apply sim_mapM. intros v. unfold dropout_entry.
  apply sim_bind; [apply sim_draw_bernoulli | intros; apply sim_ret].
Qed.

Lemma sim_conv_loop m1 m2 cs :
  dropout_prob m1 = dropout_prob m2 -> training m1 = training m2 ->
  forall emb e, sim (@serving_rel RngState) (conv_loop bernoulli m1 cs emb e) (conv_loop bernoulli m2 cs emb e).
Proof.
  intros Hp Ht. induction cs as [|c cs IH]; intros emb e; simpl; [apply sim_ret|].
  apply sim_bind; [apply sim_lift|]. intros e1. rewrite Hp, Ht.
  apply sim_bind; [apply sim_dropout | intros; apply IH].
Qed.

Lemma sim_model_call m1 m2 x e :
  convs m1 = convs m2 -> dropout_prob m1 = dropout_prob m2 -> training m1 = training m2 ->
  sim (@serving_rel RngState) (model_call bernoulli m1 x e true) (model_call bernoulli m2 x e true).
Proof.
  intros Hc Hp Ht. unfold model_call.
  apply sim_bind; [apply sim_record|]. intros _. unfold GraphSAGE_forward. rewrite Hc.
  apply sim_bind; [now apply sim_conv_loop|]. intros emb.
  apply sim_bind; [apply sim_lift | intros; apply sim_ret].
Qed.

Lemma sim_bst_predict b emb : sim (@serving_rel RngState) (bst_predict b emb) (bst_predict b emb).
Proof.
  unfold bst_predict. apply sim_bind; [apply sim_record | intros; apply sim_lift].
Qed.

Lemma sim_forward_function e x :
  sim (@serving_rel RngState) (forward_function bernoulli e x) (forward_function bernoulli e x).
Proof.
  unfold forward_function. apply sim_bind_get_self.
  intros s1 s2 (Hc & Hp & Ht & Hb & _).
  apply sim_bind; [now apply sim_model_call|]. intros emb. rewrite Hb.
  apply sim_bst_predict.
Qed.

Lemma sim_attribute (f : Tensor -> Py RngState (list Q)) x b mk n :
  (forall t, sim (@serving_rel RngState) (f t) (f t)) ->
  sim (@serving_rel RngState) (attribute randperm f x b mk n) (attribute randperm f x b mk n).
Proof.
  intros Hf. unfold attribute.
  destruct (n <? 1); [apply sim_raise|].
  destruct (negb _); [apply sim_raise|].
  destruct (negb _); [apply sim_raise|].
  apply sim_bind; [apply Hf|]. intros init.
  destruct (Nat.eqb _ _); [|apply sim_raise].
  apply sim_bind; [|intros; apply sim_ret].
  apply sim_foldM. intros acc k. unfold sample_once.
  apply sim_bind; [apply sim_draw_randperm|]. intros perm.
  apply sim_bind; [|intros; apply sim_ret].
  apply sim_foldM. intros st g. unfold walk_step.
  apply sim_bind; [apply Hf|]. intros ev.
  destruct (Nat.eqb _ _); [apply sim_ret | apply sim_raise].
Qed.

Lemma sim_execute_request req :
  sim (@serving_rel RngState) (execute_request bernoulli randperm req) (execute_request bernoulli randperm req).
Proof.
  unfold execute_request. apply sim_bind_get_self.
  intros s1 s2 (Hc & Hp & Ht & Hb & Hin & Hpd & Hsd).
  do 4 (apply sim_bind; [apply sim_as_numpy|]; intros ?).
  apply sim_bind; [now apply sim_model_call|]. intros emb. rewrite Hb.
  apply sim_bind; [apply sim_bst_predict|]. intros scores.
  apply sim_bind; [apply sim_index0|]. intros flag.
  rewrite Hin, Hpd, Hsd.
  apply sim_bind; [|intros; apply sim_ret].
  destruct flag.
  - intros w1 w2 H. rewrite !ShapleyValueSampling_bind.
    assert (Hcall : sim (@serving_rel RngState)
                      (attribute_call randperm (forward_function bernoulli a0) a
                         (zeros_like a) (map to_int32 a2) 128)
                      (attribute_call randperm (forward_function bernoulli a0) a
                         (zeros_like a) (map to_int32 a2) 128)).
    { unfold attribute_call. apply sim_bind; [apply sim_record|]. intros _.
      apply sim_attribute. intros t. apply sim_forward_function. }
    apply Hcall. exact (proj2 (sim_record CallShapleyValueSampling w1 w2 H)).
  - destruct (0 <=? in_channels s2); [apply sim_ret | apply sim_raise].
Qed.

Lemma sim_execute_loop reqs : forall acc,
  sim (@serving_rel RngState) (execute_loop bernoulli randperm reqs acc) (execute_loop bernoulli randperm reqs acc).
Proof.
  induction reqs as [|req reqs IH]; intros acc; simpl; [apply sim_ret|].
  apply sim_bind; [apply sim_execute_request | intros; apply IH].
Qed.

(** X13. [execute] reads of [self] only the convolution layers, the dropout
    probability and the mode of the embedder, the tree ensemble,
    [in_channels] and the element types of the two outputs. Two objects that
    agree on these give, on every batch and from the same generator state,
    the same responses or the same exception, the same library calls and the
    same generator state; the output layer [fc], [out_channels],
    [hidden_channels], [n_layers], the two file names and the element type
    of FEATURE_MASK are never read. *)
Theorem execute_reads_only_serving_state reqs (s1 s2 : TritonPythonModel)
    (r : RngState) (l : list Call) :
  same_serving s1 s2 ->
  fst (execute bernoulli randperm reqs (mkWorld s1 r l))
  = fst (execute bernoulli randperm reqs (mkWorld s2 r l)) /\
  rng (snd (execute bernoulli randperm reqs (mkWorld s1 r l)))
  = rng (snd (execute bernoulli randperm reqs (mkWorld s2 r l))) /\
  calls (snd (execute bernoulli randperm reqs (mkWorld s1 r l)))
  = calls (snd (execute bernoulli randperm reqs (mkWorld s2 r l))).
Proof.
  intros Hs. unfold execute.
  destruct (sim_execute_loop reqs [] (mkWorld s1 r l) (mkWorld s2 r l))
    as (Hf & _ & Hr & Hc).
  - split; [exact Hs|]. split; reflexivity.
  - auto.
Qed.

End Frame.

Lemma execute_reads_only_serving_state_witness :
  fst (execute Demo.bernoulli Demo.randperm [Demo.two_nodes true; Demo.bad_width]
         (mkWorld (Demo.self 3) O []))
  = fst (execute Demo.bernoulli Demo.randperm [Demo.two_nodes true; Demo.bad_width]
           (mkWorld
              (mkTritonPythonModel 2 7 9 4 "other.pth" "other.json" np_int64 np_float32
                 np_float32
                 (mkGraphSAGE 0 0 0 0 [Demo.conv] (mkLinear (mkTensor 0 []) None)
                    (1 # 4) false)
                 (Demo.booster 3)) O [])).
Proof.
  apply (execute_reads_only_serving_state Demo.bernoulli Demo.randperm).
  unfold same_serving; simpl. repeat split.
Defined.

(** ** install_package *)

(** X14. [install_package] runs pip only after an ImportError: when the
    import succeeds, or fails with another exception (which is not caught),
    no command is run. After an ImportError exactly one command is run, the
    interpreter's own pip on the package, pinned with [==] exactly when a
    non-empty version is given (an empty version string counts as none);
    the function returns normally exactly when pip exits with status 0, and
    otherwise raises CalledProcessError without printing the closing
    line. *)
Theorem install_package_runs_pip_only_after_ImportError
    (h : Host) (package : string) (version : option string) (c : Console) :
  let r := install_package h package version c in
  let spec := match version with
              | Some v => if String.eqb v "" then package else (package ++ "==" ++ v)%string
              | None => package
              end in
  let cmd := [sys_executable h; "-m"; "pip"; "install"; spec]%string in
  (import_module h package <> NotImportable -> commands (snd r) = commands c) /\
  (import_module h package = Imported -> fst r = None) /\
  (forall e, import_module h package = ImportRaises e ->
     fst r = Some (ImportException e) /\ snd r = c) /\
  (import_module h package = NotImportable ->
     commands (snd r) = commands c ++ [cmd] /\
     (exit_status h cmd = 0 ->
        fst r = None /\
        printed (snd r) = printed c ++ [("Installing " ++ spec ++ " ...")%string;
                                        ("Installation of " ++ spec ++ " finished!")%string]) /\
     (exit_status h cmd <> 0 ->
        fst r = Some (CalledProcessError (exit_status h cmd) cmd) /\
        printed (snd r) = printed c ++ [("Installing " ++ spec ++ " ...")%string])).
Proof.
  intros r spec cmd. subst r. unfold install_package.
  change (package_spec package version) with spec.
  change (pip_command h spec) with cmd.
  destruct (import_module h package) as [| |e] eqn:Hi.
  - split; [reflexivity|]. split; [reflexivity|]. split; [discriminate|discriminate].
  - split; [congruence|]. split; [discriminate|]. split; [discriminate|]. intros _.
    unfold check_call. destruct (Z.eqb_spec (exit_status h cmd) 0) as [Hz|Hz]; simpl.
    + split; [reflexivity|]. split; [|congruence]. intros _.
      split; [reflexivity|]. now rewrite <- app_assoc.
    + split; [reflexivity|]. split; [congruence|]. intros _. split; reflexivity.
  - split; [reflexivity|]. split; [discriminate|]. split; [|discriminate].
    intros e' [= <-]. split; reflexivity.
Qed.

(** ** A batch is the sequence of its parts *)

Section Sequence.

Context {RngState : Type}
  (bernoulli : RngState -> Q -> bool * RngState)
  (randperm : RngState -> list Z -> list Z * RngState).

Lemma execute_loop_acc reqs : forall acc (w : World RngState),
  execute_loop bernoulli randperm reqs acc w
  = match execute_loop bernoulli randperm reqs [] w with
    | (Ok rs, w') => (Ok (acc ++ rs), w')
    | (Raise e, w') => (Raise e, w')
    end.
Proof.
  induction reqs as [|req reqs IH]; intros acc w; simpl.
  - unfold ret. now rewrite app_nil_r.
  - unfold bind. destruct (execute_request bernoulli randperm req w) as [[resp|e] w1];
      [|reflexivity].
    rewrite (IH (acc ++ [resp])), (IH ([] ++ [resp])).
    destruct (execute_loop bernoulli randperm reqs [] w1) as [[rs|e] w2]; [|reflexivity].
    now rewrite <- app_assoc.
Qed.

(** X15. [execute] handles a batch as the sequence of its parts: running
    [pre ++ post] is running [pre] and then [post] from the world that [pre]
    left (the generator state and the calls made; [self] is not changed), the
    responses of [post] following those of [pre]; an exception in either part
    is the outcome of the whole batch. *)
Theorem execute_splits_at_any_point (pre post : list InferenceRequest) (w : World RngState) :
  execute bernoulli randperm (pre ++ post) w
  = match execute bernoulli randperm pre w with
    | (Ok rs, w1) =>
        match execute bernoulli randperm post w1 with
        | (Ok rs', w2) => (Ok (rs ++ rs'), w2)
        | (Raise e, w2) => (Raise e, w2)
        end
    | (Raise e, w1) => (Raise e, w1)
    end.
Proof.
  unfold execute. revert w. induction pre as [|req pre IH]; intros w; simpl.
  - unfold ret. now destruct (execute_loop bernoulli randperm post [] w) as [[rs|e] w2].
  - unfold bind. destruct (execute_request bernoulli randperm req w) as [[resp|e] w1];
      [|reflexivity].
    rewrite (execute_loop_acc (pre ++ post) ([] ++ [resp])),
      (execute_loop_acc pre ([] ++ [resp])), IH.
    destruct (execute_loop bernoulli randperm pre [] w1) as [[rs|e] w2]; [|reflexivity].
    destruct (execute_loop bernoulli randperm post [] w2) as [[rs'|e] w3]; [|reflexivity].
    now rewrite app_assoc.
Qed.

End Sequence.

(** ** Batches that ask for no attribution *)

Section Deterministic.

Context {RngState : Type}
  (bernoulli : RngState -> Q -> bool * RngState)
  (randperm : RngState -> list Z -> list Z * RngState)
  (self : TritonPythonModel).

Lemma sim_bind_as_numpy {R : relation (World RngState)} {A B} (input : option A)
    (k1 k2 : A -> Py RngState B) :
  (forall a, input = Some a -> sim R (k1 a) (k2 a)) ->
  sim R (bind (as_numpy input) k1) (bind (as_numpy input) k2).
Proof.
  intros Hk. destruct input as [a|]; intros w1 w2 H.
  - exact (Hk a eq_refl w1 w2 H).
  - simpl. auto.
Qed.

Lemma sim_bind_index0 {R : relation (World RngState)} {A B} (l : list A)
    (k1 k2 : A -> Py RngState B) :
  (forall a rest, l = a :: rest -> sim R (k1 a) (k2 a)) ->
  sim R (bind (index0 l) k1) (bind (index0 l) k2).
Proof.
  intros Hk. destruct l as [|a rest]; intros w1 w2 H.
  - simpl. auto.
  - exact (Hk a rest eq_refl w1 w2 H).
Qed.

Lemma both_hold_pure {A} (m : Py RngState A) :
  (exists r, forall w, m w = (r, w)) -> sim (@both_hold RngState self) m m.
Proof. intros [r Hr] w1 w2 H. rewrite !Hr. auto. Qed.

Lemma both_hold_record c : sim (@both_hold RngState self) (record c) (record c).
Proof. intros w1 w2 H. split; [reflexivity | exact H]. Qed.

Lemma both_hold_get_self {B} (k : TritonPythonModel -> Py RngState B) :
  sim (@both_hold RngState self) (k self) (k self) ->
  sim (@both_hold RngState self) (bind get_self k) (bind get_self k).
Proof.
  intros Hk w1 w2 H. rewrite !bind_get_self.
  destruct H as [H1 H2]. rewrite H1, H2. apply Hk. now split.
Qed.

Lemma both_hold_execute_request req :
  training (model self) = false -> asks_attribution req = false ->
  sim (@both_hold RngState self) (execute_request bernoulli randperm req)
    (execute_request bernoulli randperm req).
Proof.
  intros Ht Hskip. unfold execute_request. apply both_hold_get_self.
  apply sim_bind_as_numpy. intros x _.
  apply sim_bind_as_numpy. intros e _.
  apply sim_bind_as_numpy. intros flags Hflags.
  apply sim_bind_as_numpy. intros mk _.
  apply sim_bind.
  { unfold model_call. apply sim_bind; [apply both_hold_record|]. intros _.
    apply both_hold_pure. now apply GraphSAGE_forward_eval. }
  intros emb. apply sim_bind.
  { unfold bst_predict. apply sim_bind; [apply both_hold_record|]. intros _.
    apply sim_lift. }
  intros scores. apply sim_bind_index0. intros flag rest ->.
  unfold asks_attribution in Hskip. rewrite Hflags in Hskip.
  destruct flag; [discriminate|].
  apply sim_bind; [|intros; apply sim_ret].
  destruct (0 <=? in_channels self); [apply sim_ret | apply sim_raise].
Qed.

Lemma both_hold_execute_loop reqs :
  training (model self) = false ->
  Forall (fun req => asks_attribution req = false) reqs ->
  forall acc, sim (@both_hold RngState self) (execute_loop bernoulli randperm reqs acc)
                (execute_loop bernoulli randperm reqs acc).
Proof.
  intros Ht Hreqs. induction Hreqs as [|req reqs Hreq _ IH]; intros acc; simpl.
  - apply sim_ret.
  - apply sim_bind; [now apply both_hold_execute_request | intros; apply IH].
Qed.

End Deterministic.

Section DeterministicBatch.

Context {RngState : Type}
  (bernoulli : RngState -> Q -> bool * RngState)
  (randperm : RngState -> list Z -> list Z * RngState).

(** X16. In inference mode a batch in which no request asks for attributions
    is answered deterministically: its outcome, the list of responses or the
    exception, is fixed by [self] and the requests; the state of the random
    generator and what was called before have no part in it. *)
Theorem batch_without_attribution_is_deterministic reqs (w1 w2 : World RngState) :
  training (model (py_self w1)) = false ->
  py_self w2 = py_self w1 ->
  Forall (fun req => asks_attribution req = false) reqs ->
  fst (execute bernoulli randperm reqs w1) = fst (execute bernoulli randperm reqs w2).
Proof.
  intros Ht Hself Hreqs. unfold execute.
  apply (both_hold_execute_loop bernoulli randperm (py_self w1) reqs Ht Hreqs [] w1 w2).
  now split.
Qed.

End DeterministicBatch.

Lemma batch_without_attribution_is_deterministic_witness :
  fst (execute Demo.bernoulli Demo.randperm
         [Demo.two_nodes false; Demo.bad_width] (Demo.world 3))
  = fst (execute Demo.bernoulli Demo.randperm
           [Demo.two_nodes false; Demo.bad_width] Demo.later_world).
Proof.
  apply (batch_without_attribution_is_deterministic Demo.bernoulli Demo.randperm
           [Demo.two_nodes false; Demo.bad_width] (Demo.world 3) Demo.later_world).
  - reflexivity.
  - reflexivity.
  - repeat constructor.
Defined.
